(** * armsoc: buffer objects (omap_dumb.c) and DRI2 swap scheduling (omap_dri2.c)

    A shallow embedding of the two C files.  C objects live in finite maps
    keyed by their address; a pointer is [option positive] with [None] for
    NULL.  Calls that leave the driver (libdrm, the kernel, the X server) are
    answered by an oracle that sees the history of earlier calls, and every
    such call is appended to a log.  A failed [assert] or a dereference of a
    pointer that is NULL or dangling ends the run with [Abort]. *)

From Stdlib Require Import ZArith Lia Bool List.
From stdpp Require Import base option list gmap.
Import ListNotations.

Local Open Scope Z_scope.

(** ** C integers *)

Definition uint32 (z : Z) : Z := z mod 2 ^ 32.

(** [int] arithmetic, two's complement on 32 bits. *)
Definition int32 (z : Z) : Z := (z + 2 ^ 31) mod 2 ^ 32 - 2 ^ 31.

Definition INT_MAX : Z := 2 ^ 31 - 1.
Definition INT_MIN : Z := - 2 ^ 31.

Definition TRUE : Z := 1.
Definition FALSE : Z := 0.

(** ** Runs that may abort, over a state *)

Inductive outcome (St A : Type) :=
| Ret (a : A) (s : St)
| Abort.
Arguments Ret {St A} a s.
Arguments Abort {St A}.

Definition M (St A : Type) : Type := St -> outcome St A.

Definition ret {St A} (a : A) : M St A := fun s => Ret a s.

Definition bind {St A B} (m : M St A) (f : A -> M St B) : M St B :=
  fun s => match m s with
           | Ret a s' => f a s'
           | Abort => Abort
           end.

Definition abort {St A} : M St A := fun _ => Abort.

Declare Scope c_scope.
Delimit Scope c_scope with c.
Notation "x <- m ;; k" := (bind m (fun x => k))
  (at level 100, m at next level, right associativity) : c_scope.
Notation "m ;;; k" := (bind m (fun _ => k))
  (at level 100, right associativity) : c_scope.
Local Open Scope c_scope.

(** ** omap_dumb.c *)

Module Dumb.

(** [struct exynos_bo] of libdrm, as far as the driver reads it. *)
Record exynos_bo := mk_exynos_bo {
  handle : Z;
  size : Z;
  name : Z;
  vaddr : Z
}.

Record omap_bo := mk_omap_bo {
  dev : Z;
  exynos_bo_p : option positive;
  fb_id : Z;
  width : Z;
  height : Z;
  pitch : Z;
  depth : Z;
  bpp : Z;
  pixel_format : Z;
  refcnt : Z;
  acquired_exclusive : Z;
  acquire_cnt : Z;
  dirty : Z
}.

(** What [calloc] hands out. *)
Definition zero_bo : omap_bo :=
  mk_omap_bo 0 None 0 0 0 0 0 0 0 0 0 0 0.

Definition DRM_EXYNOS_GEM_CPU_ACQUIRE_SHARED : Z := 0.
Definition DRM_EXYNOS_GEM_CPU_ACQUIRE_EXCLUSIVE : Z := 1.
Definition EXYNOS_BO_NONCONTIG : Z := 1.

(** Calls that leave the driver. *)
Inductive call :=
| Calloc
| ExynosBoCreate (sz flags : Z)
| ExynosBoDestroy (h : Z)
| AddFB (w h d b p hd : Z)
| AddFB2 (w h fmt hd p : Z)
| RmFB (fb : Z)
| CpuAcquire (hd flags : Z)
| CpuRelease (hd : Z).

(** A logged call with the value it returned. *)
Definition event : Type := call * Z.

(** The hardware acquires and releases in a log. *)
Definition is_acquire (e : event) : bool :=
  match fst e with CpuAcquire _ _ => true | _ => false end.

Definition is_release (e : event) : bool :=
  match fst e with CpuRelease _ => true | _ => false end.

Definition acquires (l : list event) : nat := length (List.filter is_acquire l).
Definition releases (l : list event) : nat := length (List.filter is_release l).

(** The environment: the return code of a call given the calls made so far
    (most recent first), and the identifier a successful framebuffer
    registration writes through its out pointer. *)
Record kernel := mk_kernel {
  sys : list event -> call -> Z;
  new_fb : list event -> Z
}.

Record world := mk_world {
  bos : gmap positive omap_bo;
  gem : gmap positive exynos_bo;
  log : list event
}.

Abbreviation M := (M world).

Section WithKernel.

Variable K : kernel.

(** Make a call: ask the oracle and log the answer. *)
Definition syscall (c : call) : M Z :=
  fun w =>
    let r := sys K (log w) c in
    Ret r (mk_world (bos w) (gem w) ((c, r) :: log w)).

(** [*bo] for a pointer that must be valid. *)
Definition load (p : positive) : M omap_bo :=
  fun w => match bos w !! p with
           | Some b => Ret b w
           | None => Abort
           end.

Definition store (p : positive) (b : omap_bo) : M unit :=
  fun w => Ret tt (mk_world (<[p := b]> (bos w)) (gem w) (log w)).

Definition free (p : positive) : M unit :=
  fun w => Ret tt (mk_world (delete p (bos w)) (gem w) (log w)).

(** [calloc(1, sizeof(struct omap_bo))]: NULL, or a zeroed object at an
    address not in use. *)
Definition calloc : M (option positive) :=
  r <- syscall Calloc ;;
  if r =? 0 then ret None
  else fun w =>
    let p := fresh (dom (bos w)) in
    Ret (Some p) (mk_world (<[p := zero_bo]> (bos w)) (gem w) (log w)).

(** libdrm's [exynos_bo_create]: NULL, or a new [struct exynos_bo] holding the
    GEM handle the kernel returned. *)
Definition exynos_bo_create (sz flags : Z) : M (option positive) :=
  h <- syscall (ExynosBoCreate sz flags) ;;
  if h =? 0 then ret None
  else fun w =>
    let e := fresh (dom (gem w)) in
    Ret (Some e) (mk_world (bos w) (<[e := mk_exynos_bo h sz 0 0]> (gem w)) (log w)).

Definition exynos_load (e : option positive) : M exynos_bo :=
  fun w => match e with
           | Some e' => match gem w !! e' with
                        | Some x => Ret x w
                        | None => Abort
                        end
           | None => Abort
           end.

Definition exynos_bo_destroy (e : option positive) : M unit :=
  x <- exynos_load e ;;
  syscall (ExynosBoDestroy (handle x)) ;;;
  fun w => match e with
           | Some e' => Ret tt (mk_world (bos w) (delete e' (gem w)) (log w))
           | None => Abort
           end.

(** [drmModeAddFB] and [drmModeAddFB2]: the return code, and the value left in
    [*buf_id] (written only when the ioctl succeeded). *)
Definition drmModeAddFB (w h d b p hd : Z) (old : Z) : M (Z * Z) :=
  fun wd =>
    let id := new_fb K (log wd) in
    bind (syscall (AddFB w h d b p hd))
         (fun r => ret (r, if r =? 0 then id else old)) wd.

Definition drmModeAddFB2 (w h fmt hd p : Z) (old : Z) : M (Z * Z) :=
  fun wd =>
    let id := new_fb K (log wd) in
    bind (syscall (AddFB2 w h fmt hd p))
         (fun r => ret (r, if r =? 0 then id else old)) wd.

Definition set_exynos_bo (b : omap_bo) (e : option positive) : omap_bo :=
  mk_omap_bo (dev b) e (fb_id b) (width b) (height b) (pitch b)
    (depth b) (bpp b) (pixel_format b) (refcnt b) (acquired_exclusive b)
    (acquire_cnt b) (dirty b).

(** The row stride of [omap_bo_new], in [uint32_t] arithmetic. *)
Definition pitch_of (width bpp : Z) : Z :=
  uint32 (uint32 (uint32 (uint32 (uint32 (width * bpp) + 7) / 8) + 63) / 64 * 64).

Definition omap_bo_new (dv width height depth bpp pixel_format : Z)
  : M (option positive) :=
  new_buf <- calloc ;;
  match new_buf with
  | None => ret None
  | Some p =>
    let pitch := pitch_of width bpp in
    let size := uint32 (height * pitch) in
    let flags := EXYNOS_BO_NONCONTIG in
    e <- exynos_bo_create size flags ;;
    match e with
    | None => free p ;;; ret None
    | Some _ =>
      b0 <- load p ;;
      store p (set_exynos_bo b0 e) ;;;
      x <- exynos_load e ;;
      rf <- (if depth =? 0
             then drmModeAddFB2 width height pixel_format (handle x) pitch (fb_id b0)
             else drmModeAddFB width height depth bpp pitch (handle x) (fb_id b0)) ;;
      if fst rf <? 0 then
        (* destroy_bo: *)
        exynos_bo_destroy e ;;;
        free p ;;;
        ret None
      else
        store p (mk_omap_bo dv e (snd rf) width height pitch depth bpp
                   pixel_format 1 0 0 TRUE) ;;;
        ret (Some p)
    end
  end.

Definition omap_bo_new_with_depth (dv width height depth bpp : Z) :=
  omap_bo_new dv width height depth bpp 0.

Definition omap_bo_new_with_format (dv width height pixel_format bpp : Z) :=
  omap_bo_new dv width height 0 bpp pixel_format.

Definition omap_bo_del (bo : option positive) : M unit :=
  match bo with
  | None => ret tt
  | Some p =>
    b <- load p ;;
    res <- syscall (RmFB (fb_id b)) ;;
    if res =? 0 then
      exynos_bo_destroy (exynos_bo_p b) ;;;
      free p
    else abort (* assert(res == 0) *)
  end.

Definition set_refcnt (b : omap_bo) (n : Z) : omap_bo :=
  mk_omap_bo (dev b) (exynos_bo_p b) (fb_id b) (width b) (height b) (pitch b)
    (depth b) (bpp b) (pixel_format b) n (acquired_exclusive b)
    (acquire_cnt b) (dirty b).

Definition omap_bo_unreference (bo : option positive) : M unit :=
  match bo with
  | None => ret tt
  | Some p =>
    b <- load p ;;
    if 0 <? refcnt b then
      let n := int32 (refcnt b - 1) in
      store p (set_refcnt b n) ;;;
      if n =? 0 then omap_bo_del bo else ret tt
    else abort (* assert(bo->refcnt > 0) *)
  end.

Definition omap_bo_reference (bo : option positive) : M unit :=
  match bo with
  | None => abort
  | Some p =>
    b <- load p ;;
    if 0 <? refcnt b then store p (set_refcnt b (int32 (refcnt b + 1)))
    else abort (* assert(bo->refcnt > 0) *)
  end.

Definition omap_bo_width (p : positive) : M Z := b <- load p ;; ret (width b).
Definition omap_bo_height (p : positive) : M Z := b <- load p ;; ret (height b).
Definition omap_bo_fb (p : positive) : M Z := b <- load p ;; ret (fb_id b).

Definition set_acquire (b : omap_bo) (excl cnt dty : Z) : omap_bo :=
  mk_omap_bo (dev b) (exynos_bo_p b) (fb_id b) (width b) (height b) (pitch b)
    (depth b) (bpp b) (pixel_format b) (refcnt b) excl cnt dty.

Section Fence.

(** [OMAP_GEM_WRITE] of [enum omap_gem_op] (omap_dumb.h). *)
Variable OMAP_GEM_WRITE : Z.

Definition omap_bo_cpu_prep (p : positive) (op : Z) : M Z :=
  b <- load p ;;
  if negb (acquire_cnt b =? 0) then
    if negb (Z.land op OMAP_GEM_WRITE =? 0) && (acquired_exclusive b =? 0) then
      ret 1
    else
      store p (set_acquire b (acquired_exclusive b) (int32 (acquire_cnt b + 1))
                 (dirty b)) ;;;
      ret 0
  else
    x <- exynos_load (exynos_bo_p b) ;;
    let flags := if negb (Z.land op OMAP_GEM_WRITE =? 0)
                 then DRM_EXYNOS_GEM_CPU_ACQUIRE_EXCLUSIVE
                 else DRM_EXYNOS_GEM_CPU_ACQUIRE_SHARED in
    r <- syscall (CpuAcquire (handle x) flags) ;;
    if negb (r =? 0) then ret r
    else
      let excl := Z.land op OMAP_GEM_WRITE in
      store p (set_acquire b excl (int32 (acquire_cnt b + 1))
                 (if negb (excl =? 0) then TRUE else dirty b)) ;;;
      ret r.

Definition omap_bo_cpu_fini (p : positive) (op : Z) : M Z :=
  b <- load p ;;
  if 0 <? acquire_cnt b then
    let n := int32 (acquire_cnt b - 1) in
    store p (set_acquire b (acquired_exclusive b) n (dirty b)) ;;;
    if negb (n =? 0) then ret 0
    else
      x <- exynos_load (exynos_bo_p b) ;;
      syscall (CpuRelease (handle x))
  else abort (* assert(bo->acquire_cnt > 0) *).

End Fence.

Definition omap_bo_get_dirty (p : positive) : M Z := b <- load p ;; ret (dirty b).

Definition omap_bo_clear_dirty (p : positive) : M unit :=
  b <- load p ;;
  store p (set_acquire b (acquired_exclusive b) (acquire_cnt b) FALSE).

End WithKernel.

End Dumb.

(** [mapM f l]: the calls [f x] for the [x] of [l], one after the other. *)
Fixpoint mapM {St A B} (f : A -> M St B) (l : list A) : M St (list B) :=
  match l with
  | [] => ret []
  | x :: r => y <- f x ;; ys <- mapM f r ;; ret (y :: ys)
  end.

(** ** omap_dri2.c *)

Module Dri2.

Definition DRAWABLE_WINDOW : Z := 0.
Definition DRAWABLE_PIXMAP : Z := 1.
Definition DRI2BufferFrontLeft : Z := 0.
Definition DRI2_BLIT_COMPLETE : Z := 2.
Definition DRI2_FLIP_COMPLETE : Z := 3.
Definition OMAP_SWAP_FAKE_FLIP : Z := Z.shiftl 1 0.
Definition OMAP_SWAP_FAIL : Z := Z.shiftl 1 1.
Definition MAX_SERIAL_NUM : Z := Z.shiftl 1 28.

(** [DrawableRec] of the X server, the fields the driver reads. *)
Record DrawableRec := mk_drawable {
  d_type : Z;
  id : Z;
  d_x : Z;
  d_y : Z;
  d_width : Z;
  d_height : Z;
  d_depth : Z;
  serialNumber : Z
}.

(** What the driver touches of a [PixmapRec]: its reference count and the
    BO of its driver private, [OMAPPixmapPrivRec.bo].  The [DrawableRec] at
    the head of a pixmap is kept with the other drawables, at the same
    address. *)
Record PixmapRec := mk_pixmap {
  pix_refcnt : Z;
  priv_bo : option positive
}.

Record OMAPDRI2BufferRec := mk_buffer {
  attachment : Z;
  pPixmap : option positive;
  previous_canflip : Z
}.

(** One slot of [pOMAP->scanouts]. *)
Record OMAPScanout := mk_scanout {
  bo : option positive;
  s_x : Z;
  s_y : Z;
  valid : Z
}.

Record OMAPDRISwapCmd := mk_cmd {
  type : Z;
  client : Z;
  draw_id : Z;
  pDstPixmap : option positive;
  pSrcPixmap : option positive;
  func : Z;
  swapCount : Z;
  flags : Z;
  crtc_id : Z;
  x : Z;
  y : Z;
  data : Z
}.

(** Calls into the X server and the mode-setting half of the driver. *)
Inductive xcall :=
| CallocCmd
| SetFlipMode
| SetBlitMode
| PageFlip (pDraw : positive) (fb : Z) (cmd : positive)
| GetScratchGC (depth : Z)
| CopyArea (src dst : option positive) (w h : Z)
| SwapNotify (cl : Z) (pDraw : positive) (ty fn dt : Z)
| DestroyPixmap (p : option positive)
| ScanoutSet (px py : Z) (b : option positive)
| FreeCmd (c : positive).

Definition xevent : Type := xcall * Z.

Record xenv := mk_xenv {
  xsys : list xevent -> xcall -> Z
}.

Record server := mk_server {
  dumb : Dumb.world;
  draws : gmap positive DrawableRec;
  pixmaps : gmap positive PixmapRec;
  winpix : gmap positive positive;
  resources : gmap Z positive;
  bufs : gmap positive OMAPDRI2BufferRec;
  cmds : gmap positive OMAPDRISwapCmd;
  scanouts : list OMAPScanout;
  scanout : option positive;
  has_resized : Z;
  pending_flips : Z;
  globalSerialNumber : Z;
  xlog : list xevent
}.

Definition set_dumb (s : server) (v : Dumb.world) : server :=
  mk_server v (draws s) (pixmaps s) (winpix s) (resources s) (bufs s) (cmds s)
    (scanouts s) (scanout s) (has_resized s) (pending_flips s)
    (globalSerialNumber s) (xlog s).
Definition set_draws (s : server) (v : gmap positive DrawableRec) : server :=
  mk_server (dumb s) v (pixmaps s) (winpix s) (resources s) (bufs s) (cmds s)
    (scanouts s) (scanout s) (has_resized s) (pending_flips s)
    (globalSerialNumber s) (xlog s).
Definition set_pixmaps (s : server) (v : gmap positive PixmapRec) : server :=
  mk_server (dumb s) (draws s) v (winpix s) (resources s) (bufs s) (cmds s)
    (scanouts s) (scanout s) (has_resized s) (pending_flips s)
    (globalSerialNumber s) (xlog s).
Definition set_bufs (s : server) (v : gmap positive OMAPDRI2BufferRec) : server :=
  mk_server (dumb s) (draws s) (pixmaps s) (winpix s) (resources s) v (cmds s)
    (scanouts s) (scanout s) (has_resized s) (pending_flips s)
    (globalSerialNumber s) (xlog s).
Definition set_cmds (s : server) (v : gmap positive OMAPDRISwapCmd) : server :=
  mk_server (dumb s) (draws s) (pixmaps s) (winpix s) (resources s) (bufs s) v
    (scanouts s) (scanout s) (has_resized s) (pending_flips s)
    (globalSerialNumber s) (xlog s).
Definition set_scanouts (s : server) (v : list OMAPScanout) : server :=
  mk_server (dumb s) (draws s) (pixmaps s) (winpix s) (resources s) (bufs s)
    (cmds s) v (scanout s) (has_resized s) (pending_flips s)
    (globalSerialNumber s) (xlog s).
Definition set_has_resized (s : server) (v : Z) : server :=
  mk_server (dumb s) (draws s) (pixmaps s) (winpix s) (resources s) (bufs s)
    (cmds s) (scanouts s) (scanout s) v (pending_flips s)
    (globalSerialNumber s) (xlog s).
Definition set_pending_flips (s : server) (v : Z) : server :=
  mk_server (dumb s) (draws s) (pixmaps s) (winpix s) (resources s) (bufs s)
    (cmds s) (scanouts s) (scanout s) (has_resized s) v
    (globalSerialNumber s) (xlog s).
Definition set_globalSerialNumber (s : server) (v : Z) : server :=
  mk_server (dumb s) (draws s) (pixmaps s) (winpix s) (resources s) (bufs s)
    (cmds s) (scanouts s) (scanout s) (has_resized s) (pending_flips s)
    v (xlog s).
Definition set_xlog (s : server) (v : list xevent) : server :=
  mk_server (dumb s) (draws s) (pixmaps s) (winpix s) (resources s) (bufs s)
    (cmds s) (scanouts s) (scanout s) (has_resized s) (pending_flips s)
    (globalSerialNumber s) v.

Abbreviation X := (M server).

(** Run a function of omap_dumb.c on the BO heap of the server. *)
Definition lift {A} (m : M Dumb.world A) : X A :=
  fun s => match m (dumb s) with
           | Ret a w => Ret a (set_dumb s w)
           | Abort => Abort
           end.

Definition get {A} (f : server -> A) : X A := fun s => Ret (f s) s.
Definition modify (f : server -> server) : X unit := fun s => Ret tt (f s).

(** Dereference a pointer into one of the heaps. *)
Definition deref {V} (heap : server -> gmap positive V) (p : option positive) : X V :=
  fun s => match p with
           | Some a => match heap s !! a with
                       | Some v => Ret v s
                       | None => Abort
                       end
           | None => Abort
           end.

Definition load_draw (p : option positive) : X DrawableRec := deref draws p.
Definition load_pix (p : option positive) : X PixmapRec := deref pixmaps p.
Definition load_buf (p : positive) : X OMAPDRI2BufferRec := deref bufs (Some p).
Definition load_cmd (p : positive) : X OMAPDRISwapCmd := deref cmds (Some p).

Definition store_pix (p : option positive) (v : PixmapRec) : X unit :=
  match p with
  | Some a => modify (fun s => set_pixmaps s (<[a := v]> (pixmaps s)))
  | None => abort
  end.
Definition store_buf (p : positive) (v : OMAPDRI2BufferRec) : X unit :=
  modify (fun s => set_bufs s (<[p := v]> (bufs s))).
Definition store_cmd (p : positive) (v : OMAPDRISwapCmd) : X unit :=
  modify (fun s => set_cmds s (<[p := v]> (cmds s))).
Definition store_draw (p : positive) (v : DrawableRec) : X unit :=
  modify (fun s => set_draws s (<[p := v]> (draws s))).

Definition set_priv_bo (pm : PixmapRec) (b : option positive) : PixmapRec :=
  mk_pixmap (pix_refcnt pm) b.
Definition set_pix_refcnt (pm : PixmapRec) (n : Z) : PixmapRec :=
  mk_pixmap n (priv_bo pm).
Definition set_previous_canflip (b : OMAPDRI2BufferRec) (v : Z) : OMAPDRI2BufferRec :=
  mk_buffer (attachment b) (pPixmap b) v.
Definition set_valid (sl : OMAPScanout) (v : Z) : OMAPScanout :=
  mk_scanout (bo sl) (s_x sl) (s_y sl) v.
Definition set_type (c : OMAPDRISwapCmd) (v : Z) : OMAPDRISwapCmd :=
  mk_cmd v (client c) (draw_id c) (pDstPixmap c) (pSrcPixmap c) (func c)
    (swapCount c) (flags c) (crtc_id c) (x c) (y c) (data c).
Definition set_swapCount (c : OMAPDRISwapCmd) (v : Z) : OMAPDRISwapCmd :=
  mk_cmd (type c) (client c) (draw_id c) (pDstPixmap c) (pSrcPixmap c) (func c)
    v (flags c) (crtc_id c) (x c) (y c) (data c).
Definition set_flags (c : OMAPDRISwapCmd) (v : Z) : OMAPDRISwapCmd :=
  mk_cmd (type c) (client c) (draw_id c) (pDstPixmap c) (pSrcPixmap c) (func c)
    (swapCount c) v (crtc_id c) (x c) (y c) (data c).
Definition set_serialNumber (d : DrawableRec) (v : Z) : DrawableRec :=
  mk_drawable (d_type d) (id d) (d_x d) (d_y d) (d_width d) (d_height d)
    (d_depth d) v.

(** The two loops of [OMAPDRI2SwapComplete] over [pOMAP->scanouts], from
    index [i], with [n] iterations to go. *)
Fixpoint invalidate_scanouts (i n : nat) (l : list OMAPScanout) : list OMAPScanout :=
  match n with
  | O => l
  | S n' => invalidate_scanouts (S i) n' (alter (fun sl => set_valid sl FALSE) i l)
  end.

Fixpoint validate_scanout (b : option positive) (i n : nat) (l : list OMAPScanout)
  : list OMAPScanout :=
  match n with
  | O => l
  | S n' =>
    match l !! i with
    | Some sl =>
      if decide (bo sl = b) then <[i := set_valid sl TRUE]> l (* break *)
      else validate_scanout b (S i) n' l
    | None => validate_scanout b (S i) n' l
    end
  end.

(** One ownership reference less on a pixmap. *)
Definition unref_pix (p : positive) (m : gmap positive PixmapRec)
  : gmap positive PixmapRec :=
  alter (fun pm => set_pix_refcnt pm (int32 (pix_refcnt pm - 1))) p m.

(** The pixmaps once [a] and [b] have traded their BOs. *)
Definition exchanged (a b : positive) (pa pb : PixmapRec)
    (m : gmap positive PixmapRec) : gmap positive PixmapRec :=
  <[b := set_priv_bo pb (priv_bo pa)]> (<[a := set_priv_bo pa (priv_bo pb)]> m).

(** The reference counts of all pixmaps. *)
Definition refcnts (m : gmap positive PixmapRec) : gmap positive Z :=
  pix_refcnt <$> m.

(** A computation that reads the state and leaves it as it is. *)
Definition readonly {A} (m : M server A) : Prop :=
  forall s a s', m s = Ret a s' -> s' = s.

(** Events by kind. *)
Definition is_notify (e : xevent) : bool :=
  match fst e with
  | SwapNotify _ _ _ _ _ | ScanoutSet _ _ _ => true
  | _ => false
  end.

Definition is_scanout_set (e : xevent) : bool :=
  match fst e with
  | ScanoutSet _ _ _ => true
  | _ => false
  end.

Section WithEnv.

Variable K : Dumb.kernel.
Variable E : xenv.

(** The scanout registry of drmmode_display.c, taken as a parameter: the
    slot bound to a drawable, if any, and the update of the registry's
    position for a BO. *)
Variable drmmode_scanout_from_drawable :
  list OMAPScanout -> DrawableRec -> option OMAPScanout.
Variable drmmode_scanout_set :
  list OMAPScanout -> Z -> Z -> option positive -> list OMAPScanout.

(** Build-time constants of omap_driver.h. *)
Variable MAX_SCANOUTS : nat.
Variable OMAP_USE_PAGE_FLIP_EVENTS : bool.

Definition xcall_ (c : xcall) : X Z :=
  fun s =>
    let r := xsys E (xlog s) c in
    Ret r (set_xlog s ((c, r) :: xlog s)).

Definition dri2draw (pDraw : option positive) (buf : positive) : X (option positive) :=
  b <- load_buf buf ;;
  if attachment b =? DRI2BufferFrontLeft then ret pDraw
  else ret (pPixmap b).

Definition GetWindowPixmap (pWin : positive) : X (option positive) :=
  get (fun s => winpix s !! pWin).

(** Modelled from the spec: [draw2pix] of omap_driver.h, "resolve a surface
    from a drawable": nothing for no drawable, the window's pixmap for a
    window, and the drawable itself when it is a pixmap. *)
Definition draw2pix (pDraw : option positive) : X (option positive) :=
  match pDraw with
  | None => ret None
  | Some p =>
    d <- load_draw pDraw ;;
    if d_type d =? DRAWABLE_WINDOW then GetWindowPixmap p
    else ret pDraw
  end.

Definition canflip (pDraw : positive) (back_bo : option positive) : X Z :=
  d <- load_draw (Some pDraw) ;;
  if negb (d_type d =? DRAWABLE_WINDOW) then ret FALSE
  else
    differs <- match back_bo with
               | None => ret false
               | Some b =>
                 w <- lift (Dumb.omap_bo_width b) ;;
                 if negb (w =? d_width d) then ret true
                 else h <- lift (Dumb.omap_bo_height b) ;;
                      ret (negb (h =? d_height d))
               end ;;
    if (differs : bool) then ret FALSE
    else
      sc <- get (fun s => drmmode_scanout_from_drawable (scanouts s) d) ;;
      match sc with
      | Some _ => ret TRUE
      | None => ret FALSE
      end.

(** Modelled from the spec: [OMAPPixmapExchange] of omap_exa.c, "swap the two
    surfaces' storage identities": the two pixmaps trade their BOs. *)
Definition OMAPPixmapExchange (a b : option positive) : X unit :=
  pa <- load_pix a ;;
  pb <- load_pix b ;;
  store_pix a (set_priv_bo pa (priv_bo pb)) ;;;
  pb' <- load_pix b ;;
  store_pix b (set_priv_bo pb' (priv_bo pa)).

(** Modelled from the spec: the screen's [DestroyPixmap], "decrement surface
    ownership": one reference on the pixmap is dropped. *)
Definition DestroyPixmap_ (p : option positive) : X unit :=
  pm <- load_pix p ;;
  store_pix p (set_pix_refcnt pm (int32 (pix_refcnt pm - 1))) ;;;
  xcall_ (DestroyPixmap p) ;;;
  ret tt.

(** [dixLookupDrawable]: the drawable registered under an id, if any. *)
Definition dixLookupDrawable (xid : Z) : X (option positive) :=
  get (fun s => resources s !! xid).

(** [OMAPDRI2SwapComplete], the block under
    [if ((cmd->flags & OMAP_SWAP_FAIL) == 0)]: notify the client and bring
    the scanout registry up to date. *)
Definition swap_notify (cmd : OMAPDRISwapCmd) : X unit :=
  if Z.land (flags cmd) OMAP_SWAP_FAIL =? 0 then
    pDraw <- dixLookupDrawable (draw_id cmd) ;;
    match pDraw with
    | Some dr =>
      (if negb (type cmd =? DRI2_BLIT_COMPLETE)
          && (Z.land (flags cmd) OMAP_SWAP_FAKE_FLIP =? 0)
       then
         if type cmd =? DRI2_FLIP_COMPLETE
         then OMAPPixmapExchange (pSrcPixmap cmd) (pDstPixmap cmd)
         else abort (* assert(cmd->type == DRI2_FLIP_COMPLETE) *)
       else ret tt) ;;;
      xcall_ (SwapNotify (client cmd) dr (type cmd) (func cmd) (data cmd)) ;;;
      if type cmd =? DRI2_BLIT_COMPLETE then
        modify (fun s => set_scanouts s
                           (invalidate_scanouts 0 MAX_SCANOUTS (scanouts s)))
      else if type cmd =? DRI2_FLIP_COMPLETE then
        dst_priv <- load_pix (pDstPixmap cmd) ;;
        modify (fun s => set_scanouts s
                           (validate_scanout (priv_bo dst_priv) 0 MAX_SCANOUTS
                              (scanouts s))) ;;;
        if Z.land (flags cmd) OMAP_SWAP_FAKE_FLIP =? 0 then
          xcall_ (ScanoutSet (x cmd) (y cmd) (priv_bo dst_priv)) ;;;
          modify (fun s => set_scanouts s
                             (drmmode_scanout_set (scanouts s) (x cmd) (y cmd)
                                (priv_bo dst_priv)))
        else ret tt
      else abort (* assert(cmd->type == DRI2_FLIP_COMPLETE) *)
    | None => ret tt
    end
  else ret tt.

(** [OMAPDRI2SwapComplete], from "drop extra refcnt we obtained prior to
    swap" to [free(cmd)]. *)
Definition swap_cleanup (c : positive) (cmd : OMAPDRISwapCmd) : X unit :=
  DestroyPixmap_ (pSrcPixmap cmd) ;;;
  DestroyPixmap_ (pDstPixmap cmd) ;;;
  modify (fun s => set_pending_flips s (int32 (pending_flips s - 1))) ;;;
  xcall_ (FreeCmd c) ;;;
  modify (fun s => set_cmds s (delete c (cmds s))).

Definition OMAPDRI2SwapComplete (c : positive) : X unit :=
  cmd <- load_cmd c ;;
  let n := int32 (swapCount cmd - 1) in
  store_cmd c (set_swapCount cmd n) ;;;
  if 0 <? n then ret tt
  else
    swap_notify cmd ;;;
    swap_cleanup c cmd.

(** [n] completion signals for one command. *)
Fixpoint complete_n (c : positive) (n : nat) : X unit :=
  match n with
  | O => ret tt
  | S n' => OMAPDRI2SwapComplete c ;;; complete_n c n'
  end.

Definition OMAPDRI2CopyRegion (pDraw pDstBuffer pSrcBuffer : positive) : X unit :=
  pSrcDraw <- dri2draw (Some pDraw) pSrcBuffer ;;
  pDstDraw <- dri2draw (Some pDraw) pDstBuffer ;;
  dd <- load_draw pDstDraw ;;
  pGC <- xcall_ (GetScratchGC (d_depth dd)) ;;
  if pGC =? 0 then ret tt
  else
    d <- load_draw (Some pDraw) ;;
    xcall_ (CopyArea pSrcDraw pDstDraw (d_width d) (d_height d)) ;;;
    ret tt.

Definition omap_bo_get_fb (b : option positive) : X Z :=
  match b with
  | Some p => lift (Dumb.omap_bo_fb p)
  | None => abort
  end.

(** [NEXT_SERIAL_NUMBER] of the X server. *)
Definition NEXT_SERIAL_NUMBER : X Z :=
  g <- get globalSerialNumber ;;
  let g' := g + 1 in
  if MAX_SERIAL_NUM <? g'
  then modify (fun s => set_globalSerialNumber s 1) ;;; ret 1
  else modify (fun s => set_globalSerialNumber s g') ;;; ret g'.

(** The first half of [OMAPDRI2ScheduleSwap], up to the switch of the
    programming mode: rebind the destination pixmap to the scanout BO of the
    drawable (flip) or to the fallback scanout BO (blit), and switch mode.
    The result is what [drmmode_set_flip_mode] or [drmmode_set_blit_mode]
    returned. *)
Definition swap_rebind (pDraw : positive) (dst : OMAPDRI2BufferRec)
    (new_canflip : Z) : X Z :=
  hr <- get has_resized ;;
  if negb (new_canflip =? 0) && (hr =? 0) then
    dst_priv <- load_pix (pPixmap dst) ;;
    let old_bo := priv_bo dst_priv in
    d <- load_draw (Some pDraw) ;;
    sc <- get (fun s => drmmode_scanout_from_drawable (scanouts s) d) ;;
    match sc with
    | None => abort
    | Some sl =>
      store_pix (pPixmap dst) (set_priv_bo dst_priv (bo sl)) ;;;
      lift (Dumb.omap_bo_reference (bo sl)) ;;;
      lift (Dumb.omap_bo_unreference K old_bo) ;;;
      xcall_ SetFlipMode
    end
  else
    sco <- get scanout ;;
    lift (Dumb.omap_bo_reference sco) ;;;
    dst_priv <- load_pix (pPixmap dst) ;;
    lift (Dumb.omap_bo_unreference K (priv_bo dst_priv)) ;;;
    dst_priv' <- load_pix (pPixmap dst) ;;
    store_pix (pPixmap dst) (set_priv_bo dst_priv' sco) ;;;
    xcall_ SetBlitMode.

(** [calloc] of the swap command, and its initialisation. *)
Definition swap_new_cmd (cl : Z) (pDraw pDstBuffer pSrcBuffer : positive)
    (fn dt : Z) : X positive :=
  d <- load_draw (Some pDraw) ;;
  r <- xcall_ CallocCmd ;;
  if r =? 0 then abort
  else
    c <- get (fun s => fresh (dom (cmds s))) ;;
    srcd <- dri2draw (Some pDraw) pSrcBuffer ;;
    srcp <- draw2pix srcd ;;
    dstd <- dri2draw (Some pDraw) pDstBuffer ;;
    dstp <- draw2pix dstd ;;
    store_cmd c (mk_cmd 0 cl (id d) dstp srcp fn 0 0 0 (d_x d) (d_y d) dt) ;;;
    ret c.

Definition pixmap_ref (p : option positive) : X unit :=
  pm <- load_pix p ;;
  store_pix p (set_pix_refcnt pm (int32 (pix_refcnt pm + 1))).

Definition update_cmd (c : positive) (f : OMAPDRISwapCmd -> OMAPDRISwapCmd) : X unit :=
  cmd <- load_cmd c ;;
  store_cmd c (f cmd).

(** The second half of [OMAPDRI2ScheduleSwap], after the mode switch. *)
Definition swap_issue (c pDraw pDstBuffer pSrcBuffer : positive) (new_canflip : Z)
  : X Z :=
  cmd <- load_cmd c ;;
  pixmap_ref (pSrcPixmap cmd) ;;;
  pixmap_ref (pDstPixmap cmd) ;;;
  modify (fun s => set_pending_flips s (int32 (pending_flips s + 1))) ;;;
  src <- load_buf pSrcBuffer ;;
  dst <- load_buf pDstBuffer ;;
  src_priv <- load_pix (pPixmap src) ;;
  src_fb_id <- omap_bo_get_fb (priv_bo src_priv) ;;
  dst_priv <- load_pix (pPixmap dst) ;;
  dst_fb_id <- omap_bo_get_fb (priv_bo dst_priv) ;;
  hr <- get has_resized ;;
  (if (negb (previous_canflip src =? -1) && negb (previous_canflip src =? new_canflip))
      || (negb (previous_canflip dst =? -1) && negb (previous_canflip dst =? new_canflip))
      || negb (hr =? 0)
   then
     pPix <- GetWindowPixmap pDraw ;;
     pd <- load_draw pPix ;;
     n <- NEXT_SERIAL_NUMBER ;;
     match pPix with
     | Some a => store_draw a (set_serialNumber pd n)
     | None => abort
     end
   else ret tt) ;;;
  store_buf pSrcBuffer (set_previous_canflip src new_canflip) ;;;
  dst' <- load_buf pDstBuffer ;;
  store_buf pDstBuffer (set_previous_canflip dst' new_canflip) ;;;
  if negb (src_fb_id =? 0) && negb (dst_fb_id =? 0) && negb (new_canflip =? 0)
     && (hr =? 0)
  then
    update_cmd c (fun cm => set_type cm DRI2_FLIP_COMPLETE) ;;;
    r <- xcall_ (PageFlip pDraw src_fb_id c) ;;
    if r <? 0 then
      update_cmd c (fun cm => set_flags cm (Z.lor (flags cm) OMAP_SWAP_FAIL)) ;;;
      let cnt := if OMAP_USE_PAGE_FLIP_EVENTS then int32 (- (r + 1)) else 0 in
      update_cmd c (fun cm => set_swapCount cm cnt) ;;;
      (if cnt =? 0 then OMAPDRI2SwapComplete c else ret tt) ;;;
      ret FALSE
    else
      (if r =? 0
       then update_cmd c (fun cm => set_flags cm (Z.lor (flags cm) OMAP_SWAP_FAKE_FLIP))
       else ret tt) ;;;
      let cnt := if OMAP_USE_PAGE_FLIP_EVENTS then r else 0 in
      update_cmd c (fun cm => set_swapCount cm cnt) ;;;
      (if cnt =? 0 then OMAPDRI2SwapComplete c else ret tt) ;;;
      ret TRUE
  else
    OMAPDRI2CopyRegion pDraw pDstBuffer pSrcBuffer ;;;
    update_cmd c (fun cm => set_type cm DRI2_BLIT_COMPLETE) ;;;
    OMAPDRI2SwapComplete c ;;;
    modify (fun s => set_has_resized s FALSE) ;;;
    ret TRUE.

(** [OMAPDRI2ScheduleSwap]: the computation up to the mode switch, which
    yields the command, [new_canflip] and the result of the switch ... *)
Definition swap_prepare (cl : Z) (pDraw pDstBuffer pSrcBuffer : positive)
    (fn dt : Z) : X (positive * Z * Z) :=
  c <- swap_new_cmd cl pDraw pDstBuffer pSrcBuffer fn dt ;;
  src <- load_buf pSrcBuffer ;;
  dst <- load_buf pDstBuffer ;;
  src_priv <- load_pix (pPixmap src) ;;
  new_canflip <- canflip pDraw (priv_bo src_priv) ;;
  ok <- swap_rebind pDraw dst new_canflip ;;
  ret (c, new_canflip, ok).

(** ... and the whole function. *)
Definition OMAPDRI2ScheduleSwap (cl : Z) (pDraw pDstBuffer pSrcBuffer : positive)
    (fn dt : Z) : X Z :=
  r <- swap_prepare cl pDraw pDstBuffer pSrcBuffer fn dt ;;
  let '(c, new_canflip, ok) := r in
  if ok =? 0 then ret FALSE
  else swap_issue c pDraw pDstBuffer pSrcBuffer new_canflip.

End WithEnv.

End Dri2.

(** ** Concrete worlds *)

Module DumbEx.
Import Dumb.

(** A kernel in which every call succeeds: [calloc] returns memory, a new
    exynos BO gets GEM handle 7, a new framebuffer gets id 5. *)
Definition K_ok : kernel :=
  mk_kernel (fun _ c => match c with
                        | Calloc => 1
                        | ExynosBoCreate _ _ => 7
                        | _ => 0
                        end)
            (fun _ => 5).

(** The same kernel, except that framebuffer registration is refused. *)
Definition K_nofb : kernel :=
  mk_kernel (fun _ c => match c with
                        | Calloc => 1
                        | ExynosBoCreate _ _ => 7
                        | AddFB _ _ _ _ _ _ => -22
                        | AddFB2 _ _ _ _ _ => -22
                        | _ => 0
                        end)
            (fun _ => 5).

Definition OMAP_GEM_READ : Z := 1.
Definition OMAP_GEM_WRITE : Z := 2.

Definition w_empty : world := mk_world ∅ ∅ [].

Definition world_of {A} (o : outcome world A) : world :=
  match o with Ret _ w => w | Abort => w_empty end.

(** A 64x64 BO, depth 24, 32 bits per pixel. *)
Definition w_new : world := world_of (omap_bo_new K_ok 3 64 64 24 32 0 w_empty).

(** ... acquired for reading. *)
Definition w_read : world :=
  world_of (omap_bo_cpu_prep K_ok OMAP_GEM_WRITE 1%positive OMAP_GEM_READ w_new).

(** ... acquired for writing, then marked clean by the present path. *)
Definition w_write : world :=
  world_of (omap_bo_cpu_prep K_ok OMAP_GEM_WRITE 1%positive OMAP_GEM_WRITE w_new).
Definition w_clean : world :=
  world_of (omap_bo_clear_dirty 1%positive w_write).

(** A BO record whose reference count has dropped to 0. *)
Definition w_zero : world :=
  mk_world {[1%positive := mk_omap_bo 3 (Some 1%positive) 5 64 64 256 24 32 0 0 0 0 1]}
    ∅ [].

End DumbEx.

Module Dri2Ex.
Import Dri2.

(** An X server and mode-setting layer in which everything succeeds; a page
    flip is queued on two outputs. *)
Definition E_ok : xenv :=
  mk_xenv (fun _ c => match c with
                      | CallocCmd | SetFlipMode | SetBlitMode => 1
                      | GetScratchGC _ => 1
                      | PageFlip _ _ _ => 2
                      | _ => 0
                      end).

(** The same, except that the programming mode cannot be switched. *)
Definition E_noswitch : xenv :=
  mk_xenv (fun _ c => match c with
                      | CallocCmd => 1
                      | GetScratchGC _ => 1
                      | PageFlip _ _ _ => 2
                      | _ => 0
                      end).

(** A scanout registry keyed by position. *)
Definition from_drawable (l : list OMAPScanout) (d : DrawableRec)
  : option OMAPScanout :=
  List.find (fun sl => (s_x sl =? d_x d) && (s_y sl =? d_y d)) l.

Definition scanout_set (l : list OMAPScanout) (px py : Z) (b : option positive)
  : list OMAPScanout :=
  List.map (fun sl => if decide (bo sl = b)
                      then mk_scanout (bo sl) px py (valid sl) else sl) l.

Definition bo64 (e : positive) (fb : Z) : Dumb.omap_bo :=
  Dumb.mk_omap_bo 3 (Some e) fb 64 64 256 24 32 0 1 0 0 1.

(** A 64x64 window (drawable 20, id 100) shown from pixmap 10 on BO 1, with
    a back buffer in pixmap 11 on BO 2; buffer 30 is the front attachment,
    buffer 31 the back one.  An off-screen pixmap (drawable 12, id 103) on
    BO 3, with buffer 32 as its front attachment.  Three scanout slots, the
    first at the window's position and valid. *)
Definition s_init : server :=
  mk_server
    (Dumb.mk_world
       (<[3%positive := bo64 3 9]>
          (<[2%positive := bo64 2 6]> {[1%positive := bo64 1 5]}))
       (<[3%positive := Dumb.mk_exynos_bo 4 16384 0 0]>
          (<[2%positive := Dumb.mk_exynos_bo 8 16384 0 0]>
             {[1%positive := Dumb.mk_exynos_bo 7 16384 0 0]}))
       [])
    (<[12%positive := mk_drawable DRAWABLE_PIXMAP 103 0 0 64 64 24 0]>
       (<[11%positive := mk_drawable DRAWABLE_PIXMAP 0 0 0 64 64 24 0]>
          (<[10%positive := mk_drawable DRAWABLE_PIXMAP 0 0 0 64 64 24 0]>
             {[20%positive := mk_drawable DRAWABLE_WINDOW 100 0 0 64 64 24 0]})))
    (<[12%positive := mk_pixmap 1 (Some 3%positive)]>
       (<[11%positive := mk_pixmap 1 (Some 2%positive)]>
          {[10%positive := mk_pixmap 1 (Some 1%positive)]}))
    {[20%positive := 10%positive]}
    (<[103 := 12%positive]> {[100 := 20%positive]})
    (<[32%positive := mk_buffer DRI2BufferFrontLeft (Some 12%positive) (-1)]>
       (<[31%positive := mk_buffer 1 (Some 11%positive) (-1)]>
          {[30%positive := mk_buffer DRI2BufferFrontLeft (Some 10%positive) (-1)]}))
    ∅
    [mk_scanout (Some 1%positive) 0 0 TRUE;
     mk_scanout None 64 0 TRUE;
     mk_scanout None 128 0 FALSE]
    (Some 1%positive) 0 0 0 [].

Definition with_cmd (cmd : OMAPDRISwapCmd) : server :=
  set_cmds s_init {[40%positive := cmd]}.

(** A flip awaited on two outputs. *)
Definition cmd_flip2 : OMAPDRISwapCmd :=
  mk_cmd DRI2_FLIP_COMPLETE 9 100 (Some 10%positive) (Some 11%positive)
    0 2 0 0 0 0 0.

(** A flip awaited on one output. *)
Definition cmd_flip1 : OMAPDRISwapCmd :=
  mk_cmd DRI2_FLIP_COMPLETE 9 100 (Some 10%positive) (Some 11%positive)
    0 1 0 0 0 0 0.

(** A fake flip, as [OMAPDRI2ScheduleSwap] leaves it when no output had to
    be programmed. *)
Definition cmd_fake : OMAPDRISwapCmd :=
  mk_cmd DRI2_FLIP_COMPLETE 9 100 (Some 10%positive) (Some 11%positive)
    0 0 OMAP_SWAP_FAKE_FLIP 0 0 0 0.

(** A blit, and a blit whose drawable (id 999) no longer exists. *)
Definition cmd_blit : OMAPDRISwapCmd :=
  mk_cmd DRI2_BLIT_COMPLETE 9 100 (Some 10%positive) (Some 11%positive)
    0 0 0 0 0 0 0.
Definition cmd_blit_gone : OMAPDRISwapCmd :=
  mk_cmd DRI2_BLIT_COMPLETE 9 999 (Some 10%positive) (Some 11%positive)
    0 0 0 0 0 0 0.

Definition server_of {A} (o : outcome server A) : server :=
  match o with Ret _ s => s | Abort => s_init end.

End Dri2Ex.

(** ** omap_dumb.c: the remaining functions *)

(** [m], [n] times in a row. *)
Fixpoint iterM {St} (n : nat) (m : M St unit) : M St unit :=
  match n with
  | O => ret tt
  | S n' => m ;;; iterM n' m
  end.

Module DumbMore.
Import Dumb.

Definition exynos_store (e : option positive) (x : exynos_bo) : Dumb.M unit :=
  fun w => match e with
           | Some e' => Ret tt (mk_world (bos w) (<[e' := x]> (gem w)) (log w))
           | None => Abort
           end.

Section Libdrm.

(** libdrm's [exynos_bo_get_name] and [exynos_bo_map], taken as parameters:
    given the [struct exynos_bo] and the calls made so far, the value
    returned and the [struct exynos_bo] as the call leaves it. *)
Variable exynos_bo_get_name : exynos_bo -> list event -> Z * exynos_bo.
Variable exynos_bo_map : exynos_bo -> list event -> Z * exynos_bo.

Definition omap_bo_get_name (p : positive) : Dumb.M Z :=
  b <- load p ;;
  x <- exynos_load (exynos_bo_p b) ;;
  if negb (name x =? 0) then ret (name x)
  else
    l <- (fun w => Ret (log w) w) ;;
    let r := exynos_bo_get_name x l in
    exynos_store (exynos_bo_p b) (snd r) ;;;
    if negb (fst r =? 0) then ret 0
    else x' <- exynos_load (exynos_bo_p b) ;; ret (name x').

Definition omap_bo_map (p : positive) : Dumb.M Z :=
  b <- load p ;;
  x <- exynos_load (exynos_bo_p b) ;;
  if negb (vaddr x =? 0) then ret (vaddr x)
  else
    l <- (fun w => Ret (log w) w) ;;
    let r := exynos_bo_map x l in
    exynos_store (exynos_bo_p b) (snd r) ;;;
    if fst r =? 0 then ret 0
    else ret (fst r).

End Libdrm.

Definition omap_bo_handle (p : positive) : Dumb.M Z :=
  b <- load p ;; x <- exynos_load (exynos_bo_p b) ;; ret (handle x).

Definition omap_bo_bpp (p : positive) : Dumb.M Z := b <- load p ;; ret (bpp b).

(** Bytes per pixel. *)
Definition omap_bo_Bpp (p : positive) : Dumb.M Z :=
  b <- load p ;; ret (uint32 ((bpp b + 7) / 8)).

Definition omap_bo_pitch (p : positive) : Dumb.M Z := b <- load p ;; ret (pitch b).
Definition omap_bo_depth (p : positive) : Dumb.M Z := b <- load p ;; ret (depth b).

(** A call of the fencing interface. *)
Inductive fence_op :=
| Prep (op : Z)
| Fini (op : Z).

Definition is_read (W : Z) (o : fence_op) : bool :=
  match o with
  | Prep op => Z.land op W =? 0
  | Fini _ => true
  end.

Definition run_fence (K : kernel) (W : Z) (p : positive) (o : fence_op) : Dumb.M Z :=
  match o with
  | Prep op => omap_bo_cpu_prep K W p op
  | Fini op => omap_bo_cpu_fini K p op
  end.

(** A call of the BO interface, and its run. *)
Inductive bo_op :=
| New (dv width height depth bpp fmt : Z)
| Reference (p : positive)
| Unreference (p : option positive)
| CpuPrep (p : positive) (op : Z)
| CpuFini (p : positive) (op : Z)
| ClearDirty (p : positive).

Definition run_bo_op (K : kernel) (W : Z) (o : bo_op) : Dumb.M unit :=
  match o with
  | New dv width height depth bpp fmt =>
      omap_bo_new K dv width height depth bpp fmt ;;; ret tt
  | Reference p => omap_bo_reference (Some p)
  | Unreference p => omap_bo_unreference K p
  | CpuPrep p op => omap_bo_cpu_prep K W p op ;;; ret tt
  | CpuFini p op => omap_bo_cpu_fini K p op ;;; ret tt
  | ClearDirty p => omap_bo_clear_dirty p
  end.

(** The counters a call would push past [INT_MAX]. *)
Definition in_range (o : bo_op) (w : world) : Prop :=
  match o with
  | Reference p => forall b, bos w !! p = Some b -> refcnt b < INT_MAX
  | CpuPrep p _ => forall b, bos w !! p = Some b -> acquire_cnt b < INT_MAX
  | _ => True
  end.

(** A well-formed BO heap: every BO is referenced, its acquire depth is not
    negative (both counters being [int]s), its backing exynos BO is live,
    and no two BOs share one. *)
Definition wf (w : world) : Prop :=
  (forall p b, bos w !! p = Some b ->
     1 <= refcnt b <= INT_MAX /\ 0 <= acquire_cnt b <= INT_MAX /\
     exists e x, exynos_bo_p b = Some e /\ gem w !! e = Some x) /\
  (forall p q b b', bos w !! p = Some b -> bos w !! q = Some b' ->
     exynos_bo_p b = exynos_bo_p b' -> p = q).

End DumbMore.

(** ** omap_dri2.c: the remaining functions *)

Definition uint64 (z : Z) : Z := z mod 2 ^ 64.

Module Dri2More.
Import Dri2.

(** A computation that leaves one component of the state as it is. *)
Definition preserves {T A} (f : server -> T) (m : M server A) : Prop :=
  forall s a s', m s = Ret a s' -> f s' = f s.

(** The parts of the state that a completion leaves alone. *)
Definition untouched_by_completion (s : server) :=
  (dumb s, draws s, winpix s, resources s, bufs s, scanout s, has_resized s,
   globalSerialNumber s).

(** What [canflip] reads of the state. *)
Definition canflip_view (s : server) :=
  (draws s, dumb s, scanouts s).

(** A computation that gives the same results on states with the same
    view [v], and keeps the views equal. *)
Definition respects {V A} (v : server -> V) (m : M server A) : Prop :=
  forall s t a s', v s = v t -> m s = Ret a s' ->
    exists t', m t = Ret a t' /\ v s' = v t'.

(** A computation whose results all satisfy [P]. *)
Definition returns {A} (P : A -> Prop) (m : M server A) : Prop :=
  forall s a s', m s = Ret a s' -> P a.

Section WithEnv.

Variable E : xenv.

Definition OMAPDRI2DestroyBuffer (pDraw : option positive) (buffer : positive)
  : X unit :=
  buf <- load_buf buffer ;;
  (* buf->pPixmap->drawable.pScreen *)
  load_draw (pPixmap buf) ;;;
  DestroyPixmap_ E (pPixmap buf) ;;;
  (* free(buf) *)
  modify (fun s => set_bufs s (delete buffer (bufs s))).

(** [OMAPDRI2CloseScreen].  The wait for the next hardware event and
    [DRI2CloseScreen] are parameters; the loop has no bound of its own, so
    it is run with fuel, and the result tells whether it came to its end. *)
Section Close.

Variable drmmode_wait_for_event : X unit.
Variable DRI2CloseScreen : X unit.

Fixpoint drain (fuel : nat) : X bool :=
  match fuel with
  | O => ret false
  | S fuel' =>
    pf <- get pending_flips ;;
    if 0 <? pf then drmmode_wait_for_event ;;; drain fuel'
    else ret true
  end.

Definition OMAPDRI2CloseScreen (fuel : nat) : X bool :=
  done <- drain fuel ;;
  if (done : bool) then DRI2CloseScreen ;;; ret true
  else ret false.

End Close.

End WithEnv.

(** The test [src_fb_id && dst_fb_id && new_canflip && !pOMAP->has_resized]
    by which [OMAPDRI2ScheduleSwap] chooses between a page flip and a blit,
    with the reads that feed it. *)
Definition can_page_flip (pDstBuffer pSrcBuffer : positive) (new_canflip : Z)
  : X bool :=
  src <- load_buf pSrcBuffer ;;
  dst <- load_buf pDstBuffer ;;
  src_priv <- load_pix (pPixmap src) ;;
  src_fb_id <- omap_bo_get_fb (priv_bo src_priv) ;;
  dst_priv <- load_pix (pPixmap dst) ;;
  dst_fb_id <- omap_bo_get_fb (priv_bo dst_priv) ;;
  hr <- get has_resized ;;
  ret (negb (src_fb_id =? 0) && negb (dst_fb_id =? 0)
       && negb (new_canflip =? 0) && (hr =? 0)).

(** [OMAPDRI2ScheduleWaitMSC]: not implemented. *)
Definition OMAPDRI2ScheduleWaitMSC (cl : Z) (pDraw : positive)
    (target_msc divisor remainder : Z) : X Z :=
  load_draw (Some pDraw) ;;; ret FALSE.

(** *** OMAPDRI2GetMSC *)

(** The reply of [drmWaitVBlank]. *)
Record drmVBlankReply := mk_reply {
  sequence : Z;
  tval_sec : Z;
  tval_usec : Z
}.

(** The function's static [limit], and the number of error lines written. *)
Record msc_state := mk_msc {
  limit : Z;
  errors : nat
}.

(** [OMAPDRI2GetMSC], given what [drmWaitVBlank] returned and left in the
    reply.  [ust] and [msc] are the cells the two pointers designate, [None]
    for a NULL pointer; the result holds the cells afterwards. *)
Definition OMAPDRI2GetMSC (vbl : Z * drmVBlankReply) (ust msc : option Z)
    (st : msc_state) : Z * option Z * option Z * msc_state :=
  if negb (fst vbl =? 0) then
    (FALSE, ust, msc,
     if negb (limit st =? 0)
     then mk_msc (int32 (limit st - 1)) (S (errors st))
     else st)
  else
    (TRUE,
     match ust with
     | Some _ => Some (uint64 (uint64 (uint64 (tval_sec (snd vbl)) * 1000000)
                               + uint64 (tval_usec (snd vbl))))
     | None => None
     end,
     match msc with
     | Some _ => Some (uint64 (sequence (snd vbl)))
     | None => None
     end,
     st).

(** Calls one after the other, each with its own reply. *)
Fixpoint get_msc_all (vbls : list (Z * drmVBlankReply)) (st : msc_state)
  : msc_state :=
  match vbls with
  | [] => st
  | v :: r => get_msc_all r (snd (OMAPDRI2GetMSC v None None st))
  end.

Definition failures (vbls : list (Z * drmVBlankReply)) : nat :=
  length (List.filter (fun v => negb (fst v =? 0)) vbls).

End Dri2More.

(** ** More concrete worlds *)

Module MoreEx.
Import Dumb Dri2.

(** Kernels that refuse one call each. *)
Definition K_nomem : kernel :=
  mk_kernel (fun _ c => match c with ExynosBoCreate _ _ => 7 | _ => 0 end)
            (fun _ => 5).
Definition K_nogem : kernel :=
  mk_kernel (fun _ c => match c with Calloc => 1 | _ => 0 end) (fun _ => 5).
Definition K_busy : kernel :=
  mk_kernel (fun _ c => match c with
                        | Calloc => 1
                        | ExynosBoCreate _ _ => 7
                        | CpuAcquire _ _ => -16
                        | CpuRelease _ => -22
                        | RmFB _ => -2
                        | _ => 0
                        end)
            (fun _ => 5).

(** A libdrm whose flink gives name 42 and whose mmap gives address 4096. *)
Definition flink42 (x : exynos_bo) (l : list event) : Z * exynos_bo :=
  (0, mk_exynos_bo (handle x) (size x) 42 (vaddr x)).
Definition mmap4096 (x : exynos_bo) (l : list event) : Z * exynos_bo :=
  (4096, mk_exynos_bo (handle x) (size x) (name x) 4096).

(** An X server without scratch GCs. *)
Definition E_nogc : xenv :=
  mk_xenv (fun _ c => match c with
                      | CallocCmd | SetFlipMode | SetBlitMode => 1
                      | _ => 0
                      end).

(** A page flip that fails outright. *)
Definition E_flipfail : xenv :=
  mk_xenv (fun _ c => match c with
                      | CallocCmd | SetFlipMode | SetBlitMode => 1
                      | GetScratchGC _ => 1
                      | PageFlip _ _ _ => -1
                      | _ => 0
                      end).

(** The server of [Dri2Ex.with_cmd cmd], with a second scanout slot that
    holds BO 2, the back buffer's, at position (64, 0) and not yet valid. *)
Definition with_cmd_two_slots (cmd : OMAPDRISwapCmd) : server :=
  set_scanouts (Dri2Ex.with_cmd cmd)
    [mk_scanout (Some 1%positive) 0 0 TRUE;
     mk_scanout (Some 2%positive) 64 0 FALSE;
     mk_scanout None 128 0 FALSE].

(** The pixmaps of [Dri2Ex.s_init] when the window's pixmap and the back
    buffer's pixmap are each referenced twice, as they are while a swap
    command holds its extra reference on them. *)
Definition held_pixmaps : gmap positive PixmapRec :=
  <[12%positive := mk_pixmap 1 (Some 3%positive)]>
    (<[11%positive := mk_pixmap 2 (Some 2%positive)]>
       {[10%positive := mk_pixmap 2 (Some 1%positive)]}).

Definition s_held : server := set_pixmaps Dri2Ex.s_init held_pixmaps.

Definition with_cmd_held (cmd : OMAPDRISwapCmd) : server :=
  set_cmds s_held {[40%positive := cmd]}.

End MoreEx.

(** * Proofs *)

Lemma int32_id z : INT_MIN <= z <= INT_MAX -> int32 z = z.
Proof.
  unfold int32, INT_MIN, INT_MAX. intros H.
  rewrite Z.mod_small; lia.
Qed.

Lemma mapM_app {St A B} (f : A -> M St B) (l1 l2 : list A) (s : St) :
  mapM f (l1 ++ l2) s =
  (ys1 <- mapM f l1 ;; ys2 <- mapM f l2 ;; ret (ys1 ++ ys2)) s.
Proof.
  revert s. induction l1 as [|x l1 IH]; intros s; simpl.
  - cbv [bind ret]. destruct (mapM f l2 s); reflexivity.
  - cbv [bind ret] in *. destruct (f x s) as [y s'|]; [|reflexivity].
    rewrite IH.
    destruct (mapM f l1 s') as [ys1 s1|]; [|reflexivity].
    destruct (mapM f l2 s1); reflexivity.
Qed.

Lemma mapM_take {St A B} (f : A -> M St B) (l : list A) (i : nat)
    (s s1 : St) (ys : list B) :
  mapM f l s = Ret ys s1 ->
  exists si, mapM f (take i l) s = Ret (take i ys) si /\
             length (take i ys) = length (take i l).
Proof.
  revert i s ys. induction l as [|x l IH]; intros i s ys Hrun.
  - cbn in Hrun. injection Hrun as <- <-. exists s.
    rewrite !take_nil. split; reflexivity.
  - destruct i as [|i].
    { exists s. split; reflexivity. }
    cbn [mapM] in Hrun. cbv [bind ret] in Hrun.
    destruct (f x s) as [y s'|] eqn:E1; [|discriminate].
    destruct (mapM f l s') as [ys' s2|] eqn:E2; [|discriminate].
    injection Hrun as <- <-.
    destruct (IH i s' ys' E2) as (si & Hi & Hlen).
    exists si. cbn [take mapM]. cbv [bind ret]. rewrite E1, Hi.
    split; [reflexivity|]. cbn [length]. rewrite Hlen. reflexivity.
Qed.

Module DumbFacts.
Import Dumb.

Section WithKernel.
Variable K : kernel.

Lemma load_some p b w : bos w !! p = Some b -> load p w = Ret b w.
Proof. unfold load. intros ->. reflexivity. Qed.

Lemma world_eta w : mk_world (bos w) (gem w) (log w) = w.
Proof. destruct w; reflexivity. Qed.

(** ** Null pointers and reference counts *)

(** C10: [omap_bo_unreference(NULL)] and [omap_bo_del(NULL)] return at once
    and change nothing (no count decremented, no framebuffer unregistered,
    no memory freed, no call made); on a BO that is present, a reference
    count that is not positive is fatal. *)
Theorem unreference_null_noop (w : world) :
  omap_bo_unreference K None w = Ret tt w /\
  omap_bo_del K None w = Ret tt w /\
  (forall p b, bos w !! p = Some b -> refcnt b <= 0 ->
               omap_bo_unreference K (Some p) w = Abort).
Proof.
  split; [reflexivity|]. split; [reflexivity|].
  intros p b Hb Hr. unfold omap_bo_unreference, bind.
  rewrite (load_some _ _ _ Hb).
  destruct (0 <? refcnt b) eqn:E; [apply Z.ltb_lt in E; lia | reflexivity].
Qed.

(** ** Creation *)

Example pitch_64x32 : pitch_of 64 32 = 256.
Proof. reflexivity. Qed.

Example pitch_100x32 : pitch_of 100 32 = 448.
Proof. reflexivity. Qed.

(** The product [width * bpp] wraps around at 32 bits. *)
Example pitch_wraps : pitch_of (2 ^ 29) 32 = 0.
Proof. reflexivity. Qed.

Lemma delete_fresh_insert {V} (m : gmap positive V) (x y : V) :
  delete (fresh (dom m)) (<[fresh (dom m) := x]> (<[fresh (dom m) := y]> m)) = m.
Proof.
  rewrite insert_insert_eq, delete_insert_eq.
  apply delete_id, not_elem_of_dom, is_fresh.
Qed.

Lemma fresh_lookup {V} (m : gmap positive V) : m !! fresh (dom m) = None.
Proof. apply not_elem_of_dom, is_fresh. Qed.

Lemma omap_bo_new_run (dv width height depth bpp fmt : Z) (w : world) :
  let pitch := pitch_of width bpp in
  let sz := uint32 (height * pitch) in
  let c := sys K (log w) Calloc in
  let l1 := (Calloc, c) :: log w in
  let h := sys K l1 (ExynosBoCreate sz EXYNOS_BO_NONCONTIG) in
  let l2 := (ExynosBoCreate sz EXYNOS_BO_NONCONTIG, h) :: l1 in
  let fb := if depth =? 0 then AddFB2 width height fmt h pitch
            else AddFB width height depth bpp pitch h in
  let r := sys K l2 fb in
  let l3 := (fb, r) :: l2 in
  omap_bo_new K dv width height depth bpp fmt w =
  if c =? 0 then Ret None (mk_world (bos w) (gem w) l1)
  else if h =? 0 then Ret None (mk_world (bos w) (gem w) l2)
  else if r <? 0 then
    Ret None (mk_world (bos w) (gem w)
                ((ExynosBoDestroy h, sys K l3 (ExynosBoDestroy h)) :: l3))
  else
    Ret (Some (fresh (dom (bos w))))
      (mk_world
         (<[fresh (dom (bos w)) :=
              mk_omap_bo dv (Some (fresh (dom (gem w))))
                (if r =? 0 then new_fb K l2 else 0)
                width height pitch depth bpp fmt 1 0 0 TRUE]> (bos w))
         (<[fresh (dom (gem w)) := mk_exynos_bo h sz 0 0]> (gem w)) l3).
Proof.
  intros pitch sz c l1 h l2 fb r l3. subst r l3 fb.
  cbv [omap_bo_new calloc exynos_bo_create bind syscall ret load store free
       exynos_load exynos_bo_destroy drmModeAddFB drmModeAddFB2].
  cbn [bos gem log]. fold c. destruct (c =? 0); [reflexivity|].
  cbn [bos gem log]. fold pitch. fold sz. fold l1. fold h.
  destruct (h =? 0).
  { cbn [bos gem log]. rewrite delete_insert_eq, (delete_id _ _ (fresh_lookup _)).
    reflexivity. }
  cbn [bos gem log].
  rewrite !lookup_insert_eq. cbn [handle fb_id zero_bo set_exynos_bo].
  fold l2.
  destruct (depth =? 0); cbn [bos gem log fst snd];
    rewrite !lookup_insert_eq; cbn [bos gem log fst snd handle];
    match goal with |- context [?x <? 0] => destruct (x <? 0) end;
    cbn [bos gem log fst snd handle];
    rewrite ?lookup_insert_eq; cbn [bos gem log fst snd handle];
    rewrite ?delete_fresh_insert, ?insert_insert_eq, ?delete_insert_eq;
    rewrite ?(delete_id _ _ (fresh_lookup _));
    reflexivity.
Qed.

(** C6: once memory is allocated, [omap_bo_new] hinges on the framebuffer
    registration.  If that fails (negative return), the exynos BO just
    created is destroyed, the [omap_bo] is freed and NULL is returned: both
    heaps are as before the call.  Otherwise the BO returned is a new object
    with reference count 1, dirty flag TRUE and acquire depth 0, bound to
    the exynos BO just created. *)
Theorem omap_bo_new_registration
    (dv width height depth bpp fmt : Z) (w : world) (c h : Z) :
  let pitch := pitch_of width bpp in
  let sz := uint32 (height * pitch) in
  let l1 := (Calloc, c) :: log w in
  let l2 := (ExynosBoCreate sz EXYNOS_BO_NONCONTIG, h) :: l1 in
  let fb := if depth =? 0 then AddFB2 width height fmt h pitch
            else AddFB width height depth bpp pitch h in
  let r := sys K l2 fb in
  let l3 := (fb, r) :: l2 in
  sys K (log w) Calloc = c -> c <> 0 ->
  sys K l1 (ExynosBoCreate sz EXYNOS_BO_NONCONTIG) = h -> h <> 0 ->
  (r < 0 ->
   omap_bo_new K dv width height depth bpp fmt w =
   Ret None (mk_world (bos w) (gem w)
               ((ExynosBoDestroy h, sys K l3 (ExynosBoDestroy h)) :: l3))) /\
  (0 <= r ->
   exists p e b w',
     omap_bo_new K dv width height depth bpp fmt w = Ret (Some p) w' /\
     bos w !! p = None /\ gem w !! e = None /\
     bos w' = <[p := b]> (bos w) /\
     gem w' = <[e := mk_exynos_bo h sz 0 0]> (gem w) /\
     log w' = l3 /\
     exynos_bo_p b = Some e /\
     refcnt b = 1 /\ dirty b = TRUE /\ acquire_cnt b = 0 /\
     acquired_exclusive b = 0 /\
     Dumb.width b = width /\ Dumb.height b = height /\ Dumb.pitch b = pitch).
Proof.
  intros pitch sz l1 l2 fb r l3 Hc Hc0 Hh Hh0.
  pose proof (omap_bo_new_run dv width height depth bpp fmt w) as Hrun.
  cbv zeta in Hrun. rewrite Hc in Hrun. fold pitch sz l1 in Hrun.
  rewrite Hh in Hrun. fold l2 fb r l3 in Hrun.
  apply Z.eqb_neq in Hc0, Hh0. rewrite Hc0, Hh0 in Hrun.
  split.
  - intros Hr. rewrite Hrun. apply Z.ltb_lt in Hr. rewrite Hr. reflexivity.
  - intros Hr. apply Z.ltb_ge in Hr. rewrite Hrun, Hr.
    eexists _, _, _, _. split; [reflexivity|].
    cbn [bos gem log exynos_bo_p refcnt dirty acquire_cnt acquired_exclusive
         Dumb.width Dumb.height Dumb.pitch].
    repeat split; auto using fresh_lookup.
Qed.

(** ** CPU access fencing *)

Section Fence.
Variable W : Z.

(** C7: on a BO that is CPU-acquired (depth > 0) and not held exclusively, a
    write-mode [omap_bo_cpu_prep] returns the contention error 1 and leaves
    the whole world as it was: depth, exclusivity and dirty flag unchanged,
    and no call made to the kernel, so nothing it could block on. *)
Theorem cpu_prep_write_on_shared (p : positive) (op : Z) (w : world) (b : omap_bo) :
  bos w !! p = Some b ->
  0 < acquire_cnt b ->
  acquired_exclusive b = 0 ->
  Z.land op W <> 0 ->
  omap_bo_cpu_prep K W p op w = Ret 1 w.
Proof.
  intros Hb Hc He Hop. unfold omap_bo_cpu_prep, bind.
  rewrite (load_some _ _ _ Hb).
  destruct (acquire_cnt b =? 0) eqn:E1; [apply Z.eqb_eq in E1; lia|].
  destruct (Z.land op W =? 0) eqn:E2; [apply Z.eqb_eq in E2; contradiction|].
  rewrite He. reflexivity.
Qed.

Lemma set_acquire_id (b : omap_bo) :
  set_acquire b (acquired_exclusive b) (acquire_cnt b) (dirty b) = b.
Proof. destruct b; reflexivity. Qed.

(** The first acquire: the ioctl is issued, and on success the depth is 1. *)
Lemma cpu_prep_first (p : positive) (op : Z) (w : world) (b : omap_bo) :
  bos w !! p = Some b -> acquire_cnt b = 0 ->
  omap_bo_cpu_prep K W p op w =
  match exynos_bo_p b with
  | Some e =>
    match gem w !! e with
    | Some x =>
      let flags := if negb (Z.land op W =? 0)
                   then DRM_EXYNOS_GEM_CPU_ACQUIRE_EXCLUSIVE
                   else DRM_EXYNOS_GEM_CPU_ACQUIRE_SHARED in
      let r := sys K (log w) (CpuAcquire (handle x) flags) in
      let l := (CpuAcquire (handle x) flags, r) :: log w in
      if r =? 0 then
        Ret r (mk_world
                 (<[p := set_acquire b (Z.land op W) 1
                           (if negb (Z.land op W =? 0) then TRUE else dirty b)]>
                    (bos w)) (gem w) l)
      else Ret r (mk_world (bos w) (gem w) l)
    | None => Abort
    end
  | None => Abort
  end.
Proof.
  intros Hb Hc.
  cbv [omap_bo_cpu_prep bind load ret exynos_load syscall store].
  rewrite Hb, Hc. cbn [Z.eqb negb].
  destruct (exynos_bo_p b) as [e|]; [|reflexivity].
  destruct (gem w !! e) as [x|]; [|reflexivity].
  cbn [bos gem log]. cbv zeta.
  destruct (sys K (log w) _ =? 0); reflexivity.
Qed.

(** A nested acquire: no ioctl; either the contention error, or the depth
    goes up by one and nothing else changes. *)
Lemma cpu_prep_nested (p : positive) (op : Z) (w : world) (b : omap_bo) :
  bos w !! p = Some b -> acquire_cnt b <> 0 ->
  omap_bo_cpu_prep K W p op w =
  if negb (Z.land op W =? 0) && (acquired_exclusive b =? 0) then Ret 1 w
  else Ret 0 (mk_world
                (<[p := set_acquire b (acquired_exclusive b)
                          (int32 (acquire_cnt b + 1)) (dirty b)]> (bos w))
                (gem w) (log w)).
Proof.
  intros Hb Hc. apply Z.eqb_neq in Hc.
  cbv [omap_bo_cpu_prep bind load ret store].
  rewrite Hb, Hc. cbn [negb].
  destruct (negb (Z.land op W =? 0) && (acquired_exclusive b =? 0)); reflexivity.
Qed.

Lemma cpu_fini_run (p : positive) (op : Z) (w : world) (b : omap_bo) :
  bos w !! p = Some b -> 0 < acquire_cnt b -> acquire_cnt b <= INT_MAX ->
  omap_bo_cpu_fini K p op w =
  let w' := mk_world
              (<[p := set_acquire b (acquired_exclusive b) (acquire_cnt b - 1)
                        (dirty b)]> (bos w)) (gem w) (log w) in
  if acquire_cnt b =? 1 then
    match exynos_bo_p b with
    | Some e =>
      match gem w !! e with
      | Some x =>
        let r := sys K (log w) (CpuRelease (handle x)) in
        Ret r (mk_world (bos w') (gem w) ((CpuRelease (handle x), r) :: log w))
      | None => Abort
      end
    | None => Abort
    end
  else Ret 0 w'.
Proof.
  intros Hb H0 Hmax.
  cbv [omap_bo_cpu_fini bind load ret exynos_load syscall store].
  rewrite Hb. apply Z.ltb_lt in H0 as H0'. rewrite H0'.
  rewrite int32_id by (unfold INT_MIN, INT_MAX in *; lia).
  cbn [bos gem log]. cbv zeta.
  destruct (acquire_cnt b =? 1) eqn:E1.
  - apply Z.eqb_eq in E1. rewrite E1.
    change (1 - 1 =? 0) with true. cbn [negb].
    destruct (exynos_bo_p b) as [e|]; [|reflexivity].
    cbn [gem]. destruct (gem w !! e); reflexivity.
  - apply Z.eqb_neq in E1.
    destruct (acquire_cnt b - 1 =? 0) eqn:E2; [apply Z.eqb_eq in E2; lia|].
    reflexivity.
Qed.

(** [n] further successful acquires on a BO held at depth [d >= 1]. *)
Lemma cpu_prep_nested_seq (p : positive) (ops : list Z) :
  forall (w : world) (b : omap_bo) (rets : list Z) (w1 : world),
  bos w !! p = Some b -> 1 <= acquire_cnt b ->
  acquire_cnt b + Z.of_nat (length ops) <= INT_MAX ->
  mapM (omap_bo_cpu_prep K W p) ops w = Ret rets w1 ->
  Forall (fun r => r = 0) rets ->
  w1 = mk_world
         (<[p := set_acquire b (acquired_exclusive b)
                   (acquire_cnt b + Z.of_nat (length ops)) (dirty b)]> (bos w))
         (gem w) (log w).
Proof.
  induction ops as [|op ops IH]; intros w b rets w1 Hb Hc Hmax Hrun Hok.
  - cbn in Hrun. injection Hrun as <- <-. cbn [length Z.of_nat].
    rewrite Z.add_0_r, set_acquire_id, insert_id by exact Hb.
    symmetry. apply world_eta.
  - cbn [mapM] in Hrun. cbv [bind] in Hrun.
    rewrite (cpu_prep_nested p op w b Hb) in Hrun by lia.
    cbn [length] in Hmax. rewrite Nat2Z.inj_succ in Hmax.
    destruct (negb (Z.land op W =? 0) && (acquired_exclusive b =? 0)).
    + destruct (mapM _ ops w) as [ys w'|]; [|discriminate].
      injection Hrun as <- <-. inversion Hok; subst. discriminate.
    + rewrite int32_id in Hrun by (unfold INT_MIN, INT_MAX in *; lia).
      set (b' := set_acquire b (acquired_exclusive b) (acquire_cnt b + 1) (dirty b)) in *.
      set (w' := mk_world (<[p:=b']> (bos w)) (gem w) (log w)) in *.
      destruct (mapM _ ops w') as [ys w2|] eqn:E; [|discriminate].
      cbv [ret] in Hrun. injection Hrun as <- <-. inversion Hok; subst.
      assert (Hb' : bos w' !! p = Some b') by apply lookup_insert_eq.
      rewrite (IH w' b' ys w2 Hb');
        [| subst b'; cbn [acquire_cnt set_acquire]; lia
         | subst b'; cbn [acquire_cnt set_acquire]; lia | exact E | assumption].
      cbn [bos gem log b' w' acquired_exclusive acquire_cnt dirty set_acquire].
      rewrite insert_insert_eq. cbn [length]. rewrite Nat2Z.inj_succ.
      subst b'. unfold set_acquire. cbn. do 3 f_equal. lia.
Qed.

(** [j] releases on a BO held at depth [d > j]: the depth goes down, nothing
    else happens. *)
Lemma cpu_fini_nested_seq (p : positive) (fops : list Z) :
  forall (w : world) (b : omap_bo),
  bos w !! p = Some b ->
  Z.of_nat (length fops) < acquire_cnt b -> acquire_cnt b <= INT_MAX ->
  mapM (omap_bo_cpu_fini K p) fops w =
  Ret (repeat 0 (length fops))
      (mk_world
         (<[p := set_acquire b (acquired_exclusive b)
                   (acquire_cnt b - Z.of_nat (length fops)) (dirty b)]> (bos w))
         (gem w) (log w)).
Proof.
  induction fops as [|op fops IH]; intros w b Hb Hc Hmax.
  - cbn [mapM length repeat Z.of_nat]. rewrite Z.sub_0_r, set_acquire_id.
    rewrite insert_id by exact Hb. rewrite world_eta. reflexivity.
  - cbn [length] in *. rewrite Nat2Z.inj_succ in Hc.
    cbn [mapM]. cbv [bind].
    rewrite (cpu_fini_run p op w b Hb) by lia. cbv zeta.
    destruct (acquire_cnt b =? 1) eqn:E1; [apply Z.eqb_eq in E1; lia|].
    set (b' := set_acquire b (acquired_exclusive b) (acquire_cnt b - 1) (dirty b)).
    set (w' := mk_world (<[p:=b']> (bos w)) (gem w) (log w)).
    assert (Hb' : bos w' !! p = Some b') by apply lookup_insert_eq.
    rewrite (IH w' b' Hb')
      by (subst b'; cbn [acquire_cnt set_acquire]; lia).
    cbv [ret]. cbn [repeat bos gem log b' w' acquired_exclusive acquire_cnt dirty set_acquire].
    rewrite insert_insert_eq, Nat2Z.inj_succ.
    subst b'. unfold set_acquire. cbn. do 4 f_equal. lia.
Qed.

(** A successful run of acquires from depth 0: one ioctl for the first,
    then only the depth moves. *)
Lemma cpu_prep_seq_from_zero (p : positive) (op0 : Z) (ops : list Z)
    (w : world) (b : omap_bo) (rets : list Z) (w1 : world) :
  bos w !! p = Some b -> acquire_cnt b = 0 ->
  Z.of_nat (length (op0 :: ops)) <= INT_MAX ->
  mapM (omap_bo_cpu_prep K W p) (op0 :: ops) w = Ret rets w1 ->
  Forall (fun r => r = 0) rets ->
  exists e x,
    exynos_bo_p b = Some e /\ gem w !! e = Some x /\
    let flags := if negb (Z.land op0 W =? 0)
                 then DRM_EXYNOS_GEM_CPU_ACQUIRE_EXCLUSIVE
                 else DRM_EXYNOS_GEM_CPU_ACQUIRE_SHARED in
    w1 = mk_world
           (<[p := set_acquire b (Z.land op0 W) (Z.of_nat (length (op0 :: ops)))
                     (if negb (Z.land op0 W =? 0) then TRUE else dirty b)]>
              (bos w))
           (gem w) ((CpuAcquire (handle x) flags, 0) :: log w).
Proof.
  intros Hb Hc Hmax Hrun Hok.
  cbn [mapM] in Hrun. cbv [bind] in Hrun.
  rewrite (cpu_prep_first p op0 w b Hb Hc) in Hrun.
  destruct (exynos_bo_p b) as [e|]; [|discriminate].
  destruct (gem w !! e) as [x|] eqn:Hx; [|discriminate].
  exists e, x. split; [reflexivity|]. split; [exact Hx|].
  cbv zeta in *.
  set (flags := if negb (Z.land op0 W =? 0)
                then DRM_EXYNOS_GEM_CPU_ACQUIRE_EXCLUSIVE
                else DRM_EXYNOS_GEM_CPU_ACQUIRE_SHARED) in *.
  destruct (sys K (log w) (CpuAcquire (handle x) flags) =? 0) eqn:Er.
  - apply Z.eqb_eq in Er. rewrite Er in Hrun.
    set (b' := set_acquire b (Z.land op0 W) 1
                 (if negb (Z.land op0 W =? 0) then TRUE else dirty b)) in *.
    set (wa := mk_world (<[p:=b']> (bos w)) (gem w)
                 ((CpuAcquire (handle x) flags, 0) :: log w)) in *.
    destruct (mapM (omap_bo_cpu_prep K W p) ops wa) as [ys w2|] eqn:E;
      [|discriminate].
    cbv [ret] in Hrun. injection Hrun as <- <-. inversion Hok; subst.
    assert (Hb' : bos wa !! p = Some b') by apply lookup_insert_eq.
    cbn [length] in Hmax. rewrite Nat2Z.inj_succ in Hmax.
    rewrite (cpu_prep_nested_seq p ops wa b' ys w2 Hb');
      [| subst b'; cbn [acquire_cnt set_acquire]; lia
       | subst b'; cbn [acquire_cnt set_acquire]; lia | exact E | assumption].
    subst wa b'. cbn [bos gem log]. rewrite insert_insert_eq.
    cbn [length]. rewrite Nat2Z.inj_succ.
    unfold set_acquire. cbn [dev exynos_bo_p fb_id Dumb.width Dumb.height
      Dumb.pitch Dumb.depth Dumb.bpp pixel_format refcnt acquired_exclusive
      acquire_cnt dirty].
    do 3 f_equal. lia.
  - destruct (mapM _ ops _) as [ys w2|]; [|discriminate].
    cbv [ret] in Hrun. injection Hrun as <- <-. inversion Hok; subst.
    apply Z.eqb_neq in Er. contradiction.
Qed.

(** C8: [K] successful acquires from depth 0 followed by [K] releases issue
    exactly one acquire ioctl, at the first acquire, and exactly one release
    ioctl, at the last release: the log gains these two calls and nothing
    else.  After any [i >= 1] of the acquires the log
    holds that one acquire and the depth is [i]; after any [j < K] of the
    releases the log is unchanged and the depth is [K - j]; the releases all
    run, and leave the depth at 0. *)
Theorem nested_fence_ioctls (p : positive) (ops fops : list Z)
    (w : world) (b : omap_bo) (rets : list Z) (w1 : world) :
  bos w !! p = Some b -> acquire_cnt b = 0 ->
  (1 <= length ops)%nat -> Z.of_nat (length ops) <= INT_MAX ->
  length fops = length ops ->
  mapM (omap_bo_cpu_prep K W p) ops w = Ret rets w1 ->
  Forall (fun r => r = 0) rets ->
  exists (hd flags : Z) (rets2 : list Z) (w2 : world) (r : Z) (b2 : omap_bo),
    log w1 = (CpuAcquire hd flags, 0) :: log w /\
    mapM (omap_bo_cpu_fini K p) fops w1 = Ret rets2 w2 /\
    log w2 = (CpuRelease hd, r) :: log w1 /\
    acquires (log w2) = S (acquires (log w)) /\
    releases (log w2) = S (releases (log w)) /\
    bos w2 !! p = Some b2 /\ acquire_cnt b2 = 0 /\
    (forall i, (1 <= i <= length ops)%nat ->
       exists ri wi bi,
         mapM (omap_bo_cpu_prep K W p) (take i ops) w = Ret ri wi /\
         log wi = log w1 /\ bos wi !! p = Some bi /\
         acquire_cnt bi = Z.of_nat i) /\
    (forall j, (j < length fops)%nat ->
       exists rj wj bj,
         mapM (omap_bo_cpu_fini K p) (take j fops) w1 = Ret rj wj /\
         log wj = log w1 /\ bos wj !! p = Some bj /\
         acquire_cnt bj = Z.of_nat (length ops) - Z.of_nat j).
Proof.
  intros Hb Hc Hlen Hmax Hf Hrun Hok.
  destruct ops as [|op0 ops]; [cbn in Hlen; lia|].
  destruct (cpu_prep_seq_from_zero p op0 ops w b rets w1 Hb Hc Hmax Hrun Hok)
    as (e & x & He & Hx & Hw1).
  cbv zeta in Hw1.
  remember (length (op0 :: ops)) as n eqn:Hn0. cbn [length] in Hn0.
  set (b1 := set_acquire b (Z.land op0 W) (Z.of_nat n)
               (if negb (Z.land op0 W =? 0) then TRUE else dirty b)) in *.
  assert (Hb1 : bos w1 !! p = Some b1) by (rewrite Hw1; apply lookup_insert_eq).
  assert (Hg1 : gem w1 = gem w) by (rewrite Hw1; reflexivity).
  assert (Hcnt1 : acquire_cnt b1 = Z.of_nat n) by reflexivity.
  assert (Hn : (1 <= n)%nat) by exact Hlen.
  (* the releases: all but the last, then the last *)
  assert (Hsplit : fops = take (n - 1) fops ++ drop (n - 1) fops)
    by (symmetry; apply take_drop).
  assert (Hlt : length (take (n - 1) fops) = (n - 1)%nat)
    by (rewrite length_take; lia).
  destruct (drop (n - 1) fops) as [|fop [|? ?]] eqn:Hd;
    [ apply (f_equal length) in Hd; rewrite length_drop in Hd;
      cbn [length] in Hd; lia
    | | apply (f_equal length) in Hd; rewrite length_drop in Hd;
        cbn [length] in Hd; lia ].
  pose proof (cpu_fini_nested_seq p (take (n - 1) fops) w1 b1 Hb1) as Hinit.
  rewrite Hlt, Hcnt1 in Hinit. specialize (Hinit ltac:(lia) Hmax).
  set (bm := set_acquire b1 (acquired_exclusive b1)
               (Z.of_nat n - Z.of_nat (n - 1)) (dirty b1)) in *.
  set (wm := mk_world (<[p:=bm]> (bos w1)) (gem w1) (log w1)) in *.
  assert (Hbm : bos wm !! p = Some bm) by apply lookup_insert_eq.
  assert (Hcm : acquire_cnt bm = 1)
    by (subst bm; cbn [acquire_cnt set_acquire]; lia).
  pose proof (cpu_fini_run p fop wm bm Hbm) as Hlast.
  rewrite Hcm in Hlast. specialize (Hlast ltac:(lia) ltac:(unfold INT_MAX; lia)).
  cbv zeta in Hlast. cbn [Z.eqb Pos.eqb] in Hlast.
  assert (Hem : exynos_bo_p bm = Some e) by exact He.
  rewrite Hem in Hlast. cbn [gem wm] in Hlast. rewrite Hg1, Hx in Hlast.
  exists (handle x), (if negb (Z.land op0 W =? 0)
                      then DRM_EXYNOS_GEM_CPU_ACQUIRE_EXCLUSIVE
                      else DRM_EXYNOS_GEM_CPU_ACQUIRE_SHARED).
  eexists _, _, _, _.
  split; [rewrite Hw1; reflexivity|].
  split.
  { rewrite Hsplit, mapM_app. cbv [bind]. rewrite Hinit.
    cbn [mapM]. cbv [bind ret]. fold wm. rewrite Hlast. reflexivity. }
  split; [reflexivity|].
  split; [cbn [log]; unfold wm; cbn [log]; rewrite Hw1; reflexivity|].
  split; [cbn [log]; unfold wm; cbn [log]; rewrite Hw1; reflexivity|].
  split; [apply lookup_insert_eq|].
  split; [reflexivity|].
  split.
  - intros i Hi.
    destruct (mapM_take _ _ i _ _ _ Hrun) as (wi & Hri & Hli).
    destruct i as [|i]; [lia|]. cbn [take] in Hri.
    assert (Hoki : Forall (fun r => r = 0) (take (S i) rets))
      by (apply Forall_take; exact Hok).
    assert (Hmaxi : Z.of_nat (length (op0 :: take i ops)) <= INT_MAX).
    { cbn [length]. rewrite length_take. lia. }
    destruct (cpu_prep_seq_from_zero p op0 (take i ops) w b _ wi Hb Hc Hmaxi Hri Hoki)
      as (e' & x' & He' & Hx' & Hwi).
    cbv zeta in Hwi. rewrite He in He'. injection He' as <-.
    rewrite Hx in Hx'. injection Hx' as <-.
    eexists _, wi, _. split; [exact Hri|].
    rewrite Hwi, Hw1. split; [reflexivity|].
    split; [apply lookup_insert_eq|].
    cbn [acquire_cnt set_acquire length]. rewrite length_take.
    f_equal. lia.
  - intros j Hj.
    pose proof (cpu_fini_nested_seq p (take j fops) w1 b1 Hb1) as Hjrun.
    rewrite length_take, Hcnt1 in Hjrun.
    assert (Hmin : (j `min` length fops)%nat = j) by lia.
    rewrite Hmin in Hjrun.
    specialize (Hjrun ltac:(lia) Hmax).
    eexists _, _, _. split; [exact Hjrun|].
    split; [reflexivity|]. split; [apply lookup_insert_eq|].
    reflexivity.
Qed.

(** C9 as the code has it: the dirty flag is TRUE right after a BO is
    allocated and right after a successful write-mode acquire that takes the
    BO from depth 0 to depth 1.  A nested acquire that succeeds only
    increments the depth: the BO's record is the one before with
    [acquire_cnt + 1] (in [int] arithmetic, so exactly one more below
    [INT_MAX]), the dirty flag and the exclusivity are as they were, no
    other BO changes, and neither the exynos BOs nor the call log do. *)
Theorem dirty_after_outermost_write_acquire :
  (forall dv width height depth bpp fmt w p w',
     omap_bo_new K dv width height depth bpp fmt w = Ret (Some p) w' ->
     exists b, bos w' !! p = Some b /\ dirty b = TRUE) /\
  (forall p op w w' b,
     bos w !! p = Some b -> acquire_cnt b = 0 -> Z.land op W <> 0 ->
     omap_bo_cpu_prep K W p op w = Ret 0 w' ->
     exists b', bos w' !! p = Some b' /\ dirty b' = TRUE /\ acquire_cnt b' = 1) /\
  (forall p op w w' b,
     bos w !! p = Some b -> acquire_cnt b <> 0 ->
     omap_bo_cpu_prep K W p op w = Ret 0 w' ->
     let b' := set_acquire b (acquired_exclusive b)
                 (int32 (acquire_cnt b + 1)) (dirty b) in
     w' = mk_world (<[p := b']> (bos w)) (gem w) (log w) /\
     bos w' !! p = Some b' /\ dirty b' = dirty b /\
     acquired_exclusive b' = acquired_exclusive b /\
     refcnt b' = refcnt b /\
     (INT_MIN <= acquire_cnt b < INT_MAX ->
      acquire_cnt b' = acquire_cnt b + 1) /\
     (forall q, q <> p -> bos w' !! q = bos w !! q)).
Proof.
  split; [|split].
  - intros dv width height depth bpp fmt w p w' Hrun.
    rewrite omap_bo_new_run in Hrun. cbv zeta in Hrun.
    repeat match type of Hrun with
           | (if ?c then _ else _) = _ => destruct c; [discriminate|]
           end.
    injection Hrun as <- <-. eexists. split; [apply lookup_insert_eq|reflexivity].
  - intros p op w w' b Hb Hc Hop Hrun.
    rewrite (cpu_prep_first p op w b Hb Hc) in Hrun.
    destruct (exynos_bo_p b) as [e|]; [|discriminate].
    destruct (gem w !! e) as [x|]; [|discriminate].
    cbv zeta in Hrun. apply Z.eqb_neq in Hop. rewrite Hop in Hrun.
    cbn [negb] in Hrun.
    destruct (sys K (log w) _ =? 0) eqn:Er.
    + injection Hrun as _ <-. eexists. split; [apply lookup_insert_eq|].
      split; reflexivity.
    + injection Hrun as Hr _. apply Z.eqb_neq in Er. contradiction.
  - intros p op w w' b Hb Hc Hrun.
    rewrite (cpu_prep_nested p op w b Hb Hc) in Hrun.
    destruct (negb (Z.land op W =? 0) && (acquired_exclusive b =? 0));
      [discriminate|].
    injection Hrun as <-. cbv zeta. cbn [bos].
    split; [reflexivity|]. split; [apply lookup_insert_eq|].
    split; [reflexivity|]. split; [reflexivity|]. split; [reflexivity|].
    split.
    + intros Hrange. cbn [acquire_cnt set_acquire]. apply int32_id.
      unfold INT_MIN, INT_MAX in *. lia.
    + intros q Hq. apply lookup_insert_ne. congruence.
Qed.

End Fence.

End WithKernel.

(** C6 at concrete inputs: a 64x64 BO of depth 24 and 32 bits per pixel,
    with a kernel that refuses the framebuffer and with one that grants it. *)
Lemma omap_bo_new_registration_witness :
  omap_bo_new DumbEx.K_nofb 3 64 64 24 32 0 DumbEx.w_empty =
    Ret None (mk_world ∅ ∅
                [(ExynosBoDestroy 7, 0); (AddFB 64 64 24 32 256 7, -22);
                 (ExynosBoCreate 16384 1, 7); (Calloc, 1)]) /\
  exists p w', omap_bo_new DumbEx.K_ok 3 64 64 24 32 0 DumbEx.w_empty
               = Ret (Some p) w'.
Proof.
  split.
  - apply (omap_bo_new_registration DumbEx.K_nofb 3 64 64 24 32 0
             DumbEx.w_empty 1 7); [reflexivity | lia | reflexivity | lia |].
    vm_compute. reflexivity.
  - destruct (omap_bo_new_registration DumbEx.K_ok 3 64 64 24 32 0
                DumbEx.w_empty 1 7 eq_refl ltac:(lia) eq_refl ltac:(lia))
      as [_ H].
    destruct (H ltac:(vm_compute; discriminate)) as (p & e & b & w' & Hrun & _).
    exists p, w'. exact Hrun.
Defined.

(** C7 at a concrete input: the 64x64 BO, acquired once for reading, is
    asked for writing. *)
Lemma cpu_prep_write_on_shared_witness :
  omap_bo_cpu_prep DumbEx.K_ok DumbEx.OMAP_GEM_WRITE 1%positive
    DumbEx.OMAP_GEM_WRITE DumbEx.w_read = Ret 1 DumbEx.w_read.
Proof.
  apply (cpu_prep_write_on_shared DumbEx.K_ok DumbEx.OMAP_GEM_WRITE 1%positive
           DumbEx.OMAP_GEM_WRITE DumbEx.w_read
           (mk_omap_bo 3 (Some 1%positive) 5 64 64 256 24 32 0 1 0 1 1)).
  - vm_compute. reflexivity.
  - cbn. lia.
  - reflexivity.
  - vm_compute. discriminate.
Defined.

(** C8 at a concrete input: write, write, read acquires on the new BO, then
    three releases. *)
Lemma nested_fence_ioctls_witness :
  exists rets2 w2 r,
    mapM (omap_bo_cpu_fini DumbEx.K_ok 1%positive) [0; 0; 0]
      (DumbEx.world_of
         (mapM (omap_bo_cpu_prep DumbEx.K_ok DumbEx.OMAP_GEM_WRITE 1%positive)
            [2; 2; 1] DumbEx.w_new)) = Ret rets2 w2 /\
    log w2 = (CpuRelease 7, r) :: (CpuAcquire 7 1, 0) :: log DumbEx.w_new.
Proof.
  destruct (nested_fence_ioctls DumbEx.K_ok DumbEx.OMAP_GEM_WRITE 1%positive
              [2; 2; 1] [0; 0; 0] DumbEx.w_new
              (mk_omap_bo 3 (Some 1%positive) 5 64 64 256 24 32 0 1 0 0 1)
              [0; 0; 0]
              (DumbEx.world_of
                 (mapM (omap_bo_cpu_prep DumbEx.K_ok DumbEx.OMAP_GEM_WRITE 1%positive)
                    [2; 2; 1] DumbEx.w_new)))
    as (hd & flags & rets2 & w2 & r & b2 & Hl1 & Hrun & Hl2 & _ & _ & _).
  - vm_compute. reflexivity.
  - reflexivity.
  - cbn. lia.
  - cbn. unfold INT_MAX. lia.
  - reflexivity.
  - vm_compute. reflexivity.
  - repeat constructor.
  - exists rets2, w2, r. split; [exact Hrun|].
    rewrite Hl2, Hl1.
    assert (Hhd : hd = 7 /\ flags = 1).
    { vm_compute in Hl1. injection Hl1 as <- <-. split; reflexivity. }
    destruct Hhd as [-> ->]. reflexivity.
Defined.

(** C9, amended, at concrete inputs: the BO just allocated; its first
    acquire, for writing; a nested acquire once the flag was cleared. *)
Lemma dirty_after_outermost_write_acquire_witness :
  (exists b, bos DumbEx.w_new !! 1%positive = Some b /\ dirty b = TRUE) /\
  (exists b, bos DumbEx.w_write !! 1%positive = Some b /\ dirty b = TRUE) /\
  (exists w' b,
     omap_bo_cpu_prep DumbEx.K_ok DumbEx.OMAP_GEM_WRITE 1%positive
       DumbEx.OMAP_GEM_WRITE DumbEx.w_clean = Ret 0 w' /\
     bos w' !! 1%positive = Some b /\ dirty b = FALSE /\ acquire_cnt b = 2).
Proof.
  destruct (dirty_after_outermost_write_acquire DumbEx.K_ok DumbEx.OMAP_GEM_WRITE)
    as (Hnew & Hfirst & Hnested).
  split; [|split].
  - apply (Hnew 3 64 64 24 32 0 DumbEx.w_empty 1%positive DumbEx.w_new).
    vm_compute. reflexivity.
  - destruct (Hfirst 1%positive DumbEx.OMAP_GEM_WRITE DumbEx.w_new DumbEx.w_write
                (mk_omap_bo 3 (Some 1%positive) 5 64 64 256 24 32 0 1 0 0 1))
      as (b & Hb & Hd & _).
    + vm_compute. reflexivity.
    + reflexivity.
    + vm_compute. discriminate.
    + vm_compute. reflexivity.
    + exists b. split; assumption.
  - destruct (Hnested 1%positive DumbEx.OMAP_GEM_WRITE DumbEx.w_clean
                (DumbEx.world_of
                   (omap_bo_cpu_prep DumbEx.K_ok DumbEx.OMAP_GEM_WRITE 1%positive
                      DumbEx.OMAP_GEM_WRITE DumbEx.w_clean))
                (mk_omap_bo 3 (Some 1%positive) 5 64 64 256 24 32 0 1 2 1 0))
      as (_ & Hb & Hd & _ & _ & Hcnt & _).
    + vm_compute. reflexivity.
    + cbn. lia.
    + vm_compute. reflexivity.
    + eexists _, _. split; [vm_compute; reflexivity|]. split; [exact Hb|].
      split; [rewrite Hd; reflexivity|].
      rewrite Hcnt; [reflexivity|]. vm_compute. split; [discriminate|reflexivity].
Defined.

(** C9 as stated fails: allocate a BO, acquire it for writing, clear the
    dirty flag, acquire it for writing again.  The nested acquire succeeds
    (it returns 0 and the depth is 2) and the dirty flag is still FALSE. *)
Lemma nested_write_acquire_leaves_clean :
  omap_bo_new DumbEx.K_ok 3 64 64 24 32 0 DumbEx.w_empty
    = Ret (Some 1%positive) DumbEx.w_new /\
  omap_bo_cpu_prep DumbEx.K_ok DumbEx.OMAP_GEM_WRITE 1%positive
    DumbEx.OMAP_GEM_WRITE DumbEx.w_new = Ret 0 DumbEx.w_write /\
  omap_bo_clear_dirty 1%positive DumbEx.w_write = Ret tt DumbEx.w_clean /\
  Z.land DumbEx.OMAP_GEM_WRITE DumbEx.OMAP_GEM_WRITE <> 0 /\
  exists w' b,
    omap_bo_cpu_prep DumbEx.K_ok DumbEx.OMAP_GEM_WRITE 1%positive
      DumbEx.OMAP_GEM_WRITE DumbEx.w_clean = Ret 0 w' /\
    bos w' !! 1%positive = Some b /\
    acquire_cnt b = 2 /\ acquired_exclusive b <> 0 /\ dirty b = FALSE.
Proof.
  split; [vm_compute; reflexivity|].
  split; [vm_compute; reflexivity|].
  split; [vm_compute; reflexivity|].
  split; [vm_compute; discriminate|].
  eexists _, _. split; [vm_compute; reflexivity|].
  split; [vm_compute; reflexivity|].
  split; [reflexivity|]. split; [vm_compute; discriminate|reflexivity].
Qed.

(** C10 at concrete inputs: NULL on the world with one new BO, and a BO
    whose count is 0. *)
Lemma unreference_null_noop_witness :
  omap_bo_unreference DumbEx.K_ok None DumbEx.w_new = Ret tt DumbEx.w_new /\
  omap_bo_unreference DumbEx.K_ok (Some 1%positive) DumbEx.w_zero = Abort.
Proof.
  split.
  - apply (unreference_null_noop DumbEx.K_ok DumbEx.w_new).
  - destruct (unreference_null_noop DumbEx.K_ok DumbEx.w_zero) as (_ & _ & H).
    apply (H 1%positive
             (mk_omap_bo 3 (Some 1%positive) 5 64 64 256 24 32 0 0 0 0 1)).
    + vm_compute. reflexivity.
    + cbn. lia.
Defined.

End DumbFacts.

Module Dri2Facts.
Import Dri2.

Lemma set_dumb_id (s : server) : set_dumb s (dumb s) = s.
Proof. destruct s; reflexivity. Qed.

Lemma deref_some {V} (heap : server -> gmap positive V) (a : positive) (v : V)
    (s : server) :
  heap s !! a = Some v -> deref heap (Some a) s = Ret v s.
Proof. unfold deref. intros ->. reflexivity. Qed.

(** ** The loops over the scanout slots *)

Lemma invalidate_scanouts_lookup (n : nat) :
  forall (i : nat) (l : list OMAPScanout) (j : nat),
  invalidate_scanouts i n l !! j =
  if decide (i <= j < i + n)%nat
  then (fun sl => set_valid sl FALSE) <$> l !! j
  else l !! j.
Proof.
  induction n as [|n IH]; intros i l j; cbn [invalidate_scanouts].
  - destruct (decide _); [lia|reflexivity].
  - rewrite IH.
    destruct (decide (S i <= j < S i + n)%nat) as [H1|H1];
      destruct (decide (i <= j < i + S n)%nat) as [H2|H2]; try lia.
    + rewrite list_lookup_alter_ne by lia. reflexivity.
    + assert (j = i) by lia. subst j. rewrite list_lookup_alter_eq. reflexivity.
    + rewrite list_lookup_alter_ne by lia. reflexivity.
Qed.

Lemma invalidate_scanouts_all (n : nat) (l : list OMAPScanout) :
  (length l <= n)%nat ->
  invalidate_scanouts 0 n l = (fun sl => set_valid sl FALSE) <$> l.
Proof.
  intros Hlen. apply list_eq. intros j.
  rewrite invalidate_scanouts_lookup, list_lookup_fmap.
  destruct (decide _) as [H|H]; [reflexivity|].
  rewrite (lookup_ge_None_2 l j) by lia. reflexivity.
Qed.

(** The validating loop changes nothing, or sets to TRUE the flag of the
    first slot at or after [i] whose BO is [b], and of no other slot. *)
Lemma validate_scanout_spec (b : option positive) (n : nat) :
  forall (i : nat) (l : list OMAPScanout),
  validate_scanout b i n l = l \/
  exists k sl,
    (i <= k < i + n)%nat /\ l !! k = Some sl /\ bo sl = b /\
    (forall j sl', (i <= j < k)%nat -> l !! j = Some sl' -> bo sl' <> b) /\
    validate_scanout b i n l = <[k := set_valid sl TRUE]> l.
Proof.
  induction n as [|n IH]; intros i l; cbn [validate_scanout].
  - left. reflexivity.
  - destruct (l !! i) as [sl|] eqn:Hi.
    + destruct (decide (bo sl = b)) as [Hb|Hb].
      * right. exists i, sl. repeat split; try lia; try assumption.
      * destruct (IH (S i) l) as [H|(k & sl' & Hk & Hl & Hbo & Hfirst & Hv)].
        { left. exact H. }
        right. exists k, sl'. repeat split; try lia; try assumption.
        intros j sl'' Hj Hlj.
        destruct (decide (j = i)) as [->|Hne].
        { rewrite Hi in Hlj. injection Hlj as <-. exact Hb. }
        apply (Hfirst j sl''); [lia|exact Hlj].
    + destruct (IH (S i) l) as [H|(k & sl' & Hk & Hl & Hbo & Hfirst & Hv)].
      { left. exact H. }
      right. exists k, sl'. repeat split; try lia; try assumption.
      intros j sl'' Hj Hlj.
      destruct (decide (j = i)) as [->|Hne]; [congruence|].
      apply (Hfirst j sl''); [lia|exact Hlj].
Qed.

(** The validating loop is determined by the slots: with a slot of BO [b]
    among the [n] slots from [i] on, the first of them is marked valid; with
    none, nothing changes. *)
Lemma validate_scanout_first (b : option positive) (n : nat) :
  forall (i : nat) (l : list OMAPScanout) (k : nat) (sl : OMAPScanout),
  (i <= k < i + n)%nat -> l !! k = Some sl -> bo sl = b ->
  (forall j sl', (i <= j < k)%nat -> l !! j = Some sl' -> bo sl' <> b) ->
  validate_scanout b i n l = <[k := set_valid sl TRUE]> l.
Proof.
  induction n as [|n IH]; intros i l k sl Hk Hl Hb Hfirst; [lia|].
  cbn [validate_scanout].
  destruct (decide (k = i)) as [->|Hne].
  - rewrite Hl. destruct (decide (bo sl = b)); [reflexivity|contradiction].
  - assert (Hrec : validate_scanout b (S i) n l = <[k := set_valid sl TRUE]> l).
    { apply IH; try assumption; [lia|].
      intros j sl' Hj. apply Hfirst. lia. }
    destruct (l !! i) as [sl0|] eqn:Hi; [|exact Hrec].
    destruct (decide (bo sl0 = b)) as [Hb0|_]; [|exact Hrec].
    exfalso. apply (Hfirst i sl0); [lia|exact Hi|exact Hb0].
Qed.

Lemma validate_scanout_none (b : option positive) (n : nat) :
  forall (i : nat) (l : list OMAPScanout),
  (forall j sl', (i <= j < i + n)%nat -> l !! j = Some sl' -> bo sl' <> b) ->
  validate_scanout b i n l = l.
Proof.
  induction n as [|n IH]; intros i l Hnone; [reflexivity|].
  cbn [validate_scanout].
  assert (Hrec : validate_scanout b (S i) n l = l).
  { apply IH. intros j sl' Hj. apply Hnone. lia. }
  destruct (l !! i) as [sl0|] eqn:Hi; [|exact Hrec].
  destruct (decide (bo sl0 = b)) as [Hb0|_]; [|exact Hrec].
  exfalso. apply (Hnone i sl0); [lia|exact Hi|exact Hb0].
Qed.

(** ** Read-only computations *)

Lemma readonly_ret {A} (a : A) : readonly (ret a).
Proof. intros s a' s' [= _ <-]. reflexivity. Qed.

Lemma readonly_abort {A} : readonly (@abort server A).
Proof. intros s a s' H. discriminate. Qed.

Lemma readonly_bind {A B} (m : M server A) (f : A -> M server B) :
  readonly m -> (forall a, readonly (f a)) -> readonly (bind m f).
Proof.
  intros Hm Hf s b s' H. unfold bind in H.
  destruct (m s) as [a s1|] eqn:E1; [|discriminate].
  apply Hm in E1. subst s1. exact (Hf a s b s' H).
Qed.

Lemma readonly_get {A} (f : server -> A) : readonly (get f).
Proof. intros s a s' [= _ <-]. reflexivity. Qed.

Lemma readonly_deref {V} (heap : server -> gmap positive V) (p : option positive) :
  readonly (deref heap p).
Proof.
  intros s a s' H. unfold deref in H.
  destruct p as [q|]; [|discriminate].
  destruct (heap s !! q); [|discriminate]. injection H as _ <-. reflexivity.
Qed.

Lemma readonly_lift_load {A} (p : positive) (f : Dumb.omap_bo -> A) :
  readonly (lift (b <- Dumb.load p ;; ret (f b))).
Proof.
  intros s a s' H. cbv [lift bind ret Dumb.load] in H.
  destruct (Dumb.bos (dumb s) !! p); [|discriminate].
  injection H as _ <-. apply set_dumb_id.
Qed.

Lemma deref_inv {V} (heap : server -> gmap positive V) (p : option positive)
    (s s' : server) (v : V) :
  deref heap p s = Ret v s' ->
  s' = s /\ exists a, p = Some a /\ heap s !! a = Some v.
Proof.
  intros H. unfold deref in H. destruct p as [a|]; [|discriminate].
  destruct (heap s !! a) eqn:Hl; [|discriminate]. injection H as <- <-.
  split; [reflexivity|]. exists a. auto.
Qed.

Lemma lift_inv {A} (m : M Dumb.world A) (s s' : server) (a : A) :
  lift m s = Ret a s' -> exists w, s' = set_dumb s w.
Proof.
  unfold lift. destruct (m (dumb s)) as [a' w|]; [|discriminate].
  intros [= _ <-]. exists w. reflexivity.
Qed.

Section WithEnv.

Variable K : Dumb.kernel.
Variable E : xenv.
Variable drmmode_scanout_from_drawable :
  list OMAPScanout -> DrawableRec -> option OMAPScanout.
Variable drmmode_scanout_set :
  list OMAPScanout -> Z -> Z -> option positive -> list OMAPScanout.
Variable MAX_SCANOUTS : nat.
Variable OMAP_USE_PAGE_FLIP_EVENTS : bool.

Lemma readonly_dri2draw (pDraw : option positive) (buf : positive) :
  readonly (dri2draw pDraw buf).
Proof.
  unfold dri2draw. apply readonly_bind; [apply readonly_deref|].
  intros b. destruct (_ =? _); apply readonly_ret.
Qed.

Lemma readonly_draw2pix (pDraw : option positive) : readonly (draw2pix pDraw).
Proof.
  unfold draw2pix. destruct pDraw as [p|]; [|apply readonly_ret].
  apply readonly_bind; [apply readonly_deref|].
  intros d. destruct (_ =? _); [apply readonly_get|apply readonly_ret].
Qed.

Lemma readonly_canflip (pDraw : positive) (back_bo : option positive) :
  readonly (canflip drmmode_scanout_from_drawable pDraw back_bo).
Proof.
  unfold canflip. apply readonly_bind; [apply readonly_deref|].
  intros d. destruct (negb _); [apply readonly_ret|].
  apply readonly_bind.
  - destruct back_bo as [b|]; [|apply readonly_ret].
    apply readonly_bind; [apply readonly_lift_load|].
    intros w. destruct (negb _); [apply readonly_ret|].
    apply readonly_bind; [apply readonly_lift_load|].
    intros h. apply readonly_ret.
  - intros differs. destruct differs; [apply readonly_ret|].
    apply readonly_bind; [apply readonly_get|].
    intros [sl|]; apply readonly_ret.
Qed.

(** ** Flip eligibility *)

(** C2: on a valid drawable, with no candidate BO or a live one, [canflip]
    changes nothing and returns TRUE or FALSE; it returns TRUE exactly when
    the drawable is a window, the candidate BO (if one is given) has the
    width and the height of the drawable, and the scanout registry has a
    slot bound to the drawable.  So it returns FALSE whenever the drawable
    is not a window or the BO given differs in size, whatever the registry
    holds. *)
Theorem canflip_iff (pDraw : positive) (back_bo : option positive)
    (s : server) (d : DrawableRec) :
  draws s !! pDraw = Some d ->
  (forall b, back_bo = Some b -> is_Some (Dumb.bos (dumb s) !! b)) ->
  exists r,
    canflip drmmode_scanout_from_drawable pDraw back_bo s = Ret r s /\
    (r = TRUE \/ r = FALSE) /\
    (r = TRUE <->
       d_type d = DRAWABLE_WINDOW /\
       (forall b, back_bo = Some b ->
          exists rec, Dumb.bos (dumb s) !! b = Some rec /\
                      Dumb.width rec = d_width d /\
                      Dumb.height rec = d_height d) /\
       is_Some (drmmode_scanout_from_drawable (scanouts s) d)).
Proof.
  intros Hd Hbo.
  cbv [canflip bind ret load_draw get]. rewrite (deref_some draws _ _ _ Hd).
  destruct (d_type d =? DRAWABLE_WINDOW) eqn:Et; cbn [negb].
  2:{ exists FALSE. split; [reflexivity|]. split; [right; reflexivity|].
      apply Z.eqb_neq in Et. split; [discriminate|]. intros (H & _). contradiction. }
  apply Z.eqb_eq in Et.
  destruct back_bo as [b|].
  - destruct (Hbo b eq_refl) as [rec Hrec].
    cbv [lift Dumb.omap_bo_width Dumb.omap_bo_height bind ret Dumb.load].
    rewrite Hrec, set_dumb_id.
    destruct (Dumb.width rec =? d_width d) eqn:Ew; cbn [negb].
    + rewrite Hrec, set_dumb_id. apply Z.eqb_eq in Ew.
      destruct (Dumb.height rec =? d_height d) eqn:Eh; cbn [negb].
      * apply Z.eqb_eq in Eh.
        destruct (drmmode_scanout_from_drawable (scanouts s) d) as [sl|] eqn:Es.
        -- exists TRUE. split; [reflexivity|]. split; [left; reflexivity|].
           split; [|reflexivity]. intros _. split; [exact Et|].
           split; [|eexists; reflexivity].
           intros b' [= <-]. exists rec. auto.
        -- exists FALSE. split; [reflexivity|]. split; [right; reflexivity|].
           split; [discriminate|]. intros (_ & _ & [? H]). discriminate.
      * apply Z.eqb_neq in Eh.
        exists FALSE. split; [reflexivity|]. split; [right; reflexivity|].
        split; [discriminate|]. intros (_ & H & _).
        destruct (H b eq_refl) as (rec' & Hr' & _ & Hh). congruence.
    + apply Z.eqb_neq in Ew.
      exists FALSE. split; [reflexivity|]. split; [right; reflexivity|].
      split; [discriminate|]. intros (_ & H & _).
      destruct (H b eq_refl) as (rec' & Hr' & Hw & _). congruence.
  - destruct (drmmode_scanout_from_drawable (scanouts s) d) as [sl|] eqn:Es.
    + exists TRUE. split; [reflexivity|]. split; [left; reflexivity|].
      split; [|reflexivity]. intros _. split; [exact Et|].
      split; [discriminate|eexists; reflexivity].
    + exists FALSE. split; [reflexivity|]. split; [right; reflexivity|].
      split; [discriminate|]. intros (_ & _ & [? H]). discriminate.
Qed.

(** ** Completion of a swap *)

Lemma swap_complete_pending (c : positive) (cmd : OMAPDRISwapCmd) (s : server) :
  cmds s !! c = Some cmd -> 0 < int32 (swapCount cmd - 1) ->
  OMAPDRI2SwapComplete E drmmode_scanout_set MAX_SCANOUTS c s =
  Ret tt (set_cmds s (<[c := set_swapCount cmd (int32 (swapCount cmd - 1))]> (cmds s))).
Proof.
  intros Hc Hn. cbv [OMAPDRI2SwapComplete bind load_cmd store_cmd modify].
  rewrite (deref_some cmds _ _ _ Hc). apply Z.ltb_lt in Hn. rewrite Hn.
  reflexivity.
Qed.

Lemma swap_complete_final (c : positive) (cmd : OMAPDRISwapCmd) (s : server) :
  cmds s !! c = Some cmd -> int32 (swapCount cmd - 1) <= 0 ->
  OMAPDRI2SwapComplete E drmmode_scanout_set MAX_SCANOUTS c s =
  (swap_notify E drmmode_scanout_set MAX_SCANOUTS cmd ;;; swap_cleanup E c cmd)
    (set_cmds s (<[c := set_swapCount cmd (int32 (swapCount cmd - 1))]> (cmds s))).
Proof.
  intros Hc Hn. cbv [OMAPDRI2SwapComplete load_cmd store_cmd modify].
  unfold bind at 1. rewrite (deref_some cmds _ _ _ Hc).
  unfold bind at 1. apply Z.ltb_ge in Hn. rewrite Hn. reflexivity.
Qed.

Lemma refcnts_insert_same (m : gmap positive PixmapRec) (a : positive)
    (pa v : PixmapRec) :
  m !! a = Some pa -> pix_refcnt v = pix_refcnt pa ->
  refcnts (<[a := v]> m) = refcnts m.
Proof.
  intros Ha Hv. unfold refcnts. rewrite fmap_insert, Hv.
  apply insert_id. rewrite lookup_fmap, Ha. reflexivity.
Qed.

Lemma refcnts_lookup (m m' : gmap positive PixmapRec) (a : positive)
    (pa : PixmapRec) :
  refcnts m' = refcnts m -> m !! a = Some pa ->
  exists pa', m' !! a = Some pa' /\ pix_refcnt pa' = pix_refcnt pa.
Proof.
  intros Hr Ha. apply (f_equal (fun t => t !! a)) in Hr.
  unfold refcnts in Hr. rewrite !lookup_fmap, Ha in Hr.
  destruct (m' !! a) as [pa'|]; [|discriminate].
  exists pa'. split; [reflexivity|]. cbn in Hr. congruence.
Qed.

Lemma exchange_run (a b : positive) (pa pb : PixmapRec) (s : server) :
  pixmaps s !! a = Some pa -> pixmaps s !! b = Some pb ->
  OMAPPixmapExchange (Some a) (Some b) s =
  Ret tt (set_pixmaps s (exchanged a b pa pb (pixmaps s))).
Proof.
  intros Ha Hb.
  cbv [OMAPPixmapExchange bind load_pix store_pix modify deref exchanged].
  rewrite Ha, Hb. cbn [pixmaps set_pixmaps].
  destruct (decide (a = b)) as [->|Hne].
  - rewrite lookup_insert_eq. rewrite Ha in Hb. injection Hb as <-.
    destruct s; reflexivity.
  - rewrite lookup_insert_ne, Hb by exact Hne. destruct s; reflexivity.
Qed.

Lemma refcnts_exchanged (a b : positive) (pa pb : PixmapRec)
    (m : gmap positive PixmapRec) :
  m !! a = Some pa -> m !! b = Some pb ->
  refcnts (exchanged a b pa pb m) = refcnts m.
Proof.
  intros Ha Hb. unfold exchanged.
  destruct (decide (a = b)) as [->|Hne].
  - rewrite insert_insert_eq. apply (refcnts_insert_same _ _ pb); auto.
  - rewrite (refcnts_insert_same _ b pb); [| rewrite lookup_insert_ne; auto | auto].
    apply (refcnts_insert_same _ _ pa); auto.
Qed.

Lemma exchanged_dst (a b : positive) (pa pb : PixmapRec)
    (m : gmap positive PixmapRec) :
  exchanged a b pa pb m !! b = Some (set_priv_bo pb (priv_bo pa)).
Proof. unfold exchanged. apply lookup_insert_eq. Qed.

Lemma exchanged_src (a b : positive) (pa pb : PixmapRec)
    (m : gmap positive PixmapRec) :
  m !! a = Some pa -> m !! b = Some pb ->
  priv_bo <$> exchanged a b pa pb m !! a = Some (priv_bo pb).
Proof.
  intros Ha Hb. unfold exchanged.
  destruct (decide (a = b)) as [->|Hne].
  - rewrite lookup_insert_eq. cbn. rewrite Ha in Hb. injection Hb as <-. reflexivity.
  - rewrite lookup_insert_ne, lookup_insert_eq by auto. reflexivity.
Qed.

(** A flip completion that is notified. *)
Lemma swap_notify_flip (cmd : OMAPDRISwapCmd) (s : server) (dr a b : positive)
    (pa pb : PixmapRec) :
  type cmd = DRI2_FLIP_COMPLETE ->
  Z.land (flags cmd) OMAP_SWAP_FAIL = 0 ->
  resources s !! draw_id cmd = Some dr ->
  pSrcPixmap cmd = Some a -> pDstPixmap cmd = Some b ->
  pixmaps s !! a = Some pa -> pixmaps s !! b = Some pb ->
  let fake := negb (Z.land (flags cmd) OMAP_SWAP_FAKE_FLIP =? 0) in
  let pm := if fake then pixmaps s else exchanged a b pa pb (pixmaps s) in
  let newdst := if fake then priv_bo pb else priv_bo pa in
  let ev := SwapNotify (client cmd) dr (type cmd) (func cmd) (data cmd) in
  let l1 := (ev, xsys E (xlog s) ev) :: xlog s in
  let sc1 := validate_scanout newdst 0 MAX_SCANOUTS (scanouts s) in
  let ev2 := ScanoutSet (x cmd) (y cmd) newdst in
  swap_notify E drmmode_scanout_set MAX_SCANOUTS cmd s =
  Ret tt (mk_server (dumb s) (draws s) pm (winpix s) (resources s) (bufs s)
            (cmds s)
            (if fake then sc1
             else drmmode_scanout_set sc1 (x cmd) (y cmd) newdst)
            (scanout s) (has_resized s) (pending_flips s)
            (globalSerialNumber s)
            (if fake then l1 else (ev2, xsys E l1 ev2) :: l1)).
Proof.
  intros Ht Hf Hres Hsrc Hdst Ha Hb. cbv zeta.
  unfold swap_notify. rewrite Hf, Ht, Hsrc, Hdst.
  change (0 =? 0) with true. change (DRI2_FLIP_COMPLETE =? DRI2_BLIT_COMPLETE) with false.
  change (DRI2_FLIP_COMPLETE =? DRI2_FLIP_COMPLETE) with true.
  cbn [negb andb].
  unfold bind at 1. unfold dixLookupDrawable, get. rewrite Hres.
  destruct (Z.land (flags cmd) OMAP_SWAP_FAKE_FLIP =? 0); cbn [negb].
  - unfold bind at 1. rewrite (exchange_run a b pa pb s Ha Hb).
    cbv [bind xcall_ load_pix deref modify ret].
    cbn [dumb draws pixmaps winpix resources bufs cmds scanouts scanout
         has_resized pending_flips globalSerialNumber xlog set_dumb set_draws
         set_pixmaps set_bufs set_cmds set_scanouts set_has_resized
         set_pending_flips set_globalSerialNumber set_xlog].
    rewrite exchanged_dst. cbn [priv_bo set_priv_bo].
    reflexivity.
  - cbv [bind xcall_ load_pix deref modify ret].
    cbn [dumb draws pixmaps winpix resources bufs cmds scanouts scanout
         has_resized pending_flips globalSerialNumber xlog set_dumb set_draws
         set_pixmaps set_bufs set_cmds set_scanouts set_has_resized
         set_pending_flips set_globalSerialNumber set_xlog].
    rewrite Hb. reflexivity.
Qed.

(** A blit completion that is notified. *)
Lemma swap_notify_blit (cmd : OMAPDRISwapCmd) (s : server) (dr : positive) :
  type cmd = DRI2_BLIT_COMPLETE ->
  Z.land (flags cmd) OMAP_SWAP_FAIL = 0 ->
  resources s !! draw_id cmd = Some dr ->
  let ev := SwapNotify (client cmd) dr (type cmd) (func cmd) (data cmd) in
  swap_notify E drmmode_scanout_set MAX_SCANOUTS cmd s =
  Ret tt (mk_server (dumb s) (draws s) (pixmaps s) (winpix s) (resources s)
            (bufs s) (cmds s)
            (invalidate_scanouts 0 MAX_SCANOUTS (scanouts s))
            (scanout s) (has_resized s) (pending_flips s)
            (globalSerialNumber s)
            ((ev, xsys E (xlog s) ev) :: xlog s)).
Proof.
  intros Ht Hf Hres. cbv zeta.
  unfold swap_notify. rewrite Hf, Ht.
  change (0 =? 0) with true.
  change (DRI2_BLIT_COMPLETE =? DRI2_BLIT_COMPLETE) with true.
  cbn [negb andb].
  cbv [bind dixLookupDrawable get xcall_ modify ret]. rewrite Hres.
  reflexivity.
Qed.

(** A completion that is not notified: the command failed, or its drawable
    is gone. *)
Lemma swap_notify_skip (cmd : OMAPDRISwapCmd) (s : server) :
  Z.land (flags cmd) OMAP_SWAP_FAIL <> 0 \/ resources s !! draw_id cmd = None ->
  swap_notify E drmmode_scanout_set MAX_SCANOUTS cmd s = Ret tt s.
Proof.
  intros H. unfold swap_notify.
  destruct (Z.land (flags cmd) OMAP_SWAP_FAIL =? 0) eqn:Ef; [|reflexivity].
  destruct H as [H|H]; [apply Z.eqb_eq in Ef; contradiction|].
  cbv [bind dixLookupDrawable get]. rewrite H. reflexivity.
Qed.

Lemma unref_pix_insert (m : gmap positive PixmapRec) (a : positive)
    (pa : PixmapRec) :
  m !! a = Some pa ->
  <[a := set_pix_refcnt pa (int32 (pix_refcnt pa - 1))]> m = unref_pix a m.
Proof.
  intros Ha. apply map_eq. intros j. unfold unref_pix.
  rewrite lookup_alter, lookup_insert.
  destruct (decide (a = j)) as [->|]; [rewrite Ha|]; reflexivity.
Qed.

Lemma refcnts_unref_pix (m : gmap positive PixmapRec) (a : positive) :
  refcnts (unref_pix a m) = alter (fun n => int32 (n - 1)) a (refcnts m).
Proof. unfold refcnts, unref_pix. apply fmap_alter. reflexivity. Qed.

Lemma priv_bo_unref_pix (m : gmap positive PixmapRec) (a q : positive) :
  priv_bo <$> unref_pix a m !! q = priv_bo <$> m !! q.
Proof.
  unfold unref_pix. rewrite lookup_alter.
  destruct (decide (a = q)) as [->|]; [|reflexivity].
  destruct (m !! q); reflexivity.
Qed.

Lemma DestroyPixmap_run (a : positive) (pa : PixmapRec) (s : server) :
  pixmaps s !! a = Some pa ->
  DestroyPixmap_ E (Some a) s =
  Ret tt (set_xlog (set_pixmaps s (unref_pix a (pixmaps s)))
            ((DestroyPixmap (Some a), xsys E (xlog s) (DestroyPixmap (Some a)))
             :: xlog s)).
Proof.
  intros Ha. cbv [DestroyPixmap_ bind load_pix store_pix modify xcall_ ret].
  rewrite (deref_some pixmaps _ _ _ Ha).
  rewrite (unref_pix_insert _ _ _ Ha). reflexivity.
Qed.

Lemma swap_cleanup_run (c : positive) (cmd : OMAPDRISwapCmd) (s : server)
    (a b : positive) (pa pb : PixmapRec) :
  pSrcPixmap cmd = Some a -> pDstPixmap cmd = Some b ->
  pixmaps s !! a = Some pa -> pixmaps s !! b = Some pb ->
  let e1 := DestroyPixmap (Some a) in
  let l1 := (e1, xsys E (xlog s) e1) :: xlog s in
  let e2 := DestroyPixmap (Some b) in
  let l2 := (e2, xsys E l1 e2) :: l1 in
  swap_cleanup E c cmd s =
  Ret tt (mk_server (dumb s) (draws s)
            (unref_pix b (unref_pix a (pixmaps s)))
            (winpix s) (resources s) (bufs s)
            (delete c (cmds s)) (scanouts s) (scanout s) (has_resized s)
            (int32 (pending_flips s - 1)) (globalSerialNumber s)
            ((FreeCmd c, xsys E l2 (FreeCmd c)) :: l2)).
Proof.
  intros Hsrc Hdst Ha Hb. cbv zeta. unfold swap_cleanup.
  rewrite Hsrc, Hdst. unfold bind at 1.
  rewrite (DestroyPixmap_run a pa s Ha). unfold bind at 1.
  assert (Hb' : exists pb', unref_pix a (pixmaps s) !! b = Some pb').
  { unfold unref_pix. rewrite lookup_alter.
    destruct (decide (a = b)) as [->|]; [rewrite Hb|]; eauto. }
  destruct Hb' as [pb' Hb'].
  match goal with
  | |- context [DestroyPixmap_ E (Some b) ?s1] =>
    rewrite (DestroyPixmap_run b pb' s1 Hb')
  end.
  cbv [bind modify xcall_]. reflexivity.
Qed.

(** What the notification block leaves alone. *)
Lemma swap_notify_frame (cmd : OMAPDRISwapCmd) (s : server) (a b : positive)
    (pa pb : PixmapRec) :
  type cmd = DRI2_BLIT_COMPLETE \/ type cmd = DRI2_FLIP_COMPLETE ->
  pSrcPixmap cmd = Some a -> pDstPixmap cmd = Some b ->
  pixmaps s !! a = Some pa -> pixmaps s !! b = Some pb ->
  exists s' mid,
    swap_notify E drmmode_scanout_set MAX_SCANOUTS cmd s = Ret tt s' /\
    cmds s' = cmds s /\ pending_flips s' = pending_flips s /\
    refcnts (pixmaps s') = refcnts (pixmaps s) /\
    xlog s' = mid ++ xlog s /\ forallb is_notify mid = true.
Proof.
  intros Ht Hsrc Hdst Ha Hb.
  destruct (decide (Z.land (flags cmd) OMAP_SWAP_FAIL = 0)) as [Hf|Hf].
  2:{ exists s, []. rewrite swap_notify_skip by (left; exact Hf).
      repeat split. }
  destruct (resources s !! draw_id cmd) as [dr|] eqn:Hres.
  2:{ exists s, []. rewrite swap_notify_skip by (right; exact Hres).
      repeat split. }
  destruct Ht as [Ht|Ht].
  - rewrite (swap_notify_blit cmd s dr Ht Hf Hres). cbv zeta.
    eexists _, [_]. split; [reflexivity|]. cbn [cmds pending_flips pixmaps xlog].
    repeat split.
  - rewrite (swap_notify_flip cmd s dr a b pa pb Ht Hf Hres Hsrc Hdst Ha Hb).
    cbv zeta.
    destruct (negb (Z.land (flags cmd) OMAP_SWAP_FAKE_FLIP =? 0)).
    + eexists _, [_]. split; [reflexivity|].
      cbn [cmds pending_flips pixmaps xlog]. repeat split.
    + eexists _, [_; _]. split; [reflexivity|].
      cbn [cmds pending_flips pixmaps xlog].
      rewrite (refcnts_exchanged a b pa pb _ Ha Hb). repeat split.
Qed.

(** The call that finalizes, given the state the notification block leaves. *)
Lemma swap_complete_finalize (c : positive) (cmd : OMAPDRISwapCmd)
    (s s3 : server) (a b : positive) (pa pb : PixmapRec) :
  cmds s !! c = Some cmd -> int32 (swapCount cmd - 1) <= 0 ->
  pSrcPixmap cmd = Some a -> pDstPixmap cmd = Some b ->
  swap_notify E drmmode_scanout_set MAX_SCANOUTS cmd
    (set_cmds s (<[c := set_swapCount cmd (int32 (swapCount cmd - 1))]> (cmds s)))
  = Ret tt s3 ->
  pixmaps s3 !! a = Some pa -> pixmaps s3 !! b = Some pb ->
  let e1 := DestroyPixmap (Some a) in
  let l1 := (e1, xsys E (xlog s3) e1) :: xlog s3 in
  let e2 := DestroyPixmap (Some b) in
  let l2 := (e2, xsys E l1 e2) :: l1 in
  OMAPDRI2SwapComplete E drmmode_scanout_set MAX_SCANOUTS c s =
  Ret tt (mk_server (dumb s3) (draws s3)
            (unref_pix b (unref_pix a (pixmaps s3)))
            (winpix s3) (resources s3) (bufs s3)
            (delete c (cmds s3)) (scanouts s3) (scanout s3) (has_resized s3)
            (int32 (pending_flips s3 - 1)) (globalSerialNumber s3)
            ((FreeCmd c, xsys E l2 (FreeCmd c)) :: l2)).
Proof.
  intros Hc Hn Hsrc Hdst Hnot Ha Hb. cbv zeta.
  rewrite (swap_complete_final c cmd s Hc Hn). unfold bind at 1.
  rewrite Hnot. apply (swap_cleanup_run c cmd s3 a b pa pb Hsrc Hdst Ha Hb).
Qed.

Lemma set_swapCount_id (cmd : OMAPDRISwapCmd) :
  set_swapCount cmd (swapCount cmd) = cmd.
Proof. destruct cmd; reflexivity. Qed.

Lemma set_cmds_id (s : server) : set_cmds s (cmds s) = s.
Proof. destruct s; reflexivity. Qed.

(** Completion signals that leave the countdown positive. *)
Lemma complete_n_pending (c : positive) (k : nat) :
  forall (s : server) (cmd : OMAPDRISwapCmd),
  cmds s !! c = Some cmd ->
  Z.of_nat k < swapCount cmd -> swapCount cmd <= INT_MAX ->
  complete_n E drmmode_scanout_set MAX_SCANOUTS c k s =
  Ret tt (set_cmds s (<[c := set_swapCount cmd (swapCount cmd - Z.of_nat k)]> (cmds s))).
Proof.
  induction k as [|k IH]; intros s cmd Hc Hk Hmax.
  - cbn [complete_n Z.of_nat]. rewrite Z.sub_0_r, set_swapCount_id.
    rewrite insert_id by exact Hc. rewrite set_cmds_id. reflexivity.
  - rewrite Nat2Z.inj_succ in Hk |- *.
    cbn [complete_n]. unfold bind at 1.
    assert (Hi : int32 (swapCount cmd - 1) = swapCount cmd - 1)
      by (apply int32_id; unfold INT_MIN, INT_MAX in *; lia).
    rewrite (swap_complete_pending c cmd s Hc) by lia. rewrite Hi.
    set (cmd1 := set_swapCount cmd (swapCount cmd - 1)).
    set (s1 := set_cmds s (<[c:=cmd1]> (cmds s))).
    assert (Hc1 : cmds s1 !! c = Some cmd1) by apply lookup_insert_eq.
    rewrite (IH s1 cmd1 Hc1)
      by (subst cmd1; cbn [swapCount set_swapCount]; lia).
    subst s1 cmd1. cbn [cmds set_cmds swapCount set_swapCount].
    rewrite insert_insert_eq. do 3 f_equal.
    unfold set_swapCount. cbn. f_equal. lia.
Qed.

Lemma complete_n_snoc (c : positive) (k : nat) (s : server) :
  complete_n E drmmode_scanout_set MAX_SCANOUTS c (S k) s =
  (complete_n E drmmode_scanout_set MAX_SCANOUTS c k ;;;
   OMAPDRI2SwapComplete E drmmode_scanout_set MAX_SCANOUTS c) s.
Proof.
  revert s. induction k as [|k IH]; intros s.
  - cbn [complete_n]. cbv [bind ret].
    destruct (OMAPDRI2SwapComplete _ _ _ c s) as [[] ?|]; reflexivity.
  - change (complete_n E drmmode_scanout_set MAX_SCANOUTS c (S (S k)) s)
      with ((OMAPDRI2SwapComplete E drmmode_scanout_set MAX_SCANOUTS c ;;;
             complete_n E drmmode_scanout_set MAX_SCANOUTS c (S k)) s).
    unfold bind at 1.
    destruct (OMAPDRI2SwapComplete _ _ _ c s) as [[] s1|] eqn:E1.
    + rewrite IH. cbn [complete_n]. cbv [bind]. rewrite E1. reflexivity.
    + cbn [complete_n]. cbv [bind]. rewrite E1. reflexivity.
Qed.

(** C1: a command whose countdown starts at [N >= 1].  Each of the first
    [N - 1] calls of [OMAPDRI2SwapComplete] lowers the countdown by one and
    does nothing else.  The [N]-th call finalizes: it drops one reference on
    the source pixmap and one on the destination pixmap, lowers
    [pending_flips] by one and frees the command, whatever the flags of the
    command and whether or not its drawable still resolves; before these
    three calls it logs notifications only.  The command is gone afterwards,
    so nothing can finalize it a second time. *)
Theorem swap_complete_countdown (c : positive) (cmd : OMAPDRISwapCmd)
    (s : server) (N : nat) (a b : positive) (pa pb : PixmapRec) :
  cmds s !! c = Some cmd ->
  swapCount cmd = Z.of_nat N -> (1 <= N)%nat -> Z.of_nat N <= INT_MAX ->
  type cmd = DRI2_BLIT_COMPLETE \/ type cmd = DRI2_FLIP_COMPLETE ->
  pSrcPixmap cmd = Some a -> pDstPixmap cmd = Some b ->
  pixmaps s !! a = Some pa -> pixmaps s !! b = Some pb ->
  (forall k, (k < N)%nat ->
     complete_n E drmmode_scanout_set MAX_SCANOUTS c k s =
     Ret tt (set_cmds s (<[c := set_swapCount cmd (Z.of_nat N - Z.of_nat k)]>
                           (cmds s)))) /\
  exists s' mid r1 r2 r3,
    complete_n E drmmode_scanout_set MAX_SCANOUTS c N s = Ret tt s' /\
    cmds s' = delete c (cmds s) /\
    pending_flips s' = int32 (pending_flips s - 1) /\
    refcnts (pixmaps s') = refcnts (unref_pix b (unref_pix a (pixmaps s))) /\
    xlog s' = (FreeCmd c, r3) :: (DestroyPixmap (Some b), r2)
              :: (DestroyPixmap (Some a), r1) :: mid ++ xlog s /\
    forallb is_notify mid = true /\
    OMAPDRI2SwapComplete E drmmode_scanout_set MAX_SCANOUTS c s' = Abort.
Proof.
  intros Hc HN H1 Hmax Ht Hsrc Hdst Ha Hb.
  assert (Hpend : forall k, (k < N)%nat ->
     complete_n E drmmode_scanout_set MAX_SCANOUTS c k s =
     Ret tt (set_cmds s (<[c := set_swapCount cmd (Z.of_nat N - Z.of_nat k)]>
                           (cmds s)))).
  { intros k Hk. rewrite <- HN. apply complete_n_pending; [exact Hc|lia|lia]. }
  split; [exact Hpend|].
  destruct N as [|k]; [lia|].
  rewrite complete_n_snoc. unfold bind at 1. rewrite (Hpend k) by lia.
  set (cmd1 := set_swapCount cmd (Z.of_nat (S k) - Z.of_nat k)).
  set (s1 := set_cmds s (<[c:=cmd1]> (cmds s))).
  assert (Hc1 : cmds s1 !! c = Some cmd1) by apply lookup_insert_eq.
  assert (Hn1 : int32 (swapCount cmd1 - 1) = 0).
  { subst cmd1. cbn [swapCount set_swapCount].
    replace (Z.of_nat (S k) - Z.of_nat k - 1) with 0 by lia. reflexivity. }
  set (s2 := set_cmds s1 (<[c := set_swapCount cmd1 (int32 (swapCount cmd1 - 1))]>
                            (cmds s1))).
  destruct (swap_notify_frame cmd1 s2 a b pa pb Ht Hsrc Hdst Ha Hb)
    as (s3 & mid & Hnot & Hcm & Hpf & Hrc & Hlog & Hmid).
  destruct (refcnts_lookup _ _ a pa Hrc Ha) as (pa3 & Ha3 & _).
  destruct (refcnts_lookup _ _ b pb Hrc Hb) as (pb3 & Hb3 & _).
  rewrite (swap_complete_finalize c cmd1 s1 s3 a b pa3 pb3 Hc1
             ltac:(lia) Hsrc Hdst Hnot Ha3 Hb3).
  cbv zeta. eexists _, mid, _, _, _. split; [reflexivity|].
  cbn [cmds pending_flips pixmaps xlog].
  split.
  { rewrite Hcm. subst s2 s1. cbn [cmds set_cmds].
    rewrite !delete_insert_eq. reflexivity. }
  split; [rewrite Hpf; reflexivity|].
  split.
  { rewrite !refcnts_unref_pix, Hrc. reflexivity. }
  split; [rewrite Hlog; reflexivity|].
  split; [exact Hmid|].
  cbv [OMAPDRI2SwapComplete bind load_cmd deref]. cbn [cmds].
  rewrite lookup_delete_eq. reflexivity.
Qed.

(** C3 as the code has it: finalizing a flip completion that has not failed
    and whose drawable resolves.  Exactly when the command is not a fake
    flip, the two pixmaps first trade their BOs, and the position of the
    new destination BO is recorded in the registry at the end.  In between,
    the registry [sc1] is settled by the slots alone: if one of the
    [MAX_SCANOUTS] slots holds the BO the destination pixmap has at that
    moment, the first such slot is marked valid; if none does, nothing is
    marked; in either case at most one slot differs from before. *)
Theorem flip_completion_finalize (c : positive) (cmd : OMAPDRISwapCmd)
    (s : server) (dr a b : positive) (pa pb : PixmapRec) :
  cmds s !! c = Some cmd -> int32 (swapCount cmd - 1) <= 0 ->
  type cmd = DRI2_FLIP_COMPLETE ->
  Z.land (flags cmd) OMAP_SWAP_FAIL = 0 ->
  resources s !! draw_id cmd = Some dr ->
  pSrcPixmap cmd = Some a -> pDstPixmap cmd = Some b ->
  pixmaps s !! a = Some pa -> pixmaps s !! b = Some pb ->
  let fake := negb (Z.land (flags cmd) OMAP_SWAP_FAKE_FLIP =? 0) in
  let newdst := if fake then priv_bo pb else priv_bo pa in
  let newsrc := if fake then priv_bo pa else priv_bo pb in
  exists s' sc1,
    OMAPDRI2SwapComplete E drmmode_scanout_set MAX_SCANOUTS c s = Ret tt s' /\
    priv_bo <$> pixmaps s' !! a = Some newsrc /\
    priv_bo <$> pixmaps s' !! b = Some newdst /\
    scanouts s' = (if fake then sc1
                   else drmmode_scanout_set sc1 (x cmd) (y cmd) newdst) /\
    (forall k sl,
       (k < MAX_SCANOUTS)%nat -> scanouts s !! k = Some sl -> bo sl = newdst ->
       (forall j sl', (j < k)%nat -> scanouts s !! j = Some sl' ->
                      bo sl' <> newdst) ->
       sc1 = <[k := set_valid sl TRUE]> (scanouts s)) /\
    ((forall j sl', (j < MAX_SCANOUTS)%nat -> scanouts s !! j = Some sl' ->
                    bo sl' <> newdst) ->
     sc1 = scanouts s) /\
    (exists k, forall j, j <> k -> sc1 !! j = scanouts s !! j) /\
    exists r,
      List.filter is_scanout_set (xlog s') =
      (if fake then [] else [(ScanoutSet (x cmd) (y cmd) newdst, r)])
      ++ List.filter is_scanout_set (xlog s).
Proof.
  intros Hc Hn Ht Hf Hres Hsrc Hdst Ha Hb fake newdst newsrc.
  set (sc1 := validate_scanout newdst 0 MAX_SCANOUTS (scanouts s)).
  set (s2 := set_cmds s (<[c := set_swapCount cmd (int32 (swapCount cmd - 1))]>
                           (cmds s))).
  pose proof (swap_notify_flip cmd s2 dr a b pa pb Ht Hf Hres Hsrc Hdst Ha Hb)
    as Hnot.
  cbv zeta in Hnot. fold fake in Hnot. fold newdst in Hnot.
  cbn [scanouts pixmaps s2 set_cmds] in Hnot. fold sc1 in Hnot.
  assert (Hsrc' : priv_bo <$>
            (if fake then pixmaps s else exchanged a b pa pb (pixmaps s)) !! a
            = Some newsrc).
  { subst newsrc. destruct fake; [rewrite Ha; reflexivity|].
    apply exchanged_src; assumption. }
  assert (Hdst' : priv_bo <$>
            (if fake then pixmaps s else exchanged a b pa pb (pixmaps s)) !! b
            = Some newdst).
  { subst newdst. destruct fake; [rewrite Hb; reflexivity|].
    rewrite exchanged_dst. reflexivity. }
  destruct ((if fake then pixmaps s else exchanged a b pa pb (pixmaps s)) !! a)
    as [pa3|] eqn:Ha3; [|discriminate].
  destruct ((if fake then pixmaps s else exchanged a b pa pb (pixmaps s)) !! b)
    as [pb3|] eqn:Hb3; [|discriminate].
  rewrite (swap_complete_finalize c cmd s _ a b pa3 pb3 Hc Hn Hsrc Hdst Hnot Ha3 Hb3).
  cbv zeta. eexists _, sc1. split; [reflexivity|].
  cbn [pixmaps scanouts xlog].
  split; [rewrite !priv_bo_unref_pix, Ha3; exact Hsrc'|].
  split; [rewrite !priv_bo_unref_pix, Hb3; exact Hdst'|].
  split; [reflexivity|].
  split.
  { intros k sl Hk Hl Hbo Hfirst. subst sc1.
    apply validate_scanout_first; try assumption; [lia|].
    intros j sl' Hj. apply Hfirst. lia. }
  split.
  { intros Hnone. subst sc1. apply validate_scanout_none.
    intros j sl' Hj. apply Hnone. lia. }
  split.
  { destruct (validate_scanout_spec newdst MAX_SCANOUTS 0 (scanouts s))
      as [H|(k & sl & Hk & Hl & Hbo & Hfirst & Hv)]; fold sc1 in H || fold sc1 in Hv.
    - exists 0%nat. intros j _. rewrite H. reflexivity.
    - exists k. intros j Hj. rewrite Hv. apply list_lookup_insert_ne. congruence. }
  eexists. cbn [List.filter is_scanout_set fst].
  destruct fake; cbn [List.filter is_scanout_set fst app]; reflexivity.
Qed.

(** The last completion signal of a blit that has not failed and whose
    drawable resolves marks every slot of the scanout registry invalid. *)
Lemma final_blit_invalidates (c : positive) (cmd : OMAPDRISwapCmd)
    (s : server) (a b dr : positive) (pa pb : PixmapRec) :
  cmds s !! c = Some cmd -> int32 (swapCount cmd - 1) <= 0 ->
  type cmd = DRI2_BLIT_COMPLETE ->
  Z.land (flags cmd) OMAP_SWAP_FAIL = 0 ->
  resources s !! draw_id cmd = Some dr ->
  pSrcPixmap cmd = Some a -> pDstPixmap cmd = Some b ->
  pixmaps s !! a = Some pa -> pixmaps s !! b = Some pb ->
  (length (scanouts s) <= MAX_SCANOUTS)%nat ->
  exists s',
    OMAPDRI2SwapComplete E drmmode_scanout_set MAX_SCANOUTS c s = Ret tt s' /\
    scanouts s' = (fun sl => set_valid sl FALSE) <$> scanouts s /\
    Forall (fun sl => valid sl = FALSE) (scanouts s').
Proof.
  intros Hc Hn Ht Hf Hres Hsrc Hdst Ha Hb Hlen.
  set (s2 := set_cmds s (<[c := set_swapCount cmd (int32 (swapCount cmd - 1))]>
                           (cmds s))).
  pose proof (swap_notify_blit cmd s2 dr Ht Hf Hres) as Hnot.
  cbv zeta in Hnot.
  rewrite (swap_complete_finalize c cmd s _ a b pa pb Hc Hn Hsrc Hdst Hnot Ha Hb).
  cbv zeta. eexists. split; [reflexivity|].
  cbn [scanouts s2 set_cmds]. rewrite (invalidate_scanouts_all _ _ Hlen).
  split; [reflexivity|].
  apply Forall_fmap, Forall_forall. intros sl _. reflexivity.
Qed.

(** ** Scheduling a swap *)

Ltac bind_inv H :=
  unfold bind at 1 in H;
  match type of H with
  | match ?t with Ret _ _ => _ | Abort => _ end = _ =>
    let E1 := fresh "Hstep" in
    destruct t as [? ?|] eqn:E1; [|discriminate H]
  end.

(** Creating the command touches the command heap and logs the allocation. *)
Lemma swap_new_cmd_frame (cl : Z) (pDraw pDstBuffer pSrcBuffer : positive)
    (fn dt : Z) (s s1 : server) (c : positive) :
  swap_new_cmd E cl pDraw pDstBuffer pSrcBuffer fn dt s = Ret c s1 ->
  exists cmd,
    s1 = set_cmds
           (set_xlog s ((CallocCmd, xsys E (xlog s) CallocCmd) :: xlog s))
           (<[c := cmd]> (cmds s)) /\
    cmds s !! c = None.
Proof.
  intros H. unfold swap_new_cmd in H.
  bind_inv H. apply readonly_deref in Hstep. subst.
  bind_inv H. unfold xcall_ in Hstep. injection Hstep as <- <-.
  destruct (_ =? 0); [discriminate|].
  bind_inv H. unfold get in Hstep. injection Hstep as <- <-.
  bind_inv H. apply readonly_dri2draw in Hstep. subst.
  bind_inv H. apply readonly_draw2pix in Hstep. subst.
  bind_inv H. apply readonly_dri2draw in Hstep. subst.
  bind_inv H. apply readonly_draw2pix in Hstep. subst.
  bind_inv H. unfold store_cmd, modify in Hstep. inversion Hstep; subst; clear Hstep.
  unfold ret in H. injection H as <- <-.
  eexists. split; [reflexivity|].
  cbn [cmds set_xlog]. apply not_elem_of_dom, is_fresh.
Qed.

(** Rebinding the destination and switching mode changes BOs and the BO of
    the destination pixmap, and logs the switch, whose answer is the
    result. *)
Lemma swap_rebind_frame (pDraw : positive) (dst : OMAPDRI2BufferRec)
    (ncf : Z) (s s1 : server) (ok : Z) :
  swap_rebind K E drmmode_scanout_from_drawable pDraw dst ncf s = Ret ok s1 ->
  refcnts (pixmaps s1) = refcnts (pixmaps s) /\
  pending_flips s1 = pending_flips s /\
  cmds s1 = cmds s /\
  exists m, xlog s1 = (m, ok) :: xlog s /\ ok = xsys E (xlog s) m /\
            (m = SetFlipMode \/ m = SetBlitMode).
Proof.
  intros H. unfold swap_rebind in H.
  bind_inv H. unfold get in Hstep. injection Hstep as <- <-.
  destruct (negb (ncf =? 0) && (has_resized s =? 0)).
  - bind_inv H. apply deref_inv in Hstep as (-> & p & Hp & Hpix).
    bind_inv H. apply readonly_deref in Hstep. subst.
    bind_inv H. unfold get in Hstep. injection Hstep as <- <-.
    destruct (drmmode_scanout_from_drawable _ _) as [sl|]; [|discriminate].
    bind_inv H. rewrite Hp in Hstep. unfold store_pix, modify in Hstep.
    inversion Hstep; subst; clear Hstep.
    bind_inv H. apply lift_inv in Hstep as (w1 & ->).
    bind_inv H. apply lift_inv in Hstep as (w2 & ->).
    unfold xcall_ in H. injection H as <- <-.
    cbn [pixmaps pending_flips cmds xlog set_xlog set_dumb set_pixmaps].
    split; [apply (refcnts_insert_same _ _ _ _ Hpix); reflexivity|].
    split; [reflexivity|]. split; [reflexivity|].
    eexists. split; [reflexivity|]. split; [reflexivity|]. left. reflexivity.
  - bind_inv H. unfold get in Hstep. injection Hstep as <- <-.
    bind_inv H. apply lift_inv in Hstep as (w1 & ->).
    bind_inv H. apply readonly_deref in Hstep. subst.
    bind_inv H. apply lift_inv in Hstep as (w2 & ->).
    bind_inv H. apply deref_inv in Hstep as (-> & p & Hp & Hpix).
    bind_inv H. rewrite Hp in Hstep. unfold store_pix, modify in Hstep.
    inversion Hstep; subst; clear Hstep.
    unfold xcall_ in H. injection H as <- <-.
    cbn [pixmaps pending_flips cmds xlog set_xlog set_dumb set_pixmaps] in *.
    split; [apply (refcnts_insert_same _ _ _ _ Hpix); reflexivity|].
    split; [reflexivity|]. split; [reflexivity|].
    eexists. split; [reflexivity|]. split; [reflexivity|]. right. reflexivity.
Qed.

Lemma swap_prepare_frame (cl : Z) (pDraw pDstBuffer pSrcBuffer : positive)
    (fn dt : Z) (s s1 : server) (c : positive) (ncf ok : Z) :
  swap_prepare K E drmmode_scanout_from_drawable cl pDraw pDstBuffer
    pSrcBuffer fn dt s = Ret (c, ncf, ok) s1 ->
  let l := (CallocCmd, xsys E (xlog s) CallocCmd) :: xlog s in
  refcnts (pixmaps s1) = refcnts (pixmaps s) /\
  pending_flips s1 = pending_flips s /\
  (exists cmd, cmds s1 = <[c := cmd]> (cmds s) /\ cmds s !! c = None) /\
  exists m,
    xlog s1 = (m, ok) :: l /\ ok = xsys E l m /\
    (m = SetFlipMode \/ m = SetBlitMode).
Proof.
  intros H. unfold swap_prepare in H.
  bind_inv H. apply swap_new_cmd_frame in Hstep as (cmd & -> & Hfresh).
  bind_inv H. unfold load_buf in Hstep. apply readonly_deref in Hstep. subst.
  bind_inv H. unfold load_buf in Hstep. apply readonly_deref in Hstep. subst.
  bind_inv H. apply readonly_deref in Hstep. subst.
  bind_inv H. apply readonly_canflip in Hstep. subst.
  bind_inv H.
  apply swap_rebind_frame in Hstep as (Hrc & Hpf & Hcm & m & Hlog & Hok & Hm).
  unfold ret in H. injection H as <- <- <- <-.
  cbn [pixmaps pending_flips cmds xlog set_xlog set_cmds] in *.
  split; [exact Hrc|]. split; [exact Hpf|].
  split; [exists cmd; split; [exact Hcm|exact Hfresh]|].
  exists m. split; [exact Hlog|]. split; [exact Hok|exact Hm].
Qed.

(** C5: when the switch of the programming mode fails,
    [OMAPDRI2ScheduleSwap] returns FALSE in the very state the failed switch
    left.  Compared with the state before the call, no pixmap has gained or
    lost a reference and [pending_flips] is the same; the calls made are the
    allocation of the command and the switch, which answered 0, so no page
    flip and no copy was issued and nothing was notified. *)
Theorem schedule_swap_mode_switch_failure
    (cl : Z) (pDraw pDstBuffer pSrcBuffer : positive) (fn dt : Z)
    (s s1 : server) (c : positive) (ncf : Z) :
  swap_prepare K E drmmode_scanout_from_drawable cl pDraw pDstBuffer
    pSrcBuffer fn dt s = Ret (c, ncf, 0) s1 ->
  let l := (CallocCmd, xsys E (xlog s) CallocCmd) :: xlog s in
  OMAPDRI2ScheduleSwap K E drmmode_scanout_from_drawable drmmode_scanout_set
    MAX_SCANOUTS OMAP_USE_PAGE_FLIP_EVENTS cl pDraw pDstBuffer pSrcBuffer
    fn dt s = Ret FALSE s1 /\
  refcnts (pixmaps s1) = refcnts (pixmaps s) /\
  pending_flips s1 = pending_flips s /\
  exists m,
    (m = SetFlipMode \/ m = SetBlitMode) /\
    xsys E l m = 0 /\
    xlog s1 = (m, 0) :: l.
Proof.
  intros H l. split.
  - unfold OMAPDRI2ScheduleSwap, bind. rewrite H. reflexivity.
  - apply swap_prepare_frame in H as (Hrc & Hpf & _ & m & Hlog & Hok & Hm).
    split; [exact Hrc|]. split; [exact Hpf|].
    exists m. split; [exact Hm|]. split; [symmetry; exact Hok|exact Hlog].
Qed.

End WithEnv.
(** C1 at a concrete input: the flip awaited on two outputs. *)
Lemma swap_complete_countdown_witness :
  exists s',
    complete_n Dri2Ex.E_ok Dri2Ex.scanout_set 3 40%positive 2
      (Dri2Ex.with_cmd Dri2Ex.cmd_flip2) = Ret tt s' /\
    cmds s' !! 40%positive = None /\
    pending_flips s' = -1.
Proof.
  destruct (swap_complete_countdown Dri2Ex.E_ok Dri2Ex.scanout_set 3 40%positive
              Dri2Ex.cmd_flip2 (Dri2Ex.with_cmd Dri2Ex.cmd_flip2) 2
              11%positive 10%positive
              (mk_pixmap 1 (Some 2%positive)) (mk_pixmap 1 (Some 1%positive)))
    as (_ & s' & mid & r1 & r2 & r3 & Hrun & Hcm & Hpf & _).
  - vm_compute. reflexivity.
  - reflexivity.
  - lia.
  - unfold INT_MAX. lia.
  - right. reflexivity.
  - reflexivity.
  - reflexivity.
  - vm_compute. reflexivity.
  - vm_compute. reflexivity.
  - exists s'. split; [exact Hrun|]. split.
    + rewrite Hcm. apply lookup_delete_eq.
    + rewrite Hpf. reflexivity.
Defined.

(** C2 at a concrete input: the window and its back BO, of the same size. *)
Lemma canflip_iff_witness :
  canflip Dri2Ex.from_drawable 20%positive (Some 2%positive) Dri2Ex.s_init
  = Ret TRUE Dri2Ex.s_init.
Proof.
  destruct (canflip_iff Dri2Ex.from_drawable 20%positive (Some 2%positive)
              Dri2Ex.s_init
              (mk_drawable DRAWABLE_WINDOW 100 0 0 64 64 24 0))
    as (r & Hrun & _ & Hiff).
  - vm_compute. reflexivity.
  - intros b [= <-]. eexists. vm_compute. reflexivity.
  - rewrite Hrun. f_equal. apply Hiff. split; [reflexivity|]. split.
    + intros b [= <-]. eexists. split; [vm_compute; reflexivity|].
      split; reflexivity.
    + eexists. vm_compute. reflexivity.
Defined.

(** C3, amended, at a concrete input: a flip awaited on one output
    completes.  The window's pixmap takes over BO 2; of the three slots the
    second one holds BO 2, so that one is marked valid, and its position
    becomes the command's. *)
Lemma flip_completion_finalize_witness :
  exists s',
    OMAPDRI2SwapComplete Dri2Ex.E_ok Dri2Ex.scanout_set 3 40%positive
      (MoreEx.with_cmd_two_slots Dri2Ex.cmd_flip1) = Ret tt s' /\
    priv_bo <$> pixmaps s' !! 10%positive = Some (Some 2%positive) /\
    priv_bo <$> pixmaps s' !! 11%positive = Some (Some 1%positive) /\
    scanouts s' = [mk_scanout (Some 1%positive) 0 0 TRUE;
                   mk_scanout (Some 2%positive) 0 0 TRUE;
                   mk_scanout None 128 0 FALSE].
Proof.
  destruct (flip_completion_finalize Dri2Ex.E_ok Dri2Ex.scanout_set 3 40%positive
              Dri2Ex.cmd_flip1 (MoreEx.with_cmd_two_slots Dri2Ex.cmd_flip1)
              20%positive 11%positive 10%positive
              (mk_pixmap 1 (Some 2%positive)) (mk_pixmap 1 (Some 1%positive)))
    as (s' & sc1 & Hrun & Hsrc & Hdst & Hsc & Hfirst & _).
  - vm_compute. reflexivity.
  - vm_compute. discriminate.
  - reflexivity.
  - reflexivity.
  - vm_compute. reflexivity.
  - reflexivity.
  - reflexivity.
  - vm_compute. reflexivity.
  - vm_compute. reflexivity.
  - exists s'. split; [exact Hrun|]. split; [exact Hdst|]. split; [exact Hsrc|].
    rewrite Hsc.
    rewrite (Hfirst 1%nat (mk_scanout (Some 2%positive) 64 0 FALSE)).
    + vm_compute. reflexivity.
    + lia.
    + reflexivity.
    + reflexivity.
    + intros j sl' Hj Hl. destruct j as [|j]; [|lia].
      injection Hl as <-. discriminate.
Defined.

(** C3 as stated fails: a fake flip that has not failed, on a drawable that
    resolves, is finalized (the command is freed) and the two pixmaps keep
    their BOs: no exchange takes place. *)
Lemma fake_flip_keeps_storage :
  type Dri2Ex.cmd_fake = DRI2_FLIP_COMPLETE /\
  Z.land (flags Dri2Ex.cmd_fake) OMAP_SWAP_FAIL = 0 /\
  resources (Dri2Ex.with_cmd Dri2Ex.cmd_fake) !! draw_id Dri2Ex.cmd_fake
    = Some 20%positive /\
  priv_bo <$> pixmaps (Dri2Ex.with_cmd Dri2Ex.cmd_fake) !! 11%positive
    = Some (Some 2%positive) /\
  priv_bo <$> pixmaps (Dri2Ex.with_cmd Dri2Ex.cmd_fake) !! 10%positive
    = Some (Some 1%positive) /\
  exists s',
    OMAPDRI2SwapComplete Dri2Ex.E_ok Dri2Ex.scanout_set 3 40%positive
      (Dri2Ex.with_cmd Dri2Ex.cmd_fake) = Ret tt s' /\
    cmds s' !! 40%positive = None /\
    priv_bo <$> pixmaps s' !! 11%positive = Some (Some 2%positive) /\
    priv_bo <$> pixmaps s' !! 10%positive = Some (Some 1%positive).
Proof.
  split; [reflexivity|]. split; [reflexivity|].
  split; [vm_compute; reflexivity|].
  split; [vm_compute; reflexivity|].
  split; [vm_compute; reflexivity|].
  eexists. split; [vm_compute; reflexivity|].
  split; [vm_compute; reflexivity|].
  split; vm_compute; reflexivity.
Qed.

(** C5 at a concrete input: a swap of the window's back buffer when the
    mode cannot be switched. *)
Lemma schedule_swap_mode_switch_failure_witness :
  exists s1,
    OMAPDRI2ScheduleSwap DumbEx.K_ok Dri2Ex.E_noswitch Dri2Ex.from_drawable
      Dri2Ex.scanout_set 3 true 9 20%positive 30%positive 31%positive 0 0
      Dri2Ex.s_init = Ret FALSE s1 /\
    refcnts (pixmaps s1) = refcnts (pixmaps Dri2Ex.s_init) /\
    pending_flips s1 = 0 /\
    xlog s1 = [(SetFlipMode, 0); (CallocCmd, 1)].
Proof.
  pose (s1 := Dri2Ex.server_of
                (swap_prepare DumbEx.K_ok Dri2Ex.E_noswitch Dri2Ex.from_drawable
                   9 20%positive 30%positive 31%positive 0 0 Dri2Ex.s_init)).
  destruct (schedule_swap_mode_switch_failure DumbEx.K_ok Dri2Ex.E_noswitch
              Dri2Ex.from_drawable Dri2Ex.scanout_set 3 true
              9 20%positive 30%positive 31%positive 0 0
              Dri2Ex.s_init s1 1%positive 1)
    as (Hrun & Hrc & Hpf & _).
  - vm_compute. reflexivity.
  - exists s1. split; [exact Hrun|]. split; [exact Hrc|].
    split; [rewrite Hpf; reflexivity|]. vm_compute. reflexivity.
Defined.

(** A swap of the window's back buffer, flipped on two outputs: the command
    waits for two completion signals, and the second one finalizes it. *)
Example schedule_flip_two_outputs :
  exists s1 s2 s3,
    OMAPDRI2ScheduleSwap DumbEx.K_ok Dri2Ex.E_ok Dri2Ex.from_drawable
      Dri2Ex.scanout_set 3 true 9 20%positive 30%positive 31%positive 0 0
      Dri2Ex.s_init = Ret TRUE s1 /\
    swapCount <$> cmds s1 !! 1%positive = Some 2 /\ pending_flips s1 = 1 /\
    OMAPDRI2SwapComplete Dri2Ex.E_ok Dri2Ex.scanout_set 3 1%positive s1
      = Ret tt s2 /\
    swapCount <$> cmds s2 !! 1%positive = Some 1 /\ pending_flips s2 = 1 /\
    xlog s2 = xlog s1 /\
    OMAPDRI2SwapComplete Dri2Ex.E_ok Dri2Ex.scanout_set 3 1%positive s2
      = Ret tt s3 /\
    cmds s3 !! 1%positive = None /\ pending_flips s3 = 0 /\
    refcnts (pixmaps s3) = refcnts (pixmaps Dri2Ex.s_init).
Proof.
  eexists _, _, _.
  split; [vm_compute; reflexivity|].
  split; [vm_compute; reflexivity|]. split; [vm_compute; reflexivity|].
  split; [vm_compute; reflexivity|].
  split; [vm_compute; reflexivity|]. split; [vm_compute; reflexivity|].
  split; [vm_compute; reflexivity|].
  split; [vm_compute; reflexivity|].
  split; [vm_compute; reflexivity|]. split; vm_compute; reflexivity.
Qed.

(** A swap on an off-screen pixmap (drawable 12): the copy is made and the
    completion notified before [OMAPDRI2ScheduleSwap] returns, and every
    scanout slot is invalid afterwards. *)
Example schedule_blit_pixmap :
  exists s1,
    OMAPDRI2ScheduleSwap DumbEx.K_ok Dri2Ex.E_ok Dri2Ex.from_drawable
      Dri2Ex.scanout_set 3 true 9 12%positive 32%positive 31%positive 0 0
      Dri2Ex.s_init = Ret TRUE s1 /\
    Forall (fun sl => valid sl = FALSE) (scanouts s1) /\
    cmds s1 = ∅ /\ pending_flips s1 = 0 /\
    List.filter is_notify (xlog s1)
    = [(SwapNotify 9 12%positive DRI2_BLIT_COMPLETE 0 0, 0)].
Proof.
  eexists. split; [vm_compute; reflexivity|].
  split; [vm_compute; repeat constructor|].
  split; [vm_compute; reflexivity|]. split; vm_compute; reflexivity.
Qed.

End Dri2Facts.

(** ** omap_dumb.c: further properties *)

Module DumbMoreFacts.
Import Dumb DumbMore.

Lemma set_refcnt_id (b : omap_bo) : set_refcnt b (refcnt b) = b.
Proof. destruct b; reflexivity. Qed.

Lemma set_refcnt_twice (b : omap_bo) (n m : Z) :
  set_refcnt (set_refcnt b n) m = set_refcnt b m.
Proof. reflexivity. Qed.

(** X1: the stride is a multiple of 64 bytes; when [width * bpp + 7] fits 32
    bits it is the least such multiple that holds a row of [width] pixels,
    and for a whole number of bytes per pixel a row of [width] pixels of
    [(bpp + 7) / 8] bytes fits in it. *)
Theorem pitch_of_least_multiple (width bpp : Z) :
  pitch_of width bpp mod 64 = 0 /\
  (0 <= width * bpp -> width * bpp + 7 < 2 ^ 32 ->
   let bytes := (width * bpp + 7) / 8 in
   bytes <= pitch_of width bpp < bytes + 64 /\
   width * bpp <= 8 * pitch_of width bpp /\
   (bpp mod 8 = 0 -> width * ((bpp + 7) / 8) <= pitch_of width bpp)).
Proof.
  unfold pitch_of, uint32.
  set (a := (width * bpp) mod 2 ^ 32).
  set (t1 := (a + 7) mod 2 ^ 32).
  set (t2 := (t1 / 8) mod 2 ^ 32).
  set (t3 := (t2 + 63) mod 2 ^ 32).
  assert (Ha : 0 <= a < 2 ^ 32) by (apply Z.mod_pos_bound; lia).
  assert (H1 : 0 <= t1 < 2 ^ 32) by (apply Z.mod_pos_bound; lia).
  assert (H2 : 0 <= t1 / 8 < 2 ^ 29).
  { split; [apply Z.div_pos; lia|]. apply Z.div_lt_upper_bound; lia. }
  assert (E2 : t2 = t1 / 8) by (apply Z.mod_small; lia).
  assert (E3 : t3 = t1 / 8 + 63) by (subst t3; rewrite E2; apply Z.mod_small; lia).
  pose proof (Z.div_mod t3 64 ltac:(lia)) as Hd.
  pose proof (Z.mod_pos_bound t3 64 ltac:(lia)) as Hm.
  assert (Hb : 0 <= t3 / 64 * 64 < 2 ^ 32) by lia.
  rewrite (Z.mod_small (t3 / 64 * 64)) by exact Hb.
  split.
  - apply Z.mod_mul. lia.
  - intros H0 H7. cbv zeta. set (bytes := (width * bpp + 7) / 8).
    assert (Ea : a = width * bpp) by (subst a; apply Z.mod_small; lia).
    assert (E1 : t1 = width * bpp + 7)
      by (subst t1; rewrite Ea; apply Z.mod_small; lia).
    assert (Eb : t3 = bytes + 63) by (rewrite E3, E1; reflexivity).
    rewrite Eb in *.
    pose proof (Z.div_mod (width * bpp + 7) 8 ltac:(lia)) as Hd8.
    pose proof (Z.mod_pos_bound (width * bpp + 7) 8 ltac:(lia)) as Hm8.
    fold bytes in Hd8.
    split; [lia|]. split; [lia|].
    intros H8.
    assert (Hk : bpp = 8 * (bpp / 8)).
    { pose proof (Z.div_mod bpp 8 ltac:(lia)). lia. }
    assert (Hbpp : (bpp + 7) / 8 = bpp / 8).
    { rewrite Hk at 1. rewrite Z.add_comm, Z.mul_comm, Z.div_add by lia.
      reflexivity. }
    rewrite Hbpp.
    assert (Hbytes : bytes = width * (bpp / 8)).
    { subst bytes. rewrite Hk at 1.
      replace (width * (8 * (bpp / 8)) + 7) with (7 + width * (bpp / 8) * 8) by lia.
      rewrite Z.div_add by lia. reflexivity. }
    lia.
Qed.

Section WithKernel.
Variable K : kernel.

(** ** Allocation *)

(** X2: [omap_bo_new] always returns; when it returns NULL both heaps are as
    before the call, and when it returns a BO that BO is new and the others
    are untouched.  If [calloc] fails nothing else is called; if
    [exynos_bo_create] fails no framebuffer registration is attempted. *)
Theorem omap_bo_new_no_leak (dv width height depth bpp fmt : Z) (w : world) :
  let sz := uint32 (height * pitch_of width bpp) in
  let c := sys K (log w) Calloc in
  let l1 := (Calloc, c) :: log w in
  let h := sys K l1 (ExynosBoCreate sz EXYNOS_BO_NONCONTIG) in
  exists r w',
    omap_bo_new K dv width height depth bpp fmt w = Ret r w' /\
    (r = None -> bos w' = bos w /\ gem w' = gem w) /\
    (forall p, r = Some p ->
       bos w !! p = None /\ is_Some (bos w' !! p) /\
       forall q, q <> p -> bos w' !! q = bos w !! q) /\
    (c = 0 -> r = None /\ log w' = l1) /\
    (c <> 0 -> h = 0 ->
     r = None /\ log w' = (ExynosBoCreate sz EXYNOS_BO_NONCONTIG, h) :: l1).
Proof.
  intros sz c l1 h.
  pose proof (DumbFacts.omap_bo_new_run K dv width height depth bpp fmt w) as Hrun.
  cbv zeta in Hrun. fold sz c l1 h in Hrun. rewrite Hrun. clear Hrun.
  destruct (c =? 0) eqn:Ec.
  { apply Z.eqb_eq in Ec. eexists _, _. split; [reflexivity|].
    cbn [bos gem log]. repeat split; try discriminate; try contradiction; auto. }
  apply Z.eqb_neq in Ec.
  destruct (h =? 0) eqn:Eh.
  { apply Z.eqb_eq in Eh. eexists _, _. split; [reflexivity|].
    cbn [bos gem log]. repeat split; try discriminate; try contradiction; auto. }
  apply Z.eqb_neq in Eh.
  match goal with |- context [if ?x <? 0 then _ else _] => destruct (x <? 0) end.
  { eexists _, _. split; [reflexivity|].
    cbn [bos gem log]. repeat split; try discriminate; try contradiction; auto. }
  eexists _, _. split; [reflexivity|]. cbn [bos gem log].
  split; [discriminate|]. split.
  - intros p [= <-]. split; [apply DumbFacts.fresh_lookup|].
    split; [rewrite lookup_insert_eq; eauto|].
    intros q Hq. apply lookup_insert_ne. auto.
  - split; [contradiction|]. intros _ E0. contradiction.
Qed.

(** ** Reference counting *)

Lemma reference_run (p : positive) (b : omap_bo) (w : world) :
  bos w !! p = Some b -> 0 < refcnt b -> refcnt b < INT_MAX ->
  omap_bo_reference (Some p) w =
  Ret tt (mk_world (<[p := set_refcnt b (refcnt b + 1)]> (bos w)) (gem w) (log w)).
Proof.
  intros Hb H0 Hmax. cbv [omap_bo_reference bind store].
  rewrite (DumbFacts.load_some _ _ _ Hb).
  apply Z.ltb_lt in H0 as H0'. rewrite H0'.
  rewrite int32_id by (unfold INT_MIN, INT_MAX in *; lia). reflexivity.
Qed.

Lemma unreference_run_keep (p : positive) (b : omap_bo) (w : world) :
  bos w !! p = Some b -> 1 < refcnt b -> refcnt b <= INT_MAX ->
  omap_bo_unreference K (Some p) w =
  Ret tt (mk_world (<[p := set_refcnt b (refcnt b - 1)]> (bos w)) (gem w) (log w)).
Proof.
  intros Hb H1 Hmax. cbv [omap_bo_unreference bind store ret].
  rewrite (DumbFacts.load_some _ _ _ Hb).
  assert (H0 : (0 <? refcnt b) = true) by (apply Z.ltb_lt; lia). rewrite H0.
  rewrite int32_id by (unfold INT_MIN, INT_MAX in *; lia).
  assert (Hn : (refcnt b - 1 =? 0) = false) by (apply Z.eqb_neq; lia).
  rewrite Hn. reflexivity.
Qed.

Lemma reference_iter (p : positive) (n : nat) :
  forall (b : omap_bo) (w : world),
  bos w !! p = Some b -> 0 < refcnt b -> refcnt b + Z.of_nat n <= INT_MAX ->
  iterM n (omap_bo_reference (Some p)) w =
  Ret tt (mk_world (<[p := set_refcnt b (refcnt b + Z.of_nat n)]> (bos w))
            (gem w) (log w)).
Proof.
  induction n as [|n IH]; intros b w Hb H0 Hmax.
  - cbn [iterM Z.of_nat]. rewrite Z.add_0_r, set_refcnt_id, insert_id by exact Hb.
    rewrite DumbFacts.world_eta. reflexivity.
  - rewrite Nat2Z.inj_succ in *. cbn [iterM]. unfold bind at 1.
    rewrite (reference_run p b w Hb) by lia.
    rewrite (IH (set_refcnt b (refcnt b + 1)));
      [| apply lookup_insert_eq | cbn [refcnt set_refcnt]; lia
       | cbn [refcnt set_refcnt]; lia].
    cbn [bos gem log refcnt set_refcnt]. rewrite insert_insert_eq.
    rewrite set_refcnt_twice.
    replace (refcnt b + 1 + Z.of_nat n) with (refcnt b + Z.succ (Z.of_nat n))
      by lia.
    reflexivity.
Qed.

Lemma unreference_iter (p : positive) (n : nat) :
  forall (b : omap_bo) (w : world),
  bos w !! p = Some b -> Z.of_nat n < refcnt b -> refcnt b <= INT_MAX ->
  iterM n (omap_bo_unreference K (Some p)) w =
  Ret tt (mk_world (<[p := set_refcnt b (refcnt b - Z.of_nat n)]> (bos w))
            (gem w) (log w)).
Proof.
  induction n as [|n IH]; intros b w Hb Hn Hmax.
  - cbn [iterM Z.of_nat]. rewrite Z.sub_0_r, set_refcnt_id, insert_id by exact Hb.
    rewrite DumbFacts.world_eta. reflexivity.
  - rewrite Nat2Z.inj_succ in *. cbn [iterM]. unfold bind at 1.
    rewrite (unreference_run_keep p b w Hb) by lia.
    rewrite (IH (set_refcnt b (refcnt b - 1)));
      [| apply lookup_insert_eq | cbn [refcnt set_refcnt]; lia
       | cbn [refcnt set_refcnt]; lia].
    cbn [bos gem log refcnt set_refcnt]. rewrite insert_insert_eq.
    rewrite set_refcnt_twice.
    replace (refcnt b - 1 - Z.of_nat n) with (refcnt b - Z.succ (Z.of_nat n))
      by lia.
    reflexivity.
Qed.

(** X5: [N] references followed by [M] unreferences that leave the count
    positive: the count is the initial one plus [N - M], the BO is still
    there and the kernel was not called.  With [M = N] the world is back to
    where it started. *)
Theorem refcount_arithmetic (p : positive) (b : omap_bo) (w : world) (N M : nat) :
  bos w !! p = Some b -> 1 <= refcnt b ->
  refcnt b + Z.of_nat N <= INT_MAX ->
  Z.of_nat M < refcnt b + Z.of_nat N ->
  (iterM N (omap_bo_reference (Some p)) ;;;
   iterM M (omap_bo_unreference K (Some p))) w =
  Ret tt (mk_world
            (<[p := set_refcnt b (refcnt b + Z.of_nat N - Z.of_nat M)]> (bos w))
            (gem w) (log w)) /\
  (M = N ->
   (iterM N (omap_bo_reference (Some p)) ;;;
    iterM M (omap_bo_unreference K (Some p))) w = Ret tt w).
Proof.
  intros Hb H1 Hmax HM.
  assert (Hrun : (iterM N (omap_bo_reference (Some p)) ;;;
                  iterM M (omap_bo_unreference K (Some p))) w =
    Ret tt (mk_world
              (<[p := set_refcnt b (refcnt b + Z.of_nat N - Z.of_nat M)]> (bos w))
              (gem w) (log w))).
  { unfold bind. rewrite (reference_iter p N b w Hb) by lia.
    rewrite (unreference_iter p M (set_refcnt b (refcnt b + Z.of_nat N)));
      [| apply lookup_insert_eq | cbn [refcnt set_refcnt]; lia
       | cbn [refcnt set_refcnt]; lia].
    cbn [bos gem log refcnt set_refcnt]. rewrite insert_insert_eq.
    rewrite set_refcnt_twice. reflexivity. }
  split; [exact Hrun|].
  intros ->. rewrite Hrun.
  replace (refcnt b + Z.of_nat N - Z.of_nat N) with (refcnt b) by lia.
  rewrite set_refcnt_id, insert_id by exact Hb.
  rewrite DumbFacts.world_eta. reflexivity.
Qed.

Lemma unreference_last_run (p e : positive) (b : omap_bo) (x : exynos_bo)
    (w : world) :
  bos w !! p = Some b -> refcnt b = 1 ->
  exynos_bo_p b = Some e -> gem w !! e = Some x ->
  let r := sys K (log w) (RmFB (fb_id b)) in
  let l1 := (RmFB (fb_id b), r) :: log w in
  omap_bo_unreference K (Some p) w =
  if r =? 0 then
    Ret tt (mk_world (delete p (bos w)) (delete e (gem w))
              ((ExynosBoDestroy (handle x), sys K l1 (ExynosBoDestroy (handle x)))
               :: l1))
  else Abort.
Proof.
  intros Hb Hr He Hx r l1.
  cbv [omap_bo_unreference omap_bo_del bind store ret load syscall
       exynos_bo_destroy exynos_load free abort].
  rewrite Hb, Hr. change (0 <? 1) with true. change (int32 (1 - 1)) with 0.
  change (0 =? 0) with true.
  cbn [bos gem log]. rewrite lookup_insert_eq.
  cbn [fb_id set_refcnt exynos_bo_p bos gem log]. fold r.
  destruct (r =? 0); [|reflexivity].
  rewrite He. cbn [bos gem log]. rewrite Hx. cbn [bos gem log].
  fold l1. rewrite delete_insert_eq. reflexivity.
Qed.

(** X6: dropping the last reference: the framebuffer is removed, then the
    exynos BO is destroyed, then the BO is freed, each once; if removing the
    framebuffer fails the run is aborted by the assertion. *)
Theorem last_unreference_destroys (p e : positive) (b : omap_bo) (x : exynos_bo)
    (w : world) :
  bos w !! p = Some b -> refcnt b = 1 ->
  exynos_bo_p b = Some e -> gem w !! e = Some x ->
  let r := sys K (log w) (RmFB (fb_id b)) in
  let l1 := (RmFB (fb_id b), r) :: log w in
  (r = 0 ->
   omap_bo_unreference K (Some p) w =
   Ret tt (mk_world (delete p (bos w)) (delete e (gem w))
             ((ExynosBoDestroy (handle x), sys K l1 (ExynosBoDestroy (handle x)))
              :: l1))) /\
  (r <> 0 -> omap_bo_unreference K (Some p) w = Abort).
Proof.
  intros Hb Hr He Hx r l1.
  rewrite (unreference_last_run p e b x w Hb Hr He Hx). fold r l1.
  split; intros H.
  - apply Z.eqb_eq in H. rewrite H. reflexivity.
  - apply Z.eqb_neq in H. rewrite H. reflexivity.
Qed.

(** ** From creation to release *)

Lemma omap_bo_new_some_inv (dv width height depth bpp fmt : Z) (w w1 : world)
    (p : positive) :
  omap_bo_new K dv width height depth bpp fmt w = Ret (Some p) w1 ->
  let pitch := pitch_of width bpp in
  let sz := uint32 (height * pitch) in
  let l1 := (Calloc, sys K (log w) Calloc) :: log w in
  let h := sys K l1 (ExynosBoCreate sz EXYNOS_BO_NONCONTIG) in
  let l2 := (ExynosBoCreate sz EXYNOS_BO_NONCONTIG, h) :: l1 in
  let fb := if depth =? 0 then AddFB2 width height fmt h pitch
            else AddFB width height depth bpp pitch h in
  let r := sys K l2 fb in
  p = fresh (dom (bos w)) /\
  w1 = mk_world
         (<[p := mk_omap_bo dv (Some (fresh (dom (gem w))))
                   (if r =? 0 then new_fb K l2 else 0)
                   width height pitch depth bpp fmt 1 0 0 TRUE]> (bos w))
         (<[fresh (dom (gem w)) := mk_exynos_bo h sz 0 0]> (gem w))
         ((fb, r) :: l2) /\
  h <> 0 /\ 0 <= r.
Proof.
  intros H. cbv zeta. rewrite DumbFacts.omap_bo_new_run in H. cbv zeta in H.
  destruct (_ =? 0); [discriminate|].
  destruct (_ =? 0) eqn:Eh in H; [discriminate|].
  destruct (_ <? 0) eqn:Er in H; [discriminate|].
  injection H as <- <-. apply Z.eqb_neq in Eh. apply Z.ltb_ge in Er.
  auto.
Qed.

(** X3: what the accessors answer on a BO fresh from [omap_bo_new]: the
    geometry it was created with, the stride computed for it, the GEM
    handle the kernel gave, [(bpp + 7) / 8] bytes per pixel, and a set
    dirty flag.  None of them changes the state. *)
Theorem accessors_after_new (dv width height depth bpp fmt : Z) (w w1 : world)
    (p : positive) :
  omap_bo_new K dv width height depth bpp fmt w = Ret (Some p) w1 ->
  let sz := uint32 (height * pitch_of width bpp) in
  let l1 := (Calloc, sys K (log w) Calloc) :: log w in
  omap_bo_width p w1 = Ret width w1 /\
  omap_bo_height p w1 = Ret height w1 /\
  omap_bo_depth p w1 = Ret depth w1 /\
  omap_bo_bpp p w1 = Ret bpp w1 /\
  omap_bo_Bpp p w1 = Ret (uint32 ((bpp + 7) / 8)) w1 /\
  omap_bo_pitch p w1 = Ret (pitch_of width bpp) w1 /\
  omap_bo_handle p w1 =
    Ret (sys K l1 (ExynosBoCreate sz EXYNOS_BO_NONCONTIG)) w1 /\
  omap_bo_get_dirty p w1 = Ret TRUE w1.
Proof.
  intros H. apply omap_bo_new_some_inv in H as (-> & -> & _ & _). cbv zeta.
  cbv [omap_bo_width omap_bo_height omap_bo_depth omap_bo_bpp omap_bo_Bpp
       omap_bo_pitch omap_bo_handle omap_bo_get_dirty bind load ret
       exynos_load].
  cbn [bos gem]. rewrite !lookup_insert_eq. cbv beta iota.
  cbn [exynos_bo_p Dumb.width Dumb.height Dumb.depth Dumb.bpp Dumb.pitch
       dirty bos gem].
  rewrite ?lookup_insert_eq. repeat split; reflexivity.
Qed.

(** X4: creating a BO and dropping its only reference leaves both heaps as they
    were before, provided the kernel removes the framebuffer; the log then
    shows the removal of the framebuffer that was registered and the
    destruction of the GEM handle that was created.  If the removal fails
    the release aborts. *)
Theorem create_then_release (dv width height depth bpp fmt : Z) (w w1 : world)
    (p : positive) :
  omap_bo_new K dv width height depth bpp fmt w = Ret (Some p) w1 ->
  exists fbid h,
    omap_bo_fb p w1 = Ret fbid w1 /\ omap_bo_handle p w1 = Ret h w1 /\
    let r := sys K (log w1) (RmFB fbid) in
    let l1 := (RmFB fbid, r) :: log w1 in
    (r = 0 ->
     omap_bo_unreference K (Some p) w1 =
     Ret tt (mk_world (bos w) (gem w)
               ((ExynosBoDestroy h, sys K l1 (ExynosBoDestroy h)) :: l1))) /\
    (r <> 0 -> omap_bo_unreference K (Some p) w1 = Abort).
Proof.
  intros H. apply omap_bo_new_some_inv in H as (-> & -> & _ & _).
  eexists _, _. split; [|split].
  - cbv [omap_bo_fb bind load ret]. cbn [bos]. rewrite lookup_insert_eq.
    cbn [fb_id]. reflexivity.
  - cbv [omap_bo_handle bind load ret exynos_load]. cbn [bos gem].
    rewrite lookup_insert_eq. cbv beta iota. cbn [exynos_bo_p bos gem].
    rewrite lookup_insert_eq. cbn [handle]. reflexivity.
  - cbv zeta.
    erewrite unreference_last_run;
      [|cbn [bos]; apply lookup_insert_eq|reflexivity|reflexivity
       |cbn [gem]; apply lookup_insert_eq].
    cbn [bos gem log fb_id handle].
    rewrite !delete_insert_eq, !delete_id by apply DumbFacts.fresh_lookup.
    split; intros Hr.
    + apply Z.eqb_eq in Hr. rewrite Hr. reflexivity.
    + apply Z.eqb_neq in Hr. rewrite Hr. reflexivity.
Qed.

(** ** CPU access fencing *)

Section Fence.
Variable W : Z.

(** What one acquire can change. *)
Lemma cpu_prep_inv (p : positive) (op : Z) (w w' : world) (b : omap_bo) (r : Z) :
  bos w !! p = Some b ->
  omap_bo_cpu_prep K W p op w = Ret r w' ->
  exists b',
    bos w' = <[p := b']> (bos w) /\ gem w' = gem w /\
    refcnt b' = refcnt b /\ exynos_bo_p b' = exynos_bo_p b /\
    (b' = b \/ acquire_cnt b' = int32 (acquire_cnt b + 1)) /\
    (dirty b' = dirty b \/ (Z.land op W <> 0 /\ dirty b' = TRUE)).
Proof.
  intros Hb Hrun.
  destruct (decide (acquire_cnt b = 0)) as [Hc|Hc].
  - rewrite (DumbFacts.cpu_prep_first K W p op w b Hb Hc) in Hrun.
    destruct (exynos_bo_p b) as [e|] eqn:He in Hrun; [|discriminate].
    destruct (gem w !! e) as [x|]; [|discriminate].
    cbv zeta in Hrun.
    destruct (_ =? 0) in Hrun; injection Hrun as _ <-; cbn [bos gem].
    + eexists. split; [reflexivity|]. split; [reflexivity|].
      cbn [refcnt exynos_bo_p acquire_cnt dirty set_acquire].
      split; [reflexivity|]. split; [reflexivity|].
      split; [right; rewrite Hc; reflexivity|].
      destruct (Z.land op W =? 0) eqn:Eo; cbn [negb]; [left; reflexivity|].
      right. apply Z.eqb_neq in Eo. auto.
    + exists b. rewrite insert_id by exact Hb. repeat split; auto.
  - rewrite (DumbFacts.cpu_prep_nested K W p op w b Hb Hc) in Hrun.
    destruct (negb _ && _); injection Hrun as _ <-; cbn [bos gem].
    + exists b. rewrite insert_id by exact Hb. repeat split; auto.
    + eexists. split; [reflexivity|]. split; [reflexivity|].
      cbn [refcnt exynos_bo_p acquire_cnt dirty set_acquire].
      repeat split; auto.
Qed.

(** What one release changes. *)
Lemma cpu_fini_inv (p : positive) (op : Z) (w w' : world) (b : omap_bo) (r : Z) :
  bos w !! p = Some b ->
  omap_bo_cpu_fini K p op w = Ret r w' ->
  0 < acquire_cnt b /\
  bos w' = <[p := set_acquire b (acquired_exclusive b)
                    (int32 (acquire_cnt b - 1)) (dirty b)]> (bos w) /\
  gem w' = gem w.
Proof.
  intros Hb Hrun.
  cbv [omap_bo_cpu_fini bind load store ret exynos_load syscall abort] in Hrun.
  rewrite Hb in Hrun.
  destruct (0 <? acquire_cnt b) eqn:E0; [|discriminate].
  apply Z.ltb_lt in E0. split; [exact E0|].
  destruct (negb _) in Hrun.
  - injection Hrun as _ <-. split; reflexivity.
  - cbn [bos gem log] in Hrun.
    destruct (exynos_bo_p b) as [e|]; [|discriminate].
    destruct (gem w !! e); [|discriminate].
    injection Hrun as _ <-. split; reflexivity.
Qed.

(** X7: when the hardware refuses the first acquire, its error code is returned
    and the BO is as before: depth 0, exclusivity and dirty flag untouched.
    Only the attempt shows in the call log. *)
Theorem cpu_prep_hw_failure (p e : positive) (op : Z) (w : world)
    (b : omap_bo) (x : exynos_bo) :
  bos w !! p = Some b -> acquire_cnt b = 0 ->
  exynos_bo_p b = Some e -> gem w !! e = Some x ->
  let flags := if negb (Z.land op W =? 0)
               then DRM_EXYNOS_GEM_CPU_ACQUIRE_EXCLUSIVE
               else DRM_EXYNOS_GEM_CPU_ACQUIRE_SHARED in
  let r := sys K (log w) (CpuAcquire (handle x) flags) in
  r <> 0 ->
  omap_bo_cpu_prep K W p op w =
  Ret r (mk_world (bos w) (gem w) ((CpuAcquire (handle x) flags, r) :: log w)).
Proof.
  intros Hb Hc He Hx flags r Hr.
  rewrite (DumbFacts.cpu_prep_first K W p op w b Hb Hc), He, Hx.
  cbv zeta. fold flags. fold r. apply Z.eqb_neq in Hr. rewrite Hr. reflexivity.
Qed.

(** X8: a release without a matching acquire is fatal.  The release that brings
    the depth from 1 to 0 returns what the hardware release returned, and
    the depth is 0 afterwards even when that release failed. *)
Theorem cpu_fini_edges (p : positive) (op : Z) (w : world) (b : omap_bo) :
  bos w !! p = Some b ->
  (acquire_cnt b <= 0 -> omap_bo_cpu_fini K p op w = Abort) /\
  (forall e x, acquire_cnt b = 1 ->
     exynos_bo_p b = Some e -> gem w !! e = Some x ->
     let r := sys K (log w) (CpuRelease (handle x)) in
     omap_bo_cpu_fini K p op w =
     Ret r (mk_world
              (<[p := set_acquire b (acquired_exclusive b) 0 (dirty b)]> (bos w))
              (gem w) ((CpuRelease (handle x), r) :: log w))).
Proof.
  intros Hb. split.
  - intros Hc. cbv [omap_bo_cpu_fini bind load abort]. rewrite Hb.
    destruct (0 <? acquire_cnt b) eqn:E0; [apply Z.ltb_lt in E0; lia|reflexivity].
  - intros e x Hc He Hx r.
    rewrite (DumbFacts.cpu_fini_run K p op w b Hb)
      by (rewrite Hc; unfold INT_MAX; lia).
    cbv zeta. rewrite Hc, He, Hx. reflexivity.
Qed.

(** X9: read-mode acquires and releases never touch the dirty flag: over any
    sequence of them the flag stays what it was, so once the flag is
    cleared it reads FALSE after the sequence. *)
Theorem read_fence_keeps_dirty (p : positive) (ops : list fence_op) :
  forallb (is_read W) ops = true ->
  (forall w b rets w',
     bos w !! p = Some b ->
     mapM (run_fence K W p) ops w = Ret rets w' ->
     exists b', bos w' !! p = Some b' /\ dirty b' = dirty b) /\
  (forall w d w',
     (omap_bo_clear_dirty p ;;;
      mapM (run_fence K W p) ops ;;;
      omap_bo_get_dirty p) w = Ret d w' ->
     d = FALSE).
Proof.
  intros Hall.
  assert (Hkeep : forall w b rets w',
     bos w !! p = Some b ->
     mapM (run_fence K W p) ops w = Ret rets w' ->
     exists b', bos w' !! p = Some b' /\ dirty b' = dirty b).
  { induction ops as [|o ops IH]; intros w b rets w' Hb Hrun.
    - injection Hrun as _ <-. eauto.
    - cbn [forallb] in Hall. apply andb_true_iff in Hall as [Ho Hall].
      cbn [mapM] in Hrun. cbv [bind ret] in Hrun.
      destruct (run_fence K W p o w) as [r w1|] eqn:E1; [|discriminate].
      destruct (mapM (run_fence K W p) ops w1) as [rs w2|] eqn:E2; [|discriminate].
      injection Hrun as _ <-.
      assert (H1 : exists b1, bos w1 !! p = Some b1 /\ dirty b1 = dirty b).
      { destruct o as [op|op]; cbn [run_fence is_read] in *.
        - destruct (cpu_prep_inv p op w w1 b r Hb E1)
            as (b1 & Hbos & _ & _ & _ & _ & Hd).
          exists b1. split; [rewrite Hbos; apply lookup_insert_eq|].
          destruct Hd as [Hd|[Hw _]]; [exact Hd|].
          apply Z.eqb_eq in Ho. contradiction.
        - destruct (cpu_fini_inv p op w w1 b r Hb E1) as (_ & Hbos & _).
          eexists. split; [rewrite Hbos; apply lookup_insert_eq|reflexivity]. }
      destruct H1 as (b1 & Hb1 & Hd1).
      destruct (IH Hall w1 b1 rs w2 Hb1 E2) as (b2 & Hb2 & Hd2).
      exists b2. split; [exact Hb2|congruence]. }
  split; [exact Hkeep|].
  intros w d w' Hrun. cbv [bind] in Hrun.
  destruct (omap_bo_clear_dirty p w) as [[] w1|] eqn:E1; [|discriminate].
  destruct (mapM (run_fence K W p) ops w1) as [rs w2|] eqn:E2; [|discriminate].
  cbv [omap_bo_clear_dirty bind load store] in E1.
  destruct (bos w !! p) as [b|] eqn:Hb; [|discriminate].
  injection E1 as <-.
  destruct (Hkeep _ _ rs w2 (lookup_insert_eq _ _ _) E2) as (b2 & Hb2 & Hd2).
  cbv [omap_bo_get_dirty bind load ret] in Hrun. rewrite Hb2 in Hrun.
  injection Hrun as <- _. exact Hd2.
Qed.

End Fence.

(** ** The shape of the BO heap *)

Lemma wf_heaps (w w' : world) :
  bos w' = bos w -> gem w' = gem w -> wf w -> wf w'.
Proof. unfold wf. intros -> ->. auto. Qed.

Lemma wf_update (w : world) (p : positive) (b b' : omap_bo) (l : list event) :
  wf w -> bos w !! p = Some b ->
  exynos_bo_p b' = exynos_bo_p b ->
  1 <= refcnt b' <= INT_MAX -> 0 <= acquire_cnt b' <= INT_MAX ->
  wf (mk_world (<[p := b']> (bos w)) (gem w) l).
Proof.
  intros [Hlive Hinj] Hb He Hr Hc. split; cbn [bos gem].
  - intros q bq Hq. destruct (decide (p = q)) as [->|Hne].
    + rewrite lookup_insert_eq in Hq. injection Hq as <-.
      split; [exact Hr|]. split; [exact Hc|].
      destruct (Hlive q b Hb) as (_ & _ & e & x & He' & Hx).
      exists e, x. split; [congruence|exact Hx].
    + rewrite lookup_insert_ne in Hq by exact Hne. exact (Hlive q bq Hq).
  - intros q1 q2 b1 b2 H1 H2 Heq.
    assert (Hget : forall q bq, <[p:=b']> (bos w) !! q = Some bq ->
              exists bq0, bos w !! q = Some bq0 /\ exynos_bo_p bq0 = exynos_bo_p bq).
    { intros q bq Hq. destruct (decide (p = q)) as [->|Hne].
      - rewrite lookup_insert_eq in Hq. injection Hq as <-. eauto.
      - rewrite lookup_insert_ne in Hq by exact Hne. eauto. }
    destruct (Hget _ _ H1) as (c1 & Hc1 & E1).
    destruct (Hget _ _ H2) as (c2 & Hc2 & E2).
    apply (Hinj q1 q2 c1 c2 Hc1 Hc2). congruence.
Qed.

Lemma int32_range (z : Z) : INT_MIN <= int32 z <= INT_MAX.
Proof.
  unfold int32, INT_MIN, INT_MAX.
  pose proof (Z.mod_pos_bound (z + 2 ^ 31) (2 ^ 32) ltac:(lia)). lia.
Qed.

(** X10: every call of the BO interface that returns keeps the heap well
    formed, as long as no counter is pushed past [INT_MAX]: a BO in the
    heap still has a positive reference count, a non-negative acquire depth
    and live backing memory of its own. *)
Theorem wf_preserved (W : Z) (o : bo_op) (w w' : world) :
  wf w -> in_range o w ->
  run_bo_op K W o w = Ret tt w' ->
  wf w'.
Proof.
  intros Hwf Hrange Hrun. destruct o; cbn [run_bo_op in_range] in *.
  - (* omap_bo_new *)
    unfold bind in Hrun.
    rewrite DumbFacts.omap_bo_new_run in Hrun. cbv zeta in Hrun.
    repeat match type of Hrun with
           | context [if ?c then Ret None _ else _] =>
             destruct c;
             [injection Hrun as <-; apply (wf_heaps w); [reflexivity|reflexivity|exact Hwf]|]
           end.
    injection Hrun as <-. destruct Hwf as [Hlive Hinj].
    set (np := fresh (dom (bos w))) in *. set (ne := fresh (dom (gem w))) in *.
    assert (Hnp : bos w !! np = None) by apply DumbFacts.fresh_lookup.
    assert (Hne : gem w !! ne = None) by apply DumbFacts.fresh_lookup.
    split; cbn [bos gem].
    + intros q bq Hq. destruct (decide (np = q)) as [<-|Hd].
      * rewrite lookup_insert_eq in Hq. injection Hq as <-.
        cbn [refcnt acquire_cnt exynos_bo_p]. unfold INT_MAX.
        split; [lia|]. split; [lia|].
        eexists _, _. split; [reflexivity|apply lookup_insert_eq].
      * rewrite lookup_insert_ne in Hq by exact Hd.
        destruct (Hlive q bq Hq) as (Hr & Hc & e & x & He & Hx).
        split; [exact Hr|]. split; [exact Hc|]. exists e, x.
        split; [exact He|]. rewrite lookup_insert_ne; [exact Hx|].
        intros <-. congruence.
    + intros q1 q2 b1 b2 H1 H2 Heq.
      destruct (decide (np = q1)) as [<-|D1]; destruct (decide (np = q2)) as [<-|D2];
        try reflexivity.
      * rewrite lookup_insert_eq in H1. injection H1 as <-.
        rewrite lookup_insert_ne in H2 by exact D2.
        destruct (Hlive q2 b2 H2) as (_ & _ & e & x & He & Hx).
        cbn [exynos_bo_p] in Heq. rewrite He in Heq. injection Heq as ->.
        congruence.
      * rewrite lookup_insert_eq in H2. injection H2 as <-.
        rewrite lookup_insert_ne in H1 by exact D1.
        destruct (Hlive q1 b1 H1) as (_ & _ & e & x & He & Hx).
        cbn [exynos_bo_p] in Heq. rewrite He in Heq. injection Heq as <-.
        congruence.
      * rewrite lookup_insert_ne in H1 by exact D1.
        rewrite lookup_insert_ne in H2 by exact D2.
        exact (Hinj q1 q2 b1 b2 H1 H2 Heq).
  - (* omap_bo_reference *)
    cbv [omap_bo_reference bind load store abort] in Hrun.
    destruct (bos w !! p) as [b|] eqn:Hb; [|discriminate].
    destruct (0 <? refcnt b) eqn:E0; [|discriminate]. apply Z.ltb_lt in E0.
    injection Hrun as <-. specialize (Hrange b eq_refl).
    rewrite int32_id by (unfold INT_MIN, INT_MAX in *; lia).
    destruct (proj1 Hwf p b Hb) as (_ & Hc & _).
    apply (wf_update w p b); auto; cbn [refcnt acquire_cnt set_refcnt]; lia.
  - (* omap_bo_unreference *)
    destruct p as [p|]; [|injection Hrun as <-; exact Hwf].
    cbv [omap_bo_unreference bind load store ret abort] in Hrun.
    destruct (bos w !! p) as [b|] eqn:Hb; [|discriminate].
    destruct (0 <? refcnt b) eqn:E0; [|discriminate]. apply Z.ltb_lt in E0.
    destruct (proj1 Hwf p b Hb) as (Hr & Hc & e & x & He & Hx).
    rewrite int32_id in Hrun by (unfold INT_MIN, INT_MAX in *; lia).
    destruct (refcnt b - 1 =? 0) eqn:E1.
    + cbv [omap_bo_del bind load syscall exynos_bo_destroy exynos_load free abort]
        in Hrun.
      cbn [bos gem log] in Hrun. rewrite lookup_insert_eq in Hrun.
      cbn [fb_id set_refcnt exynos_bo_p bos gem log] in Hrun.
      destruct (_ =? 0) in Hrun; [|discriminate].
      rewrite He in Hrun. cbn [bos gem log] in Hrun. rewrite Hx in Hrun.
      cbn [bos gem log] in Hrun. injection Hrun as <-.
      rewrite delete_insert_eq. destruct Hwf as [Hlive Hinj].
      split; cbn [bos gem].
      * intros q bq Hq. apply lookup_delete_Some in Hq as [Hd Hq].
        destruct (Hlive q bq Hq) as (Hr' & Hc' & e' & x' & He' & Hx').
        split; [exact Hr'|]. split; [exact Hc'|]. exists e', x'.
        split; [exact He'|]. rewrite lookup_delete_ne; [exact Hx'|].
        intros <-. apply Hd. apply (Hinj p q b bq Hb Hq). congruence.
      * intros q1 q2 b1 b2 H1 H2 Heq.
        apply lookup_delete_Some in H1 as [_ H1].
        apply lookup_delete_Some in H2 as [_ H2].
        exact (Hinj q1 q2 b1 b2 H1 H2 Heq).
    + apply Z.eqb_neq in E1. injection Hrun as <-.
      apply (wf_update w p b); auto; cbn [refcnt acquire_cnt set_refcnt]; lia.
  - (* omap_bo_cpu_prep *)
    unfold bind in Hrun.
    destruct (omap_bo_cpu_prep K W p op w) as [r w1|] eqn:E1; [|discriminate].
    injection Hrun as <-.
    destruct (bos w !! p) as [b|] eqn:Hb.
    2:{ cbv [omap_bo_cpu_prep bind load] in E1. rewrite Hb in E1. discriminate. }
    destruct (cpu_prep_inv W p op w w1 b r Hb E1)
      as (b' & Hbos & Hgem & Hr & He & Hcnt & _).
    destruct (proj1 Hwf p b Hb) as (Hrb & Hcb & _).
    specialize (Hrange b eq_refl).
    apply (wf_heaps (mk_world (<[p:=b']> (bos w)) (gem w) (log w1)));
      [exact Hbos|exact Hgem|].
    apply (wf_update w p b); auto; [lia|].
    destruct Hcnt as [-> | ->]; [exact Hcb|].
    rewrite int32_id by (unfold INT_MIN, INT_MAX in *; lia). lia.
  - (* omap_bo_cpu_fini *)
    unfold bind in Hrun.
    destruct (omap_bo_cpu_fini K p op w) as [r w1|] eqn:E1; [|discriminate].
    injection Hrun as <-.
    destruct (bos w !! p) as [b|] eqn:Hb.
    2:{ cbv [omap_bo_cpu_fini bind load] in E1. rewrite Hb in E1. discriminate. }
    destruct (cpu_fini_inv p op w w1 b r Hb E1) as (H0 & Hbos & Hgem).
    destruct (proj1 Hwf p b Hb) as (Hrb & Hcb & _).
    apply (wf_heaps (mk_world (<[p:=set_acquire b (acquired_exclusive b)
                                      (int32 (acquire_cnt b - 1)) (dirty b)]> (bos w))
                       (gem w) (log w1)));
      [exact Hbos|exact Hgem|].
    apply (wf_update w p b); auto; cbn [refcnt acquire_cnt set_acquire]; try lia.
    rewrite int32_id by (unfold INT_MIN, INT_MAX in *; lia). lia.
  - (* omap_bo_clear_dirty *)
    cbv [omap_bo_clear_dirty bind load store] in Hrun.
    destruct (bos w !! p) as [b|] eqn:Hb; [|discriminate].
    injection Hrun as <-.
    destruct (proj1 Hwf p b Hb) as (Hrb & Hcb & _).
    apply (wf_update w p b); auto.
Qed.

End WithKernel.

(** ** Names and mappings *)

Section Libdrm.
Variable exynos_bo_get_name : exynos_bo -> list event -> Z * exynos_bo.
Variable exynos_bo_map : exynos_bo -> list event -> Z * exynos_bo.

Lemma get_name_run (p e : positive) (w : world) (b : omap_bo) (x : exynos_bo) :
  bos w !! p = Some b -> exynos_bo_p b = Some e -> gem w !! e = Some x ->
  omap_bo_get_name exynos_bo_get_name p w =
  if negb (name x =? 0) then Ret (name x) w
  else
    let r := exynos_bo_get_name x (log w) in
    let w1 := mk_world (bos w) (<[e := snd r]> (gem w)) (log w) in
    if negb (fst r =? 0) then Ret 0 w1 else Ret (name (snd r)) w1.
Proof.
  intros Hb He Hx.
  cbv [omap_bo_get_name bind load exynos_load exynos_store ret].
  rewrite Hb, He, Hx.
  destruct (negb (name x =? 0)); [reflexivity|].
  cbv zeta. cbn [bos gem log].
  destruct (negb (fst (exynos_bo_get_name x (log w)) =? 0)); [reflexivity|].
  cbn [bos gem log]. rewrite lookup_insert_eq. reflexivity.
Qed.

Lemma map_run (p e : positive) (w : world) (b : omap_bo) (x : exynos_bo) :
  bos w !! p = Some b -> exynos_bo_p b = Some e -> gem w !! e = Some x ->
  omap_bo_map exynos_bo_map p w =
  if negb (vaddr x =? 0) then Ret (vaddr x) w
  else
    let r := exynos_bo_map x (log w) in
    let w1 := mk_world (bos w) (<[e := snd r]> (gem w)) (log w) in
    if fst r =? 0 then Ret 0 w1 else Ret (fst r) w1.
Proof.
  intros Hb He Hx.
  cbv [omap_bo_map bind load exynos_load exynos_store ret].
  rewrite Hb, He, Hx.
  destruct (negb (vaddr x =? 0)); [reflexivity|].
  cbv zeta. cbn [bos gem log].
  destruct (fst (exynos_bo_map x (log w)) =? 0); reflexivity.
Qed.

(** X11: [omap_bo_get_name] caches: a name already known is returned without
    asking libdrm and without touching the world; a failing
    [exynos_bo_get_name] gives 0; and once a call has returned a name that
    is not 0, every later call returns that name and changes nothing. *)
Theorem get_name_cached (p e : positive) (w : world) (b : omap_bo) (x : exynos_bo) :
  bos w !! p = Some b -> exynos_bo_p b = Some e -> gem w !! e = Some x ->
  (name x <> 0 -> omap_bo_get_name exynos_bo_get_name p w = Ret (name x) w) /\
  (name x = 0 -> fst (exynos_bo_get_name x (log w)) <> 0 ->
   exists w', omap_bo_get_name exynos_bo_get_name p w = Ret 0 w') /\
  (forall n w',
     omap_bo_get_name exynos_bo_get_name p w = Ret n w' -> n <> 0 ->
     omap_bo_get_name exynos_bo_get_name p w' = Ret n w').
Proof.
  intros Hb He Hx.
  pose proof (get_name_run p e w b x Hb He Hx) as Hrun.
  split; [|split].
  - intros Hn. rewrite Hrun. apply Z.eqb_neq in Hn. rewrite Hn. reflexivity.
  - intros Hn Hr. rewrite Hrun. apply Z.eqb_eq in Hn. rewrite Hn. cbn [negb].
    cbv zeta. apply Z.eqb_neq in Hr. rewrite Hr. cbn [negb]. eauto.
  - intros n w' Hret Hn. rewrite Hrun in Hret.
    destruct (name x =? 0) eqn:En; cbn [negb] in Hret.
    + cbv zeta in Hret.
      destruct (fst (exynos_bo_get_name x (log w)) =? 0); cbn [negb] in Hret;
        injection Hret as <- <-; [|contradiction].
      rewrite (get_name_run p e _ b (snd (exynos_bo_get_name x (log w))));
        [| exact Hb | exact He | apply lookup_insert_eq].
      apply Z.eqb_neq in Hn. rewrite Hn. reflexivity.
    + injection Hret as <- <-. rewrite Hrun. reflexivity.
Qed.

(** X12: [omap_bo_map] caches too: an address already known is returned without
    asking libdrm; and when [exynos_bo_map] records in the [struct exynos_bo]
    the address it returns, a mapping that succeeded is returned again by
    every later call, with nothing changed. *)
Theorem map_cached (p e : positive) (w : world) (b : omap_bo) (x : exynos_bo) :
  bos w !! p = Some b -> exynos_bo_p b = Some e -> gem w !! e = Some x ->
  (forall y l, vaddr (snd (exynos_bo_map y l)) = fst (exynos_bo_map y l)) ->
  (vaddr x <> 0 -> omap_bo_map exynos_bo_map p w = Ret (vaddr x) w) /\
  (forall a w',
     omap_bo_map exynos_bo_map p w = Ret a w' -> a <> 0 ->
     omap_bo_map exynos_bo_map p w' = Ret a w').
Proof.
  intros Hb He Hx Hlib.
  pose proof (map_run p e w b x Hb He Hx) as Hrun.
  split.
  - intros Hn. rewrite Hrun. apply Z.eqb_neq in Hn. rewrite Hn. reflexivity.
  - intros a w' Hret Ha. rewrite Hrun in Hret.
    destruct (vaddr x =? 0) eqn:En; cbn [negb] in Hret.
    + cbv zeta in Hret.
      destruct (fst (exynos_bo_map x (log w)) =? 0) eqn:Er;
        injection Hret as <- <-; [contradiction|].
      rewrite (map_run p e _ b (snd (exynos_bo_map x (log w))));
        [| exact Hb | exact He | apply lookup_insert_eq].
      rewrite Hlib, Er. reflexivity.
    + injection Hret as <- <-. rewrite Hrun. reflexivity.
Qed.

End Libdrm.

(** ** The properties on concrete worlds *)

Lemma pitch_of_least_multiple_witness :
  pitch_of 100 32 mod 64 = 0 /\ 400 <= pitch_of 100 32 < 464 /\
  100 * 4 <= pitch_of 100 32.
Proof.
  destruct (pitch_of_least_multiple 100 32) as [Hm H].
  pose proof (H ltac:(lia) ltac:(lia)) as H'. cbv zeta in H'.
  destruct H' as (Hb & _ & Hpx).
  split; [exact Hm|]. split; [exact Hb|]. apply Hpx. reflexivity.
Defined.

Lemma omap_bo_new_no_leak_witness :
  exists w',
    omap_bo_new MoreEx.K_nomem 3 64 64 24 32 0 DumbEx.w_empty = Ret None w' /\
    bos w' = ∅ /\ log w' = [(Calloc, 0)].
Proof.
  destruct (omap_bo_new_no_leak MoreEx.K_nomem 3 64 64 24 32 0 DumbEx.w_empty)
    as (r & w' & Hrun & Hnone & _ & Hc & _).
  destruct (Hc eq_refl) as [-> Hlog].
  exists w'. split; [exact Hrun|]. split; [|exact Hlog].
  apply Hnone. reflexivity.
Defined.

Lemma refcount_arithmetic_witness :
  (iterM 2 (omap_bo_reference (Some 1%positive)) ;;;
   iterM 2 (omap_bo_unreference DumbEx.K_ok (Some 1%positive))) DumbEx.w_new
  = Ret tt DumbEx.w_new.
Proof.
  destruct (refcount_arithmetic DumbEx.K_ok 1%positive
              (mk_omap_bo 3 (Some 1%positive) 5 64 64 256 24 32 0 1 0 0 1)
              DumbEx.w_new 2 2) as [_ H].
  - vm_compute. reflexivity.
  - cbn. lia.
  - vm_compute. discriminate.
  - cbn. lia.
  - apply H. reflexivity.
Defined.

Lemma last_unreference_destroys_witness :
  omap_bo_unreference DumbEx.K_ok (Some 1%positive) DumbEx.w_new =
    Ret tt (mk_world ∅ ∅
              ((ExynosBoDestroy 7, 0) :: (RmFB 5, 0) :: log DumbEx.w_new)) /\
  omap_bo_unreference MoreEx.K_busy (Some 1%positive) DumbEx.w_new = Abort.
Proof.
  split.
  - destruct (last_unreference_destroys DumbEx.K_ok 1%positive 1%positive
                (mk_omap_bo 3 (Some 1%positive) 5 64 64 256 24 32 0 1 0 0 1)
                (mk_exynos_bo 7 16384 0 0) DumbEx.w_new) as [H _].
    + vm_compute. reflexivity.
    + reflexivity.
    + reflexivity.
    + vm_compute. reflexivity.
    + rewrite H by reflexivity. vm_compute. reflexivity.
  - destruct (last_unreference_destroys MoreEx.K_busy 1%positive 1%positive
                (mk_omap_bo 3 (Some 1%positive) 5 64 64 256 24 32 0 1 0 0 1)
                (mk_exynos_bo 7 16384 0 0) DumbEx.w_new) as [_ H].
    + vm_compute. reflexivity.
    + reflexivity.
    + reflexivity.
    + vm_compute. reflexivity.
    + apply H. vm_compute. discriminate.
Defined.

Lemma cpu_prep_hw_failure_witness :
  omap_bo_cpu_prep MoreEx.K_busy DumbEx.OMAP_GEM_WRITE 1%positive
    DumbEx.OMAP_GEM_READ DumbEx.w_new =
  Ret (-16) (mk_world (bos DumbEx.w_new) (gem DumbEx.w_new)
               ((CpuAcquire 7 0, -16) :: log DumbEx.w_new)).
Proof.
  apply (cpu_prep_hw_failure MoreEx.K_busy DumbEx.OMAP_GEM_WRITE 1%positive
           1%positive DumbEx.OMAP_GEM_READ DumbEx.w_new
           (mk_omap_bo 3 (Some 1%positive) 5 64 64 256 24 32 0 1 0 0 1)
           (mk_exynos_bo 7 16384 0 0)).
  - vm_compute. reflexivity.
  - reflexivity.
  - reflexivity.
  - vm_compute. reflexivity.
  - vm_compute. discriminate.
Defined.

Lemma cpu_fini_edges_witness :
  omap_bo_cpu_fini DumbEx.K_ok 1%positive DumbEx.OMAP_GEM_READ DumbEx.w_new
    = Abort /\
  exists w',
    omap_bo_cpu_fini DumbEx.K_ok 1%positive DumbEx.OMAP_GEM_READ DumbEx.w_read
      = Ret 0 w' /\
    acquire_cnt <$> bos w' !! 1%positive = Some 0.
Proof.
  split.
  - destruct (cpu_fini_edges DumbEx.K_ok 1%positive DumbEx.OMAP_GEM_READ
                DumbEx.w_new
                (mk_omap_bo 3 (Some 1%positive) 5 64 64 256 24 32 0 1 0 0 1))
      as [H _].
    + vm_compute. reflexivity.
    + apply H. cbn. lia.
  - destruct (cpu_fini_edges DumbEx.K_ok 1%positive DumbEx.OMAP_GEM_READ
                DumbEx.w_read
                (mk_omap_bo 3 (Some 1%positive) 5 64 64 256 24 32 0 1 0 1 1))
      as [_ H].
    + vm_compute. reflexivity.
    + eexists. split.
      * apply (H 1%positive (mk_exynos_bo 7 16384 0 0));
          [reflexivity|reflexivity|vm_compute; reflexivity].
      * vm_compute. reflexivity.
Defined.

Lemma read_fence_keeps_dirty_witness :
  exists w',
    (omap_bo_clear_dirty 1%positive ;;;
     mapM (run_fence DumbEx.K_ok DumbEx.OMAP_GEM_WRITE 1%positive)
       [Prep DumbEx.OMAP_GEM_READ; Fini DumbEx.OMAP_GEM_READ] ;;;
     omap_bo_get_dirty 1%positive) DumbEx.w_new = Ret FALSE w'.
Proof.
  destruct (read_fence_keeps_dirty DumbEx.K_ok DumbEx.OMAP_GEM_WRITE 1%positive
              [Prep DumbEx.OMAP_GEM_READ; Fini DumbEx.OMAP_GEM_READ] eq_refl)
    as [_ H].
  destruct ((omap_bo_clear_dirty 1%positive ;;;
             mapM (run_fence DumbEx.K_ok DumbEx.OMAP_GEM_WRITE 1%positive)
               [Prep DumbEx.OMAP_GEM_READ; Fini DumbEx.OMAP_GEM_READ] ;;;
             omap_bo_get_dirty 1%positive) DumbEx.w_new) as [d w'|] eqn:Hrun.
  - exists w'. rewrite (H _ _ _ Hrun). reflexivity.
  - vm_compute in Hrun. discriminate Hrun.
Defined.

Lemma wf_preserved_witness :
  wf (DumbEx.world_of
        (omap_bo_reference (Some 1%positive) DumbEx.w_new)).
Proof.
  assert (Hnew : wf DumbEx.w_new).
  { apply (wf_preserved DumbEx.K_ok DumbEx.OMAP_GEM_WRITE
             (New 3 64 64 24 32 0) DumbEx.w_empty).
    - split; intros p; intros; cbn in *;
        match goal with Hl : ∅ !! _ = Some _ |- _ =>
          rewrite lookup_empty in Hl; discriminate Hl end.
    - exact I.
    - vm_compute. reflexivity. }
  apply (wf_preserved DumbEx.K_ok DumbEx.OMAP_GEM_WRITE
           (Reference 1%positive) DumbEx.w_new).
  - exact Hnew.
  - intros b Hb. vm_compute in Hb. injection Hb as <-. reflexivity.
  - vm_compute. reflexivity.
Defined.

Lemma get_name_cached_witness :
  exists w',
    omap_bo_get_name MoreEx.flink42 1%positive DumbEx.w_new = Ret 42 w' /\
    omap_bo_get_name MoreEx.flink42 1%positive w' = Ret 42 w'.
Proof.
  destruct (get_name_cached MoreEx.flink42 1%positive 1%positive DumbEx.w_new
              (mk_omap_bo 3 (Some 1%positive) 5 64 64 256 24 32 0 1 0 0 1)
              (mk_exynos_bo 7 16384 0 0)) as (_ & _ & H).
  - vm_compute. reflexivity.
  - reflexivity.
  - vm_compute. reflexivity.
  - eexists. split; [vm_compute; reflexivity|].
    apply H; [vm_compute; reflexivity|discriminate].
Defined.

Lemma map_cached_witness :
  exists w',
    omap_bo_map MoreEx.mmap4096 1%positive DumbEx.w_new = Ret 4096 w' /\
    omap_bo_map MoreEx.mmap4096 1%positive w' = Ret 4096 w'.
Proof.
  destruct (map_cached MoreEx.mmap4096 1%positive 1%positive DumbEx.w_new
              (mk_omap_bo 3 (Some 1%positive) 5 64 64 256 24 32 0 1 0 0 1)
              (mk_exynos_bo 7 16384 0 0)) as (_ & H).
  - vm_compute. reflexivity.
  - reflexivity.
  - vm_compute. reflexivity.
  - intros y l. reflexivity.
  - eexists. split; [vm_compute; reflexivity|].
    apply H; [vm_compute; reflexivity|discriminate].
Defined.

Lemma accessors_after_new_witness :
  omap_bo_pitch 1%positive DumbEx.w_new = Ret 256 DumbEx.w_new /\
  omap_bo_Bpp 1%positive DumbEx.w_new = Ret 4 DumbEx.w_new /\
  omap_bo_handle 1%positive DumbEx.w_new = Ret 7 DumbEx.w_new.
Proof.
  destruct (accessors_after_new DumbEx.K_ok 3 64 64 24 32 0 DumbEx.w_empty
              DumbEx.w_new 1%positive)
    as (_ & _ & _ & _ & HB & Hp & Hh & _).
  - vm_compute. reflexivity.
  - split; [exact Hp|]. split; [exact HB|exact Hh].
Defined.

Lemma create_then_release_witness :
  omap_bo_unreference DumbEx.K_ok (Some 1%positive) DumbEx.w_new =
  Ret tt (mk_world ∅ ∅
            ((ExynosBoDestroy 7, 0) :: (RmFB 5, 0) :: log DumbEx.w_new)).
Proof.
  destruct (create_then_release DumbEx.K_ok 3 64 64 24 32 0 DumbEx.w_empty
              DumbEx.w_new 1%positive)
    as (fbid & h & Hfb & Hh & Hrel & _).
  - vm_compute. reflexivity.
  - vm_compute in Hfb. injection Hfb as <-.
    vm_compute in Hh. injection Hh as <-.
    rewrite Hrel by reflexivity. vm_compute. reflexivity.
Defined.

End DumbMoreFacts.

(** ** omap_dri2.c: further properties *)

Module Dri2MoreFacts.
Import Dri2 Dri2More.

Ltac step_inv H :=
  unfold bind at 1 in H;
  match type of H with
  | match ?t with Ret _ _ => _ | Abort => _ end = _ =>
    let E1 := fresh "Hstep" in
    destruct t as [? ?|] eqn:E1; [|discriminate H]
  end.

Ltac step_u H :=
  step_inv H; repeat match goal with u : unit |- _ => destruct u end.

Ltac name_state H n :=
  match type of H with _ ?st = _ => rename st into n end.

(** ** Vertical blank counter *)

Lemma get_msc_failure_step (v : Z * drmVBlankReply) (st : msc_state) :
  fst v <> 0 -> 0 <= limit st <= INT_MAX ->
  let st' := snd (OMAPDRI2GetMSC v None None st) in
  (limit st = 0 -> st' = st) /\
  (0 < limit st -> limit st' = limit st - 1 /\ errors st' = S (errors st)).
Proof.
  intros Hv Hl. unfold OMAPDRI2GetMSC. apply Z.eqb_neq in Hv. rewrite Hv.
  cbn [negb snd]. split.
  - intros ->. reflexivity.
  - intros H0. assert (Hn : (limit st =? 0) = false) by (apply Z.eqb_neq; lia).
    rewrite Hn. cbn [negb limit errors].
    rewrite int32_id by (unfold INT_MIN, INT_MAX in *; lia). auto.
Qed.

(** X13: a failing query returns FALSE and leaves both output cells as they were;
    over any series of queries the error lines written are the failures, up
    to what [limit] allowed at the start: from the initial [limit] of 5, at
    most five lines whatever the number of failures. *)
Theorem get_msc_failures_bounded (vbls : list (Z * drmVBlankReply)) :
  (forall v ust msc st, fst v <> 0 ->
     fst (fst (fst (OMAPDRI2GetMSC v ust msc st))) = FALSE /\
     snd (fst (fst (OMAPDRI2GetMSC v ust msc st))) = ust /\
     snd (fst (OMAPDRI2GetMSC v ust msc st)) = msc) /\
  (forall st, 0 <= limit st <= INT_MAX ->
     errors (get_msc_all vbls st)
       = (errors st + Nat.min (failures vbls) (Z.to_nat (limit st)))%nat /\
     limit (get_msc_all vbls st)
       = limit st - Z.of_nat (Nat.min (failures vbls) (Z.to_nat (limit st)))) /\
  errors (get_msc_all vbls (mk_msc 5 0)) = Nat.min (failures vbls) 5.
Proof.
  assert (Hseq : forall st, 0 <= limit st <= INT_MAX ->
     errors (get_msc_all vbls st)
       = (errors st + Nat.min (failures vbls) (Z.to_nat (limit st)))%nat /\
     limit (get_msc_all vbls st)
       = limit st - Z.of_nat (Nat.min (failures vbls) (Z.to_nat (limit st)))).
  { induction vbls as [|v vbls IH]; intros st Hl.
    - cbn [get_msc_all failures List.filter length Nat.min]. split; lia.
    - cbn [get_msc_all]. unfold failures in *. cbn [List.filter].
      destruct (fst v =? 0) eqn:Ev; cbn [negb].
      + assert (Hst : snd (OMAPDRI2GetMSC v None None st) = st)
          by (unfold OMAPDRI2GetMSC; rewrite Ev; reflexivity).
        rewrite Hst. apply IH. exact Hl.
      + apply Z.eqb_neq in Ev.
        destruct (get_msc_failure_step v st Ev Hl) as [Hzero Hpos].
        cbv zeta in *. cbn [length].
        destruct (decide (limit st = 0)) as [H0|H0].
        * rewrite (Hzero H0). destruct (IH st Hl) as [He Hli].
          rewrite He, Hli, H0. cbn [Z.to_nat]. rewrite !Nat.min_0_r. split; lia.
        * destruct (Hpos ltac:(lia)) as [Hl' He'].
          set (st' := snd (OMAPDRI2GetMSC v None None st)) in *.
          destruct (IH st' ltac:(lia)) as [He Hli].
          rewrite He, Hli, Hl', He'. split; lia. }
  split; [|split].
  - intros v ust msc st Hv. unfold OMAPDRI2GetMSC.
    apply Z.eqb_neq in Hv. rewrite Hv. auto.
  - exact Hseq.
  - destruct (Hseq (mk_msc 5 0) ltac:(cbn; unfold INT_MAX; lia)) as [He _].
    rewrite He. reflexivity.
Qed.

(** X14: a successful query returns TRUE, leaves the error budget alone, stores
    the frame counter, and stores the time stamp in microseconds: for a
    time of day in range, dividing it by 1000000 gives back the seconds and
    the remainder the microseconds.  A NULL pointer is left alone. *)
Theorem get_msc_success (reply : drmVBlankReply) (ust msc : option Z)
    (st : msc_state) :
  0 <= tval_sec reply -> 0 <= tval_usec reply < 1000000 ->
  tval_sec reply * 1000000 + tval_usec reply < 2 ^ 64 ->
  0 <= sequence reply < 2 ^ 32 ->
  exists ust' msc',
    OMAPDRI2GetMSC (0, reply) ust msc st = (TRUE, ust', msc', st) /\
    (ust = None -> ust' = None) /\ (msc = None -> msc' = None) /\
    (is_Some msc -> msc' = Some (sequence reply)) /\
    (is_Some ust ->
     exists t, ust' = Some t /\
               t / 1000000 = tval_sec reply /\
               t mod 1000000 = tval_usec reply).
Proof.
  intros Hs Hu Hr Hq. eexists _, _. split; [reflexivity|].
  assert (H64 : 2 ^ 32 < 2 ^ 64) by (vm_compute; reflexivity).
  assert (Et : uint64 (uint64 (uint64 (tval_sec reply) * 1000000)
                       + uint64 (tval_usec reply))
               = tval_sec reply * 1000000 + tval_usec reply).
  { unfold uint64.
    rewrite (Z.mod_small (tval_sec reply)) by nia.
    rewrite (Z.mod_small (tval_sec reply * 1000000)) by nia.
    rewrite (Z.mod_small (tval_usec reply)) by lia.
    apply Z.mod_small. lia. }
  cbn [snd]. rewrite Et.
  split; [intros ->; reflexivity|]. split; [intros ->; reflexivity|].
  split.
  - intros [m ->]. unfold uint64. rewrite Z.mod_small by lia. reflexivity.
  - intros [u ->]. eexists. split; [reflexivity|].
    split.
    + rewrite Z.add_comm, Z.div_add by lia. rewrite Z.div_small by lia. lia.
    + rewrite Z.add_comm, Z.mod_add by lia. apply Z.mod_small. lia.
Qed.

(** ** Frames *)

Lemma preserves_ret {T A} (f : server -> T) (a : A) : preserves f (ret a).
Proof. intros s a' s' [= _ <-]. reflexivity. Qed.

Lemma preserves_abort {T A} (f : server -> T) : preserves f (@abort server A).
Proof. intros s a s' H. discriminate H. Qed.

Lemma preserves_bind {T A B} (f : server -> T) (m : M server A)
    (k : A -> M server B) :
  preserves f m -> (forall a, preserves f (k a)) -> preserves f (bind m k).
Proof.
  intros Hm Hk s b s' H. unfold bind in H.
  destruct (m s) as [a s1|] eqn:E1; [|discriminate].
  rewrite (Hk a _ _ _ H). exact (Hm _ _ _ E1).
Qed.

Lemma preserves_get {T A} (f : server -> T) (g : server -> A) :
  preserves f (get g).
Proof. intros s a s' [= _ <-]. reflexivity. Qed.

Lemma preserves_deref {T V} (f : server -> T)
    (heap : server -> gmap positive V) (p : option positive) :
  preserves f (deref heap p).
Proof.
  intros s a s' H. apply Dri2Facts.readonly_deref in H. subst. reflexivity.
Qed.

Lemma preserves_modify {T} (f : server -> T) (g : server -> server) :
  (forall s, f (g s) = f s) -> preserves f (modify g).
Proof. intros Hg s a s' H. injection H as H. subst s'. apply Hg. Qed.

Lemma preserves_xcall {T} (f : server -> T) (E : xenv) (c : xcall) :
  (forall s l, f (set_xlog s l) = f s) -> preserves f (xcall_ E c).
Proof. intros Hg s a s' H. injection H as _ H. subst s'. apply Hg. Qed.

Lemma preserves_lift {T A} (f : server -> T) (m : M Dumb.world A) :
  (forall s w, f (set_dumb s w) = f s) -> preserves f (lift m).
Proof.
  intros Hg s a s' H. apply Dri2Facts.lift_inv in H as [w ->]. apply Hg.
Qed.

Lemma returns_ret {A} (P : A -> Prop) (a : A) : P a -> returns P (ret a).
Proof. intros Ha s a' s' [= <- _]. exact Ha. Qed.

Lemma returns_abort {A} (P : A -> Prop) : returns P (@abort server A).
Proof. intros s a s' H. discriminate H. Qed.

Lemma returns_bind {A B} (P : B -> Prop) (m : M server A)
    (k : A -> M server B) :
  (forall a, returns P (k a)) -> returns P (bind m k).
Proof.
  intros Hk s b s' H. unfold bind in H.
  destruct (m s) as [a s1|]; [|discriminate]. exact (Hk a _ _ _ H).
Qed.

Lemma respects_ret {V A} (v : server -> V) (a : A) : respects v (ret a).
Proof.
  intros s t a' s' Hv H. injection H as <- <-. exists t. split; [reflexivity|exact Hv].
Qed.

Lemma respects_bind {V A B} (v : server -> V) (m : M server A)
    (k : A -> M server B) :
  respects v m -> (forall a, respects v (k a)) -> respects v (bind m k).
Proof.
  intros Hm Hk s t b s' Hv H. unfold bind in H.
  destruct (m s) as [a s1|] eqn:E1; [|discriminate].
  destruct (Hm s t a s1 Hv E1) as (t1 & Ht1 & Hv1).
  destruct (Hk a s1 t1 b s' Hv1 H) as (t' & Ht' & Hv').
  exists t'. split; [|exact Hv']. unfold bind. rewrite Ht1. exact Ht'.
Qed.

Lemma respects_canflip (from : list OMAPScanout -> DrawableRec -> option OMAPScanout)
    (pDraw : positive) (back_bo : option positive) :
  respects canflip_view (canflip from pDraw back_bo).
Proof.
  assert (Hlift : forall A (m : M Dumb.world A), respects canflip_view (lift m)).
  { intros A m s t a s' Hv H. injection Hv as Hd Hw Hs. unfold lift in *.
    rewrite <- Hw. destruct (m (dumb s)) as [a' w|]; [|discriminate].
    injection H as <- <-. eexists. split; [reflexivity|].
    unfold canflip_view. cbn [draws dumb scanouts set_dumb]. congruence. }
  unfold canflip. apply respects_bind.
  - intros s t a s' Hv H. injection Hv as Hd Hw Hs.
    unfold load_draw, deref in *. rewrite <- Hd.
    destruct (draws s !! pDraw); [|discriminate]. injection H as <- <-.
    exists t. split; [reflexivity|]. unfold canflip_view. congruence.
  - intros d. destruct (negb _); [apply respects_ret|].
    apply respects_bind.
    + destruct back_bo as [b|]; [|apply respects_ret].
      apply respects_bind; [apply Hlift|].
      intros w. destruct (negb _); [apply respects_ret|].
      apply respects_bind; [apply Hlift|]. intros h. apply respects_ret.
    + intros differs. destruct differs; [apply respects_ret|].
      apply respects_bind.
      * intros s t a s' Hv H. injection Hv as Hd Hw Hs. unfold get in *.
        injection H as <- <-. exists t. rewrite Hs.
        split; [reflexivity|]. unfold canflip_view. congruence.
      * intros [sl|]; apply respects_ret.
Qed.

(** One step of a frame or result argument, by the shape of the code. *)
Ltac frame_step :=
  first
    [ apply preserves_ret | apply preserves_abort
    | apply preserves_get | apply preserves_deref
    | apply preserves_modify; intros ?; reflexivity
    | apply preserves_xcall; intros ? ?; reflexivity
    | apply preserves_lift; intros ? ?; reflexivity
    | apply preserves_bind; [|intros ?]
    | apply returns_ret | apply returns_abort
    | apply returns_bind; intros ?
    | match goal with
      | |- preserves _ (match ?x with _ => _ end) => destruct x
      | |- returns _ (match ?x with _ => _ end) => destruct x
      end
    | progress cbv zeta
    | progress unfold load_draw, load_pix, load_buf, load_cmd, store_pix,
        store_buf, store_cmd, store_draw, update_cmd, pixmap_ref,
        DestroyPixmap_, OMAPPixmapExchange, dixLookupDrawable,
        GetWindowPixmap, dri2draw, draw2pix, NEXT_SERIAL_NUMBER,
        omap_bo_get_fb, swap_notify, swap_cleanup, OMAPDRI2SwapComplete,
        OMAPDRI2CopyRegion ].

Ltac frame := repeat frame_step.

Section WithEnv.

Variable K : Dumb.kernel.
Variable E : xenv.
Variable drmmode_scanout_from_drawable :
  list OMAPScanout -> DrawableRec -> option OMAPScanout.
Variable drmmode_scanout_set :
  list OMAPScanout -> Z -> Z -> option positive -> list OMAPScanout.
Variable MAX_SCANOUTS : nat.
Variable OMAP_USE_PAGE_FLIP_EVENTS : bool.

Lemma preserves_swap_complete (c : positive) :
  preserves untouched_by_completion
    (OMAPDRI2SwapComplete E drmmode_scanout_set MAX_SCANOUTS c).
Proof. unfold untouched_by_completion. frame. Qed.

Lemma exchange_keeps_refcnts (a b : option positive) :
  preserves (fun s => refcnts (pixmaps s)) (OMAPPixmapExchange a b).
Proof.
  intros s u s' H. pose proof H as H'. unfold OMAPPixmapExchange in H'.
  step_inv H'. unfold load_pix in Hstep.
  apply Dri2Facts.deref_inv in Hstep as (-> & a' & -> & Ha).
  step_inv H'. unfold load_pix in Hstep.
  apply Dri2Facts.deref_inv in Hstep as (-> & b' & -> & Hb).
  rewrite (Dri2Facts.exchange_run a' b' _ _ s Ha Hb) in H.
  injection H as H. subst s'. cbn [pixmaps set_pixmaps].
  apply Dri2Facts.refcnts_exchanged; assumption.
Qed.

Lemma swap_notify_keeps_refcnts (cmd : OMAPDRISwapCmd) :
  preserves (fun s => refcnts (pixmaps s))
    (swap_notify E drmmode_scanout_set MAX_SCANOUTS cmd).
Proof.
  unfold swap_notify.
  repeat first [apply exchange_keeps_refcnts | frame_step].
Qed.

Lemma swap_complete_final_refcnts (c : positive) (cmd : OMAPDRISwapCmd)
    (s s' : server) :
  cmds s !! c = Some cmd -> int32 (swapCount cmd - 1) <= 0 ->
  OMAPDRI2SwapComplete E drmmode_scanout_set MAX_SCANOUTS c s = Ret tt s' ->
  exists a b, pSrcPixmap cmd = Some a /\ pDstPixmap cmd = Some b /\
    refcnts (pixmaps s') =
    alter (fun n => int32 (n - 1)) b
      (alter (fun n => int32 (n - 1)) a (refcnts (pixmaps s))).
Proof.
  intros Hc Hn H.
  rewrite (Dri2Facts.swap_complete_final E drmmode_scanout_set MAX_SCANOUTS
             c cmd s Hc Hn) in H.
  step_u H. name_state H s3. apply swap_notify_keeps_refcnts in Hstep.
  cbn [pixmaps set_cmds] in Hstep.
  unfold swap_cleanup in H.
  step_u H. name_state H s4.
  pose proof Hstep0 as Hd1. unfold DestroyPixmap_ in Hd1. step_u Hd1.
  unfold load_pix in Hstep1.
  apply Dri2Facts.deref_inv in Hstep1 as (_ & a' & Ha & Hpa). clear Hd1.
  rewrite Ha in Hstep0.
  rewrite (Dri2Facts.DestroyPixmap_run E a' _ s3 Hpa) in Hstep0.
  injection Hstep0 as Hs4.
  step_u H. name_state H s5.
  pose proof Hstep0 as Hd2. unfold DestroyPixmap_ in Hd2. step_u Hd2.
  unfold load_pix in Hstep1.
  apply Dri2Facts.deref_inv in Hstep1 as (_ & b' & Hb & Hpb). clear Hd2.
  rewrite Hb in Hstep0.
  rewrite (Dri2Facts.DestroyPixmap_run E b' _ s4 Hpb) in Hstep0.
  injection Hstep0 as Hs5.
  step_u H. injection Hstep0 as Hs6.
  step_u H. unfold xcall_ in Hstep0. injection Hstep0 as _ Hs7.
  injection H as <-.
  exists a', b'. split; [exact Ha|]. split; [exact Hb|].
  subst. cbn [pixmaps set_cmds set_xlog set_pending_flips set_pixmaps].
  rewrite !Dri2Facts.refcnts_unref_pix, Hstep. reflexivity.
Qed.

(** X15: a completion signal that takes no pixmap's last reference (the
    command's two pixmaps are referenced elsewhere as well, as they are
    while their buffers exist) leaves every pixmap that held a reference
    with one, and never touches the BO heap: no BO is created, referenced,
    released or handed to the kernel, even when two pixmaps trade their
    BOs.  Nor does it touch the drawables, the window pixmaps, the resource
    table, the DRI2 buffers, the fallback scanout BO, the resize flag or
    the serial number counter. *)
Theorem swap_complete_frame (c : positive) (cmd : OMAPDRISwapCmd)
    (s s' : server) :
  cmds s !! c = Some cmd ->
  (int32 (swapCount cmd - 1) <= 0 ->
   forall q pm,
     pSrcPixmap cmd = Some q \/ pDstPixmap cmd = Some q ->
     pixmaps s !! q = Some pm ->
     1 < pix_refcnt pm <= INT_MAX /\
     (pSrcPixmap cmd = pDstPixmap cmd -> 2 < pix_refcnt pm)) ->
  OMAPDRI2SwapComplete E drmmode_scanout_set MAX_SCANOUTS c s = Ret tt s' ->
  (forall q pm, pixmaps s !! q = Some pm -> 1 <= pix_refcnt pm ->
     exists pm', pixmaps s' !! q = Some pm' /\ 1 <= pix_refcnt pm') /\
  dumb s' = dumb s /\ draws s' = draws s /\ winpix s' = winpix s /\
  resources s' = resources s /\ bufs s' = bufs s /\ scanout s' = scanout s /\
  has_resized s' = has_resized s /\
  globalSerialNumber s' = globalSerialNumber s.
Proof.
  intros Hc Hheld H. split.
  - intros q pm Hq H1.
    destruct (Z.ltb_spec 0 (int32 (swapCount cmd - 1))) as [Hpend|Hfin].
    { rewrite (Dri2Facts.swap_complete_pending E drmmode_scanout_set
                 MAX_SCANOUTS c cmd s Hc Hpend) in H.
      injection H as <-. exists pm. split; [exact Hq|exact H1]. }
    destruct (swap_complete_final_refcnts c cmd s s' Hc Hfin H)
      as (a & b & Ha & Hb & Hrc).
    assert (Hn : exists n', refcnts (pixmaps s') !! q = Some n' /\ 1 <= n').
    { rewrite Hrc.
      assert (Hl : refcnts (pixmaps s) !! q = Some (pix_refcnt pm)).
      { unfold refcnts. rewrite lookup_fmap, Hq. reflexivity. }
      destruct (decide (b = q)) as [->|Hbq]; destruct (decide (a = q)) as [->|Haq];
        repeat (rewrite lookup_alter_eq || rewrite lookup_alter_ne by assumption);
        rewrite Hl; cbn.
      - destruct (Hheld Hfin q pm (or_introl Ha) Hq) as [Hr Hsame].
        specialize (Hsame ltac:(congruence)).
        eexists. split; [reflexivity|].
        rewrite (int32_id (pix_refcnt pm - 1))
          by (unfold INT_MIN, INT_MAX in *; lia).
        rewrite int32_id by (unfold INT_MIN, INT_MAX in *; lia). lia.
      - destruct (Hheld Hfin q pm (or_intror Hb) Hq) as [Hr _].
        eexists. split; [reflexivity|].
        rewrite int32_id by (unfold INT_MIN, INT_MAX in *; lia). lia.
      - destruct (Hheld Hfin q pm (or_introl Ha) Hq) as [Hr _].
        eexists. split; [reflexivity|].
        rewrite int32_id by (unfold INT_MIN, INT_MAX in *; lia). lia.
      - eexists. split; [reflexivity|exact H1]. }
    destruct Hn as (n' & Hn' & Hge). unfold refcnts in Hn'.
    rewrite lookup_fmap in Hn'.
    destruct (pixmaps s' !! q) as [pm'|]; [|discriminate].
    injection Hn' as <-. exists pm'. split; [reflexivity|exact Hge].
  - apply preserves_swap_complete in H.
    unfold untouched_by_completion in H.
    injection H as -> -> -> -> -> -> -> ->. repeat split.
Qed.

(** ** Copying *)

Lemma dri2draw_inv (pDraw r : option positive) (buf : positive) (s s' : server) :
  dri2draw pDraw buf s = Ret r s' ->
  s' = s /\ exists b, bufs s !! buf = Some b /\
    r = if attachment b =? DRI2BufferFrontLeft then pDraw else pPixmap b.
Proof.
  intros H. unfold dri2draw in H. step_inv H. unfold load_buf in Hstep.
  apply Dri2Facts.deref_inv in Hstep as (-> & q & [= <-] & Hb).
  assert (Hr : s' = s /\
    r = if attachment a =? DRI2BufferFrontLeft then pDraw else pPixmap a).
  { destruct (_ =? _); injection H as <- <-; auto. }
  destruct Hr as [-> ->]. split; [reflexivity|]. exists a. auto.
Qed.

(** X17: [OMAPDRI2CopyRegion] changes nothing in the driver but the call log.  It
    asks for a scratch GC of the destination's depth; without one it
    returns without copying, and with one it issues a single copy of the
    whole drawable area, from the drawable the source buffer stands for to
    the one the destination buffer stands for (the drawable itself for a
    front attachment, the buffer's pixmap otherwise). *)
Theorem copy_region_effect (pDraw pDstBuffer pSrcBuffer : positive)
    (s s' : server) :
  OMAPDRI2CopyRegion E pDraw pDstBuffer pSrcBuffer s = Ret tt s' ->
  exists bs bd dd,
    bufs s !! pSrcBuffer = Some bs /\ bufs s !! pDstBuffer = Some bd /\
    let srcd := if attachment bs =? DRI2BufferFrontLeft
                then Some pDraw else pPixmap bs in
    let dstd := if attachment bd =? DRI2BufferFrontLeft
                then Some pDraw else pPixmap bd in
    let g := GetScratchGC (d_depth dd) in
    let l1 := (g, xsys E (xlog s) g) :: xlog s in
    deref draws dstd s = Ret dd s /\
    ((xsys E (xlog s) g = 0 /\ s' = set_xlog s l1) \/
     (xsys E (xlog s) g <> 0 /\
      exists d, draws s !! pDraw = Some d /\
        let cp := CopyArea srcd dstd (d_width d) (d_height d) in
        s' = set_xlog s ((cp, xsys E l1 cp) :: l1))).
Proof.
  intros H. unfold OMAPDRI2CopyRegion in H.
  step_inv H. apply dri2draw_inv in Hstep as (-> & bs & Hbs & ->).
  step_inv H. apply dri2draw_inv in Hstep as (-> & bd & Hbd & ->).
  step_inv H. unfold load_draw in Hstep. pose proof Hstep as Hdd.
  apply Dri2Facts.readonly_deref in Hstep. subst s0.
  exists bs, bd, a. split; [exact Hbs|]. split; [exact Hbd|].
  cbv zeta. split; [exact Hdd|].
  step_inv H. unfold xcall_ in Hstep. injection Hstep as <- <-.
  destruct (_ =? 0) eqn:Eg.
  - apply Z.eqb_eq in Eg. injection H as <-. left. auto.
  - apply Z.eqb_neq in Eg. right. split; [exact Eg|].
    step_inv H. unfold load_draw in Hstep.
    apply Dri2Facts.deref_inv in Hstep as (-> & q & [= <-] & Hd).
    step_inv H. unfold xcall_ in Hstep. injection Hstep as _ <-.
    injection H as <-. exists a0. split; [exact Hd|]. reflexivity.
Qed.

(** ** Buffers *)

(** X18: destroying a buffer whose pixmap is referenced elsewhere as well
    (so that the screen's [DestroyPixmap] has a reference to drop and no
    pixmap to free) drops exactly one reference on that pixmap and frees
    the wrapper; nothing else changes, and the pixmap still holds a
    reference.  The wrapper is gone afterwards: destroying it a second
    time is a use after free. *)
Theorem destroy_buffer_drops_one_reference (pDraw : option positive)
    (buffer a : positive) (buf : OMAPDRI2BufferRec) (pa : PixmapRec)
    (d : DrawableRec) (s : server) :
  bufs s !! buffer = Some buf -> pPixmap buf = Some a ->
  draws s !! a = Some d -> pixmaps s !! a = Some pa ->
  1 < pix_refcnt pa <= INT_MAX ->
  let ev := DestroyPixmap (Some a) in
  let s' := mk_server (dumb s) (draws s)
              (<[a := set_pix_refcnt pa (pix_refcnt pa - 1)]> (pixmaps s))
              (winpix s)
              (resources s) (delete buffer (bufs s)) (cmds s) (scanouts s)
              (scanout s) (has_resized s) (pending_flips s)
              (globalSerialNumber s) ((ev, xsys E (xlog s) ev) :: xlog s) in
  OMAPDRI2DestroyBuffer E pDraw buffer s = Ret tt s' /\
  pix_refcnt <$> pixmaps s' !! a = Some (pix_refcnt pa - 1) /\
  1 <= pix_refcnt pa - 1 /\
  OMAPDRI2DestroyBuffer E pDraw buffer s' = Abort.
Proof.
  intros Hbuf Hp Hd Ha Hr. cbv zeta. split; [|split; [|split]].
  - unfold OMAPDRI2DestroyBuffer, load_buf, load_draw.
    unfold bind at 1. rewrite (Dri2Facts.deref_some bufs _ _ _ Hbuf).
    rewrite Hp. unfold bind at 1. rewrite (Dri2Facts.deref_some draws _ _ _ Hd).
    unfold bind at 1. rewrite (Dri2Facts.DestroyPixmap_run E a pa s Ha).
    rewrite <- (Dri2Facts.unref_pix_insert _ _ _ Ha).
    rewrite int32_id by (unfold INT_MIN, INT_MAX in *; lia).
    reflexivity.
  - cbn [pixmaps]. rewrite lookup_insert_eq. reflexivity.
  - lia.
  - cbv [OMAPDRI2DestroyBuffer bind load_buf deref]. cbn [bufs].
    rewrite lookup_delete_eq. reflexivity.
Qed.

(** ** Completions that are not notified *)

(** X16: a command that is marked failed, or whose drawable is gone, is cleaned
    up in silence whatever its type: the two pixmap references are
    dropped, [pending_flips] goes down by one and the command is freed, but
    the client is not notified, no pixmap changes its BO and the scanout
    registry is left as it is. *)
Theorem unnotified_completion_is_silent (c : positive) (cmd : OMAPDRISwapCmd)
    (s : server) (a b : positive) (pa pb : PixmapRec) :
  cmds s !! c = Some cmd -> int32 (swapCount cmd - 1) <= 0 ->
  pSrcPixmap cmd = Some a -> pDstPixmap cmd = Some b ->
  pixmaps s !! a = Some pa -> pixmaps s !! b = Some pb ->
  Z.land (flags cmd) OMAP_SWAP_FAIL <> 0 \/ resources s !! draw_id cmd = None ->
  exists s',
    OMAPDRI2SwapComplete E drmmode_scanout_set MAX_SCANOUTS c s = Ret tt s' /\
    cmds s' = delete c (cmds s) /\
    pending_flips s' = int32 (pending_flips s - 1) /\
    pixmaps s' = unref_pix b (unref_pix a (pixmaps s)) /\
    (forall q, priv_bo <$> pixmaps s' !! q = priv_bo <$> pixmaps s !! q) /\
    scanouts s' = scanouts s /\
    List.filter is_notify (xlog s') = List.filter is_notify (xlog s).
Proof.
  intros Hc Hn Hsrc Hdst Ha Hb Hskip.
  set (s2 := set_cmds s (<[c := set_swapCount cmd (int32 (swapCount cmd - 1))]>
                           (cmds s))).
  pose proof (Dri2Facts.swap_notify_skip E drmmode_scanout_set MAX_SCANOUTS
                cmd s2 Hskip) as Hnot.
  rewrite (Dri2Facts.swap_complete_finalize E drmmode_scanout_set MAX_SCANOUTS
             c cmd s s2 a b pa pb Hc Hn Hsrc Hdst Hnot Ha Hb).
  cbv zeta. eexists. split; [reflexivity|].
  cbn [cmds pending_flips pixmaps scanouts xlog s2 set_cmds].
  split; [apply delete_insert_eq|]. split; [reflexivity|].
  split; [reflexivity|].
  split; [intros q; rewrite !Dri2Facts.priv_bo_unref_pix; reflexivity|].
  split; reflexivity.
Qed.

(** ** Scheduling a swap *)

Ltac framed H :=
  match type of H with
  | ?m ?s = Ret _ ?s' =>
    let Hf := fresh "Hf" in
    assert (Hf : bufs s' = bufs s /\ has_resized s' = has_resized s)
      by (let Hp := fresh in
          assert (Hp : preserves (fun s => (bufs s, has_resized s)) m)
            by frame;
          specialize (Hp _ _ _ H); injection Hp; auto);
    destruct Hf as [? ?]
  end.

Lemma swap_prepare_keeps_buffers (cl : Z) (pDraw pDstBuffer pSrcBuffer : positive)
    (fn dt : Z) :
  preserves (fun s => (bufs s, has_resized s))
    (swap_prepare K E drmmode_scanout_from_drawable cl pDraw pDstBuffer
       pSrcBuffer fn dt).
Proof. unfold swap_prepare, swap_new_cmd, canflip, swap_rebind. frame. Qed.

Lemma swap_issue_boolean (c pDraw pDstBuffer pSrcBuffer : positive) (ncf : Z) :
  returns (fun r => r = TRUE \/ r = FALSE)
    (swap_issue E drmmode_scanout_set MAX_SCANOUTS OMAP_USE_PAGE_FLIP_EVENTS
       c pDraw pDstBuffer pSrcBuffer ncf).
Proof. unfold swap_issue. frame; auto. Qed.

Lemma swap_issue_caches (c pDraw pDstBuffer pSrcBuffer : positive) (ncf r : Z)
    (s s' : server) :
  swap_issue E drmmode_scanout_set MAX_SCANOUTS OMAP_USE_PAGE_FLIP_EVENTS
    c pDraw pDstBuffer pSrcBuffer ncf s = Ret r s' ->
  previous_canflip <$> bufs s' !! pSrcBuffer = Some ncf /\
  previous_canflip <$> bufs s' !! pDstBuffer = Some ncf /\
  (forall q, pPixmap <$> bufs s' !! q = pPixmap <$> bufs s !! q) /\
  (forall q, attachment <$> bufs s' !! q = attachment <$> bufs s !! q) /\
  (ncf = 0 \/ has_resized s <> 0 -> r = TRUE /\ has_resized s' = FALSE).
Proof.
  intros H. unfold swap_issue in H.
  step_inv H. framed Hstep. clear Hstep.
  step_inv H. framed Hstep. clear Hstep.
  step_inv H. framed Hstep. clear Hstep.
  step_inv H. framed Hstep. clear Hstep.
  step_inv H. framed Hstep. unfold load_buf in Hstep.
  apply Dri2Facts.deref_inv in Hstep as (_ & ? & [= <-] & Hsrc).
  step_inv H. framed Hstep. unfold load_buf in Hstep.
  apply Dri2Facts.deref_inv in Hstep as (_ & ? & [= <-] & Hdst).
  step_inv H. framed Hstep. clear Hstep.
  step_inv H. framed Hstep. clear Hstep.
  step_inv H. framed Hstep. clear Hstep.
  step_inv H. framed Hstep. clear Hstep.
  step_inv H. framed Hstep. injection Hstep as Hhr _.
  step_inv H. framed Hstep. clear Hstep.
  step_inv H. injection Hstep as Hs1.
  step_inv H. unfold load_buf in Hstep.
  apply Dri2Facts.deref_inv in Hstep as (-> & ? & [= <-] & Hdst').
  step_inv H. injection Hstep as Hs2.
  assert (Hb11 : bufs s11 = bufs s) by congruence.
  assert (Hb3 : bufs s3 = bufs s) by congruence.
  assert (Hb4 : bufs s4 = bufs s) by congruence.
  assert (Hhr9 : a9 = has_resized s) by congruence.
  rewrite Hb3 in Hsrc. rewrite Hb4 in Hdst.
  subst s12 s13. cbn [bufs set_bufs] in *. rewrite Hb11 in *.
  assert (Ht : bufs s' = <[pDstBuffer := set_previous_canflip a12 ncf]>
                           (<[pSrcBuffer := set_previous_canflip a3 ncf]> (bufs s))).
  { match type of H with
    | ?m ?s0 = _ =>
      assert (Hp : preserves bufs m) by frame; exact (Hp _ _ _ H)
    end. }
  assert (Ha12 : pPixmap a12 = pPixmap a4 /\ attachment a12 = attachment a4 /\
                 (pDstBuffer = pSrcBuffer -> a4 = a3)).
  { destruct (decide (pDstBuffer = pSrcBuffer)) as [->|Hne].
    - rewrite lookup_insert_eq in Hdst'. injection Hdst' as <-.
      rewrite Hsrc in Hdst. injection Hdst as <-. auto.
    - rewrite lookup_insert_ne in Hdst' by congruence.
      rewrite Hdst in Hdst'. injection Hdst' as <-. tauto. }
  destruct Ha12 as (Hpp & Hat & Hsame).
  rewrite Ht. split; [|split; [|split; [|split]]].
  - destruct (decide (pDstBuffer = pSrcBuffer)) as [->|Hne].
    + rewrite lookup_insert_eq. reflexivity.
    + rewrite lookup_insert_ne, lookup_insert_eq by congruence. reflexivity.
  - rewrite lookup_insert_eq. reflexivity.
  - intros q. destruct (decide (pDstBuffer = q)) as [<-|Hq].
    + rewrite lookup_insert_eq, Hdst. cbn. rewrite Hpp. reflexivity.
    + rewrite lookup_insert_ne by exact Hq.
      destruct (decide (pSrcBuffer = q)) as [<-|Hq'].
      * rewrite lookup_insert_eq, Hsrc. reflexivity.
      * rewrite lookup_insert_ne by exact Hq'. reflexivity.
  - intros q. destruct (decide (pDstBuffer = q)) as [<-|Hq].
    + rewrite lookup_insert_eq, Hdst. cbn. rewrite Hat. reflexivity.
    + rewrite lookup_insert_ne by exact Hq.
      destruct (decide (pSrcBuffer = q)) as [<-|Hq'].
      * rewrite lookup_insert_eq, Hsrc. reflexivity.
      * rewrite lookup_insert_ne by exact Hq'. reflexivity.
  - intros Hc.
    assert (Hcond : negb (a6 =? 0) && negb (a8 =? 0) && negb (ncf =? 0)
                    && (a9 =? 0) = false).
    { destruct Hc as [-> | Hc].
      - cbn. rewrite andb_false_r. reflexivity.
      - rewrite <- Hhr9 in Hc. apply Z.eqb_neq in Hc. rewrite Hc.
        apply andb_false_r. }
    rewrite Hcond in H.
    step_inv H. clear Hstep. step_inv H. clear Hstep.
    step_inv H. clear Hstep. step_inv H. injection Hstep as Hm.
    injection H as <- <-. subst. split; reflexivity.
Qed.

(** The verdict [swap_prepare] hands on is the one [canflip] gives, for
    the drawable and the BO of the source buffer's pixmap, in the state the
    swap was scheduled in. *)
Lemma swap_prepare_verdict (cl : Z) (pDraw pDstBuffer pSrcBuffer : positive)
    (fn dt : Z) (s s1 : server) (c : positive) (ncf ok : Z) :
  swap_prepare K E drmmode_scanout_from_drawable cl pDraw pDstBuffer
    pSrcBuffer fn dt s = Ret (c, ncf, ok) s1 ->
  exists src sp,
    bufs s !! pSrcBuffer = Some src /\
    load_pix (pPixmap src) s = Ret sp s /\
    canflip drmmode_scanout_from_drawable pDraw (priv_bo sp) s = Ret ncf s.
Proof.
  intros H. unfold swap_prepare in H.
  step_u H. name_state H sa.
  apply Dri2Facts.swap_new_cmd_frame in Hstep as (cmd & Hsa & _).
  step_u H. unfold load_buf in Hstep.
  apply Dri2Facts.deref_inv in Hstep as (-> & ? & [= <-] & Hsrc).
  step_u H. unfold load_buf in Hstep.
  apply Dri2Facts.deref_inv in Hstep as (-> & ? & [= <-] & _).
  step_u H. pose proof Hstep as Hpix.
  apply Dri2Facts.readonly_deref in Hstep. subst s0.
  step_u H. rename Hstep into Hcan.
  step_u H. injection H as _ <- _ _.
  match type of Hsrc with _ !! _ = Some ?x => exists x end.
  match type of Hpix with _ = Ret ?x _ => exists x end.
  split; [subst sa; exact Hsrc|].
  split.
  { unfold load_pix, deref in *. subst sa.
    cbn [pixmaps set_cmds set_xlog] in Hpix.
    destruct (pPixmap _) as [q|]; [|discriminate].
    destruct (pixmaps s !! q); [|discriminate].
    injection Hpix as <-. reflexivity. }
  assert (Hv : canflip_view sa = canflip_view s) by (subst sa; reflexivity).
  destruct (respects_canflip drmmode_scanout_from_drawable pDraw _ sa s _ _ Hv Hcan)
    as (t' & Ht' & _).
  pose proof (Dri2Facts.readonly_canflip drmmode_scanout_from_drawable
                pDraw _ _ _ _ Ht') as ->.
  exact Ht'.
Qed.

(** X19: [OMAPDRI2ScheduleSwap] answers TRUE or FALSE.  The verdict [ncf] it
    works with is the answer of [canflip] for the drawable and the BO of
    the source buffer's pixmap, asked in the state the swap was scheduled
    in.  When the switch of the programming mode fails the function
    answers FALSE in the state the switch left.  Otherwise both buffers
    remember that verdict in [previous_canflip], no buffer changes its
    attachment or its pixmap, and a swap that cannot flip (the verdict is
    FALSE, or the screen was resized) answers TRUE and clears the resize
    flag. *)
Theorem schedule_swap_outcome (cl : Z) (pDraw pDstBuffer pSrcBuffer : positive)
    (fn dt r : Z) (s s' : server) :
  OMAPDRI2ScheduleSwap K E drmmode_scanout_from_drawable drmmode_scanout_set
    MAX_SCANOUTS OMAP_USE_PAGE_FLIP_EVENTS cl pDraw pDstBuffer pSrcBuffer
    fn dt s = Ret r s' ->
  exists c ncf ok s1 src sp,
    swap_prepare K E drmmode_scanout_from_drawable cl pDraw pDstBuffer
      pSrcBuffer fn dt s = Ret (c, ncf, ok) s1 /\
    bufs s !! pSrcBuffer = Some src /\
    load_pix (pPixmap src) s = Ret sp s /\
    canflip drmmode_scanout_from_drawable pDraw (priv_bo sp) s = Ret ncf s /\
    (r = TRUE \/ r = FALSE) /\
    (ok = 0 -> r = FALSE /\ s' = s1) /\
    (ok <> 0 ->
       previous_canflip <$> bufs s' !! pSrcBuffer = Some ncf /\
       previous_canflip <$> bufs s' !! pDstBuffer = Some ncf /\
       (forall q, pPixmap <$> bufs s' !! q = pPixmap <$> bufs s !! q) /\
       (forall q, attachment <$> bufs s' !! q = attachment <$> bufs s !! q) /\
       (ncf = 0 \/ has_resized s <> 0 -> r = TRUE /\ has_resized s' = FALSE)).
Proof.
  intros H. unfold OMAPDRI2ScheduleSwap in H. step_inv H.
  destruct a as [[c ncf] ok].
  destruct (swap_prepare_verdict _ _ _ _ _ _ _ _ _ _ _ Hstep)
    as (src & sp & Hsrc & Hsp & Hcan).
  exists c, ncf, ok, s0, src, sp.
  split; [reflexivity|].
  split; [exact Hsrc|]. split; [exact Hsp|]. split; [exact Hcan|].
  pose proof (swap_prepare_keeps_buffers _ _ _ _ _ _ _ _ _ Hstep) as Hfr.
  injection Hfr as Hbufs Hhr.
  destruct (ok =? 0) eqn:Eok.
  - apply Z.eqb_eq in Eok. injection H as <- <-.
    split; [right; reflexivity|]. split; [auto|]. intros Hne. contradiction.
  - apply Z.eqb_neq in Eok.
    split; [exact (swap_issue_boolean _ _ _ _ _ _ _ _ H)|].
    split; [intros Hz; contradiction|]. intros _.
    apply swap_issue_caches in H as (H1 & H2 & H3 & H4 & H5).
    rewrite Hbufs in H3, H4. rewrite Hhr in H5. auto.
Qed.

(** *** A swap that is copied *)

Lemma int32_add (x k : Z) : int32 (int32 x + k) = int32 (x + k).
Proof.
  unfold int32.
  replace ((x + 2 ^ 31) mod 2 ^ 32 - 2 ^ 31 + k + 2 ^ 31)
    with ((x + 2 ^ 31) mod 2 ^ 32 + k) by ring.
  rewrite Zplus_mod_idemp_l. f_equal. f_equal. ring.
Qed.

Lemma insert_as_alter {V} (m : gmap positive V) (a : positive) (v : V)
    (f : V -> V) :
  m !! a = Some v -> <[a := f v]> m = alter f a m.
Proof.
  intros Ha. apply map_eq. intros j. rewrite lookup_alter, lookup_insert.
  destruct (decide (a = j)) as [->|]; [rewrite Ha|]; reflexivity.
Qed.

Lemma pixmap_ref_inv (p : option positive) (s s' : server) :
  pixmap_ref p s = Ret tt s' ->
  exists a, p = Some a /\
    s' = set_pixmaps s
           (alter (fun pm => set_pix_refcnt pm (int32 (pix_refcnt pm + 1))) a
              (pixmaps s)).
Proof.
  intros H. unfold pixmap_ref in H. step_inv H. unfold load_pix in Hstep.
  apply Dri2Facts.deref_inv in Hstep as (-> & a' & -> & Ha).
  cbn [store_pix] in H. injection H as <-. exists a'. split; [reflexivity|].
  f_equal.
  apply (insert_as_alter _ _ _
           (fun pm => set_pix_refcnt pm (int32 (pix_refcnt pm + 1))) Ha).
Qed.

Lemma DestroyPixmap_inv (p : option positive) (s s' : server) :
  DestroyPixmap_ E p s = Ret tt s' ->
  exists a, p = Some a /\
    pixmaps s' = unref_pix a (pixmaps s) /\
    pending_flips s' = pending_flips s /\ cmds s' = cmds s.
Proof.
  intros H. pose proof H as H'. unfold DestroyPixmap_ in H'. step_inv H'.
  unfold load_pix in Hstep.
  apply Dri2Facts.deref_inv in Hstep as (-> & a' & -> & Ha).
  rewrite (Dri2Facts.DestroyPixmap_run E a' _ s Ha) in H. injection H as <-.
  exists a'. auto.
Qed.

Lemma swap_notify_blit_frame (cmd : OMAPDRISwapCmd) :
  type cmd = DRI2_BLIT_COMPLETE ->
  preserves (fun s => (pixmaps s, pending_flips s, cmds s))
    (swap_notify E drmmode_scanout_set MAX_SCANOUTS cmd).
Proof.
  intros Ht. unfold swap_notify. rewrite Ht.
  change (DRI2_BLIT_COMPLETE =? DRI2_BLIT_COMPLETE) with true.
  cbn [negb andb]. frame.
Qed.

Lemma swap_notify_fail_frame (cmd : OMAPDRISwapCmd) :
  Z.land (flags cmd) OMAP_SWAP_FAIL <> 0 ->
  preserves (fun s => (pixmaps s, pending_flips s, cmds s))
    (swap_notify E drmmode_scanout_set MAX_SCANOUTS cmd).
Proof.
  intros Hf. unfold swap_notify.
  destruct (Z.land (flags cmd) OMAP_SWAP_FAIL =? 0) eqn:Ef;
    [apply Z.eqb_eq in Ef; contradiction|].
  apply preserves_ret.
Qed.

Lemma swap_complete_last_inv (c : positive) (cmd : OMAPDRISwapCmd)
    (s s' : server) :
  OMAPDRI2SwapComplete E drmmode_scanout_set MAX_SCANOUTS c s = Ret tt s' ->
  cmds s !! c = Some cmd ->
  preserves (fun s => (pixmaps s, pending_flips s, cmds s))
    (swap_notify E drmmode_scanout_set MAX_SCANOUTS cmd) ->
  swapCount cmd = 0 ->
  exists a b, pSrcPixmap cmd = Some a /\ pDstPixmap cmd = Some b /\
    pixmaps s' = unref_pix b (unref_pix a (pixmaps s)) /\
    pending_flips s' = int32 (pending_flips s - 1) /\
    cmds s' = delete c (cmds s).
Proof.
  intros H Hc Ht Hn. unfold OMAPDRI2SwapComplete in H.
  step_u H. unfold load_cmd in Hstep.
  apply Dri2Facts.deref_inv in Hstep as (-> & ? & [= <-] & Hc').
  rewrite Hc in Hc'. injection Hc' as <-. cbv zeta in H. rewrite Hn in H.
  step_u H. injection Hstep as Hs1.
  change (0 <? int32 (0 - 1)) with false in H. cbv iota in H.
  step_u H. apply Ht in Hstep.
  injection Hstep as Hpix Hpf Hcm.
  unfold swap_cleanup in H.
  step_u H. apply DestroyPixmap_inv in Hstep as (a' & Ha & Hp1 & Hf1 & Hc1).
  step_u H. apply DestroyPixmap_inv in Hstep as (b' & Hb & Hp2 & Hf2 & Hc2).
  step_u H. injection Hstep as Hs4.
  step_u H. unfold xcall_ in Hstep. injection Hstep as _ Hs5.
  injection H as <-. subst. cbn [pixmaps pending_flips cmds set_cmds set_xlog
    set_pending_flips] in *.
  exists a', b'. split; [exact Ha|]. split; [exact Hb|].
  split; [congruence|]. split; [congruence|].
  rewrite Hc2, Hc1, Hcm. apply delete_insert_eq.
Qed.


Ltac counters_kept H :=
  match type of H with
  | ?m ?s = Ret _ ?s' =>
    let Hf := fresh "Hf" in
    assert (Hf : pixmaps s' = pixmaps s /\ pending_flips s' = pending_flips s /\
                 cmds s' = cmds s /\ has_resized s' = has_resized s /\
                 scanouts s' = scanouts s /\ resources s' = resources s)
      by (let Hp := fresh in
          assert (Hp : preserves
                         (fun s => (pixmaps s, pending_flips s, cmds s,
                                    has_resized s, scanouts s, resources s)) m)
            by frame;
          specialize (Hp _ _ _ H); injection Hp; auto 10);
    destruct Hf as (? & ? & ? & ? & ? & ?); clear H
  end.

Lemma priv_bo_alter_refcnt (m : gmap positive PixmapRec) (a q : positive)
    (f : PixmapRec -> Z) :
  priv_bo <$> alter (fun pm => set_pix_refcnt pm (f pm)) a m !! q
  = priv_bo <$> m !! q.
Proof.
  destruct (decide (a = q)) as [->|Hne].
  - rewrite lookup_alter_eq. destruct (m !! q); reflexivity.
  - rewrite lookup_alter_ne by exact Hne. reflexivity.
Qed.

Lemma get_fb_agree (x : option positive) (t t' s : server) (f : Z) :
  dumb t = dumb s ->
  omap_bo_get_fb x t = Ret f t' -> omap_bo_get_fb x s = Ret f s.
Proof.
  intros Hd H. destruct x as [p|]; [|discriminate H].
  cbv [omap_bo_get_fb lift Dumb.omap_bo_fb bind ret Dumb.load] in *.
  rewrite Hd in H. destruct (Dumb.bos (dumb s) !! p); [|discriminate H].
  injection H as <- _. rewrite Dri2Facts.set_dumb_id. reflexivity.
Qed.

Lemma get_fb_readonly (x : option positive) (t t' : server) (f : Z) :
  omap_bo_get_fb x t = Ret f t' -> t' = t.
Proof.
  intros H. destruct x as [p|]; [|discriminate H].
  apply (Dri2Facts.readonly_lift_load p Dumb.fb_id _ _ _ H).
Qed.

(** The choice between flip and blit reads the buffers, the BOs of their
    pixmaps, the BO heap and the resize flag, and nothing else. *)
Lemma can_page_flip_agree (pDstBuffer pSrcBuffer : positive) (ncf : Z)
    (t t' s : server) (c : bool) :
  bufs t = bufs s -> dumb t = dumb s -> has_resized t = has_resized s ->
  (forall q, priv_bo <$> pixmaps t !! q = priv_bo <$> pixmaps s !! q) ->
  can_page_flip pDstBuffer pSrcBuffer ncf t = Ret c t' ->
  can_page_flip pDstBuffer pSrcBuffer ncf s = Ret c s.
Proof.
  intros Hb Hd Hh Hp H. unfold can_page_flip in *.
  assert (Hpix : forall p sp u u',
            load_pix p u = Ret sp u' -> pixmaps u = pixmaps t ->
            u' = u /\ exists sp', load_pix p s = Ret sp' s /\
                                  priv_bo sp' = priv_bo sp).
  { intros p sp u u' Hl Hu. unfold load_pix in *.
    apply Dri2Facts.deref_inv in Hl as (-> & q & -> & Hq).
    split; [reflexivity|]. rewrite Hu in Hq.
    specialize (Hp q). rewrite Hq in Hp. cbn in Hp.
    destruct (pixmaps s !! q) as [sp'|] eqn:Hq'; [|discriminate Hp].
    injection Hp as Hpp. exists sp'.
    split; [apply (Dri2Facts.deref_some pixmaps _ _ _ Hq')|congruence]. }
  step_u H. unfold load_buf in Hstep.
  apply Dri2Facts.deref_inv in Hstep as (-> & ? & [= <-] & Hsrc).
  rewrite Hb in Hsrc.
  unfold bind at 1. unfold load_buf at 1.
  rewrite (Dri2Facts.deref_some bufs _ _ _ Hsrc).
  step_u H. unfold load_buf in Hstep.
  apply Dri2Facts.deref_inv in Hstep as (-> & ? & [= <-] & Hdst).
  rewrite Hb in Hdst.
  unfold bind at 1. unfold load_buf at 1.
  rewrite (Dri2Facts.deref_some bufs _ _ _ Hdst).
  step_u H. apply Hpix in Hstep as (-> & sp' & Hsp & Hbo); [|reflexivity].
  unfold bind at 1. rewrite Hsp, Hbo.
  step_u H. pose proof (get_fb_agree _ _ _ _ _ Hd Hstep) as Hfs.
  apply get_fb_readonly in Hstep. subst s0.
  unfold bind at 1. rewrite Hfs. clear Hfs.
  step_u H. apply Hpix in Hstep as (-> & dp' & Hdp & Hbo'); [|reflexivity].
  unfold bind at 1. rewrite Hdp, Hbo'.
  step_u H. pose proof (get_fb_agree _ _ _ _ _ Hd Hstep) as Hfd.
  apply get_fb_readonly in Hstep. subst s0.
  unfold bind at 1. rewrite Hfd. clear Hfd.
  step_u H. injection Hstep as <- <-. injection H as <- _.
  unfold bind, get, ret. rewrite Hh. reflexivity.
Qed.

(** [swap_issue] up to its last decision: the references and the pending
    flip taken, the rest of the work still to do. *)
Lemma swap_issue_split_full (c pDraw pDstBuffer pSrcBuffer : positive) (ncf r : Z)
    (s s' : server) (cmd : OMAPDRISwapCmd) :
  swap_issue E drmmode_scanout_set MAX_SCANOUTS OMAP_USE_PAGE_FLIP_EVENTS
    c pDraw pDstBuffer pSrcBuffer ncf s = Ret r s' ->
  cmds s !! c = Some cmd ->
  exists a b src_fb_id dst_fb_id sm,
    pSrcPixmap cmd = Some a /\ pDstPixmap cmd = Some b /\
    pixmaps sm =
      alter (fun pm => set_pix_refcnt pm (int32 (pix_refcnt pm + 1))) b
        (alter (fun pm => set_pix_refcnt pm (int32 (pix_refcnt pm + 1))) a
           (pixmaps s)) /\
    pending_flips sm = int32 (pending_flips s + 1) /\
    cmds sm = cmds s /\
    scanouts sm = scanouts s /\ resources sm = resources s /\
    can_page_flip pDstBuffer pSrcBuffer ncf s =
      Ret (negb (src_fb_id =? 0) && negb (dst_fb_id =? 0) && negb (ncf =? 0)
           && (has_resized s =? 0)) s /\
    (if negb (src_fb_id =? 0) && negb (dst_fb_id =? 0) && negb (ncf =? 0)
        && (has_resized s =? 0)
     then
       update_cmd c (fun cm => set_type cm DRI2_FLIP_COMPLETE) ;;;
       r <- xcall_ E (PageFlip pDraw src_fb_id c) ;;
       if r <? 0 then
         update_cmd c (fun cm => set_flags cm (Z.lor (flags cm) OMAP_SWAP_FAIL)) ;;;
         let cnt := if OMAP_USE_PAGE_FLIP_EVENTS then int32 (- (r + 1)) else 0 in
         update_cmd c (fun cm => set_swapCount cm cnt) ;;;
         (if cnt =? 0
          then OMAPDRI2SwapComplete E drmmode_scanout_set MAX_SCANOUTS c
          else ret tt) ;;;
         ret FALSE
       else
         (if r =? 0
          then update_cmd c
                 (fun cm => set_flags cm (Z.lor (flags cm) OMAP_SWAP_FAKE_FLIP))
          else ret tt) ;;;
         let cnt := if OMAP_USE_PAGE_FLIP_EVENTS then r else 0 in
         update_cmd c (fun cm => set_swapCount cm cnt) ;;;
         (if cnt =? 0
          then OMAPDRI2SwapComplete E drmmode_scanout_set MAX_SCANOUTS c
          else ret tt) ;;;
         ret TRUE
     else
       OMAPDRI2CopyRegion E pDraw pDstBuffer pSrcBuffer ;;;
       update_cmd c (fun cm => set_type cm DRI2_BLIT_COMPLETE) ;;;
       OMAPDRI2SwapComplete E drmmode_scanout_set MAX_SCANOUTS c ;;;
       modify (fun s => set_has_resized s FALSE) ;;;
       ret TRUE) sm = Ret r s'.
Proof.
  intros H Hc. unfold swap_issue in H.
  step_u H. unfold load_cmd in Hstep.
  apply Dri2Facts.deref_inv in Hstep as (-> & ? & [= <-] & Hc').
  rewrite Hc in Hc'. injection Hc' as <-.
  step_u H. apply pixmap_ref_inv in Hstep as (a' & Ha & Hs1).
  step_u H. apply pixmap_ref_inv in Hstep as (b' & Hb & Hs2).
  step_u H. injection Hstep as Hs3.
  step_u H. pose proof Hstep as Hk5. counters_kept Hstep.
  step_u H. pose proof Hstep as Hk6. counters_kept Hstep.
  step_u H. pose proof Hstep as Hk7. counters_kept Hstep.
  step_u H. pose proof Hstep as Hk8. counters_kept Hstep.
  step_u H. pose proof Hstep as Hk9. counters_kept Hstep.
  step_u H. pose proof Hstep as Hk10. counters_kept Hstep.
  step_u H. pose proof Hstep as Hk11. pose proof Hstep as Hhr.
  injection Hhr as Hhr _.
  counters_kept Hstep.
  step_u H. counters_kept Hstep.
  step_u H. counters_kept Hstep.
  step_u H. counters_kept Hstep.
  step_u H. counters_kept Hstep.
  assert (Hp2 : pixmaps s2 =
            alter (fun pm => set_pix_refcnt pm (int32 (pix_refcnt pm + 1))) b'
              (alter (fun pm => set_pix_refcnt pm (int32 (pix_refcnt pm + 1))) a'
                 (pixmaps s))) by (subst s2 s1 s0; reflexivity).
  assert (Hf2 : pending_flips s2 = int32 (pending_flips s + 1))
    by (subst s2 s1 s0; reflexivity).
  assert (Hc2 : cmds s2 = cmds s) by (subst s2 s1 s0; reflexivity).
  assert (Hr2 : has_resized s2 = has_resized s) by (subst s2 s1 s0; reflexivity).
  assert (Hsc2 : scanouts s2 = scanouts s) by (subst s2 s1 s0; reflexivity).
  assert (Hre2 : resources s2 = resources s) by (subst s2 s1 s0; reflexivity).
  assert (Hb2 : bufs s2 = bufs s) by (subst s2 s1 s0; reflexivity).
  assert (Hd2 : dumb s2 = dumb s) by (subst s2 s1 s0; reflexivity).
  clear Hs1 Hs2 Hs3.
  assert (Hpix : pixmaps s13 = pixmaps s2) by congruence.
  assert (Hpf : pending_flips s13 = pending_flips s2) by congruence.
  assert (Hcm : cmds s13 = cmds s2) by congruence.
  assert (Hsc : scanouts s13 = scanouts s) by congruence.
  assert (Hre : resources s13 = resources s) by congruence.
  assert (Hr : a5 = has_resized s) by congruence.
  assert (Hdec2 : can_page_flip pDstBuffer pSrcBuffer ncf s2 =
                  Ret (negb (a2 =? 0) && negb (a4 =? 0) && negb (ncf =? 0)
                       && (a5 =? 0)) s9).
  { unfold can_page_flip.
    unfold bind at 1. rewrite Hk5. unfold bind at 1. rewrite Hk6.
    unfold bind at 1. rewrite Hk7. unfold bind at 1. rewrite Hk8.
    unfold bind at 1. rewrite Hk9. unfold bind at 1. rewrite Hk10.
    unfold bind at 1. rewrite Hk11. reflexivity. }
  assert (Hdec : can_page_flip pDstBuffer pSrcBuffer ncf s =
                 Ret (negb (a2 =? 0) && negb (a4 =? 0) && negb (ncf =? 0)
                      && (a5 =? 0)) s).
  { apply (can_page_flip_agree _ _ _ s2 s9 s _ Hb2 Hd2 Hr2); [|exact Hdec2].
    intros q. rewrite Hp2, !priv_bo_alter_refcnt. reflexivity. }
  clear Hk5 Hk6 Hk7 Hk8 Hk9 Hk10 Hk11 Hdec2.
  rewrite Hp2 in Hpix. rewrite Hf2 in Hpf. rewrite Hc2 in Hcm.
  rewrite Hr in H, Hdec.
  exists a', b', a2, a4, s13.
  split; [exact Ha|]. split; [exact Hb|]. split; [exact Hpix|].
  split; [exact Hpf|]. split; [exact Hcm|]. split; [exact Hsc|].
  split; [exact Hre|]. split; [exact Hdec|exact H].
Qed.

Lemma swap_issue_split (c pDraw pDstBuffer pSrcBuffer : positive) (ncf r : Z)
    (s s' : server) (cmd : OMAPDRISwapCmd) :
  swap_issue E drmmode_scanout_set MAX_SCANOUTS OMAP_USE_PAGE_FLIP_EVENTS
    c pDraw pDstBuffer pSrcBuffer ncf s = Ret r s' ->
  cmds s !! c = Some cmd ->
  exists a b src_fb_id dst_fb_id sm,
    pSrcPixmap cmd = Some a /\ pDstPixmap cmd = Some b /\
    pixmaps sm =
      alter (fun pm => set_pix_refcnt pm (int32 (pix_refcnt pm + 1))) b
        (alter (fun pm => set_pix_refcnt pm (int32 (pix_refcnt pm + 1))) a
           (pixmaps s)) /\
    pending_flips sm = int32 (pending_flips s + 1) /\
    cmds sm = cmds s /\
    (if negb (src_fb_id =? 0) && negb (dst_fb_id =? 0) && negb (ncf =? 0)
        && (has_resized s =? 0)
     then
       update_cmd c (fun cm => set_type cm DRI2_FLIP_COMPLETE) ;;;
       r <- xcall_ E (PageFlip pDraw src_fb_id c) ;;
       if r <? 0 then
         update_cmd c (fun cm => set_flags cm (Z.lor (flags cm) OMAP_SWAP_FAIL)) ;;;
         let cnt := if OMAP_USE_PAGE_FLIP_EVENTS then int32 (- (r + 1)) else 0 in
         update_cmd c (fun cm => set_swapCount cm cnt) ;;;
         (if cnt =? 0
          then OMAPDRI2SwapComplete E drmmode_scanout_set MAX_SCANOUTS c
          else ret tt) ;;;
         ret FALSE
       else
         (if r =? 0
          then update_cmd c
                 (fun cm => set_flags cm (Z.lor (flags cm) OMAP_SWAP_FAKE_FLIP))
          else ret tt) ;;;
         let cnt := if OMAP_USE_PAGE_FLIP_EVENTS then r else 0 in
         update_cmd c (fun cm => set_swapCount cm cnt) ;;;
         (if cnt =? 0
          then OMAPDRI2SwapComplete E drmmode_scanout_set MAX_SCANOUTS c
          else ret tt) ;;;
         ret TRUE
     else
       OMAPDRI2CopyRegion E pDraw pDstBuffer pSrcBuffer ;;;
       update_cmd c (fun cm => set_type cm DRI2_BLIT_COMPLETE) ;;;
       OMAPDRI2SwapComplete E drmmode_scanout_set MAX_SCANOUTS c ;;;
       modify (fun s => set_has_resized s FALSE) ;;;
       ret TRUE) sm = Ret r s'.
Proof.
  intros H Hc.
  destruct (swap_issue_split_full _ _ _ _ _ _ _ _ _ H Hc)
    as (a & b & fs & fd & sm & Ha & Hb & Hpix & Hpf & Hcm & _ & _ & _ & Hrest).
  exists a, b, fs, fd, sm. auto 10.
Qed.

Lemma swap_issue_blit (c pDraw pDstBuffer pSrcBuffer : positive) (ncf r : Z)
    (s s' : server) (cmd : OMAPDRISwapCmd) :
  swap_issue E drmmode_scanout_set MAX_SCANOUTS OMAP_USE_PAGE_FLIP_EVENTS
    c pDraw pDstBuffer pSrcBuffer ncf s = Ret r s' ->
  cmds s !! c = Some cmd -> swapCount cmd = 0 ->
  ncf = 0 \/ has_resized s <> 0 ->
  exists a b, pSrcPixmap cmd = Some a /\ pDstPixmap cmd = Some b /\
    pixmaps s' =
      unref_pix b (unref_pix a
        (alter (fun pm => set_pix_refcnt pm (int32 (pix_refcnt pm + 1))) b
           (alter (fun pm => set_pix_refcnt pm (int32 (pix_refcnt pm + 1))) a
              (pixmaps s)))) /\
    pending_flips s' = int32 (int32 (pending_flips s + 1) - 1) /\
    cmds s' = delete c (cmds s).
Proof.
  intros H Hc Hn Hblit.
  destruct (swap_issue_split _ _ _ _ _ _ _ _ _ H Hc)
    as (a' & b' & fs & fd & sm & Ha & Hb & Hpix & Hpf & Hcm & Hrest).
  clear H. rename Hrest into H.
  assert (Hcond : negb (fs =? 0) && negb (fd =? 0) && negb (ncf =? 0)
                  && (has_resized s =? 0) = false).
  { destruct Hblit as [-> | Hblit].
    - cbn. rewrite andb_false_r. reflexivity.
    - apply Z.eqb_neq in Hblit. rewrite Hblit. apply andb_false_r. }
  rewrite Hcond in H. clear Hcond.
  step_u H. name_state H s14. counters_kept Hstep.
  step_u H. name_state H s15.
  unfold update_cmd in Hstep. step_u Hstep. unfold load_cmd in Hstep0.
  apply Dri2Facts.deref_inv in Hstep0 as (-> & ? & [= <-] & Hc14).
  injection Hstep as Hs15.
  step_u H. name_state H s16.
  assert (Hc15 : cmds s15 !! c = Some (set_type cmd DRI2_BLIT_COMPLETE)).
  { subst s15. cbn [cmds set_cmds]. rewrite lookup_insert_eq.
    f_equal. f_equal. congruence. }
  destruct (swap_complete_last_inv c _ _ _ Hstep Hc15
              (swap_notify_blit_frame (set_type cmd DRI2_BLIT_COMPLETE)
                 eq_refl) Hn)
    as (a'' & b'' & Ha' & Hb' & Hp16 & Hf16 & Hc16).
  cbn [pSrcPixmap pDstPixmap set_type] in Ha', Hb'.
  rewrite Ha in Ha'. rewrite Hb in Hb'. injection Ha' as <-. injection Hb' as <-.
  clear Hstep.
  step_u H. injection Hstep as Hs17. injection H as _ <-. rewrite <- Hs17.
  cbn [pixmaps pending_flips cmds set_has_resized].
  exists a', b'. split; [exact Ha|]. split; [exact Hb|].
  subst s15. cbn [pixmaps pending_flips cmds set_cmds] in *.
  split; [congruence|]. split; [congruence|].
  rewrite Hc16, delete_insert_eq. congruence.
Qed.


Lemma int32_sub (x k : Z) : int32 (int32 x - k) = int32 (x - k).
Proof. unfold Z.sub. apply int32_add. Qed.

Lemma int32_up_down (n : Z) :
  INT_MIN <= n <= INT_MAX -> int32 (int32 (n + 1) - 1) = n.
Proof.
  intros Hn. rewrite int32_sub. replace (n + 1 - 1) with n by ring.
  apply int32_id, Hn.
Qed.

Lemma int32_up_up_down_down (n : Z) :
  INT_MIN <= n <= INT_MAX ->
  int32 (int32 (int32 (int32 (n + 1) + 1) - 1) - 1) = n.
Proof.
  intros Hn. rewrite int32_sub.
  replace (int32 (int32 (n + 1) + 1) - 1 - 1)
    with (int32 (int32 (n + 1) + 1) - 2) by ring.
  rewrite int32_sub.
  replace (int32 (n + 1) + 1 - 2) with (int32 (n + 1) - 1) by ring.
  apply int32_up_down, Hn.
Qed.

Lemma pixmap_refs_round_trip (m : gmap positive PixmapRec) (a b : positive) :
  (forall q pm, m !! q = Some pm -> INT_MIN <= pix_refcnt pm <= INT_MAX) ->
  unref_pix b (unref_pix a
    (alter (fun pm => set_pix_refcnt pm (int32 (pix_refcnt pm + 1))) b
       (alter (fun pm => set_pix_refcnt pm (int32 (pix_refcnt pm + 1))) a m)))
  = m.
Proof.
  intros Hr. apply map_eq. intros q. unfold unref_pix.
  destruct (decide (b = q)) as [->|Hb]; destruct (decide (a = q)) as [->|Ha];
    repeat (rewrite lookup_alter_eq || rewrite lookup_alter_ne by assumption);
    try reflexivity;
    (destruct (m !! q) as [pm|] eqn:Hq; [|reflexivity]);
    specialize (Hr q pm Hq); destruct pm as [n bo]; cbn [pix_refcnt] in Hr;
    cbn; unfold set_pix_refcnt; cbn [pix_refcnt priv_bo]; f_equal; f_equal.
  - apply int32_up_up_down_down, Hr.
  - apply int32_up_down, Hr.
  - apply int32_up_down, Hr.
Qed.

Lemma swap_prepare_cmd (cl : Z) (pDraw pDstBuffer pSrcBuffer : positive)
    (fn dt : Z) (s s1 : server) (c : positive) (ncf ok : Z) :
  swap_prepare K E drmmode_scanout_from_drawable cl pDraw pDstBuffer
    pSrcBuffer fn dt s = Ret (c, ncf, ok) s1 ->
  exists cmd, cmds s1 !! c = Some cmd /\ swapCount cmd = 0 /\ flags cmd = 0 /\
    client cmd = cl /\ func cmd = fn /\ data cmd = dt.
Proof.
  intros H. unfold swap_prepare in H. step_u H. name_state H sa.
  assert (Hc : exists cmd, cmds sa !! a = Some cmd /\ swapCount cmd = 0 /\
             flags cmd = 0 /\ client cmd = cl /\ func cmd = fn /\
             data cmd = dt).
  { unfold swap_new_cmd in Hstep.
    step_u Hstep. step_u Hstep. destruct (_ =? 0); [discriminate|].
    step_u Hstep. step_u Hstep. step_u Hstep. step_u Hstep. step_u Hstep.
    step_u Hstep. injection Hstep as <- <-.
    match goal with Hs : store_cmd _ _ _ = Ret _ _ |- _ =>
      injection Hs as <- end.
    match goal with Hs : get _ _ = Ret _ _ |- _ =>
      injection Hs as Hfr Hst end.
    cbn [cmds set_cmds]. eexists. rewrite lookup_insert_eq.
    split; [reflexivity|]. cbn. auto. }
  clear Hstep. destruct Hc as (cmd & Hc & Hrest). exists cmd.
  split; [|exact Hrest].
  assert (Hp : cmds s1 = cmds sa /\ a = c).
  { step_u H. match goal with Hs : _ = Ret _ _ |- _ =>
      let Hf := fresh in
      assert (Hf : cmds _ = cmds sa) by
        (refine ((_ : preserves cmds _) _ _ _ Hs); frame); clear Hs end.
    step_u H. match goal with Hs : load_buf _ _ = Ret _ _ |- _ =>
      let Hf := fresh in
      assert (Hf : cmds _ = cmds _) by
        (refine ((_ : preserves cmds _) _ _ _ Hs); frame); clear Hs end.
    step_u H. match goal with Hs : load_pix _ _ = Ret _ _ |- _ =>
      let Hf := fresh in
      assert (Hf : cmds _ = cmds _) by
        (refine ((_ : preserves cmds _) _ _ _ Hs); frame); clear Hs end.
    step_u H. match goal with Hs : canflip _ _ _ _ = Ret _ _ |- _ =>
      let Hf := fresh in
      assert (Hf : cmds _ = cmds _) by
        (refine ((_ : preserves cmds _) _ _ _ Hs); unfold canflip; frame);
      clear Hs end.
    step_u H. match goal with Hs : swap_rebind _ _ _ _ _ _ _ = Ret _ _ |- _ =>
      let Hf := fresh in
      assert (Hf : cmds _ = cmds _) by
        (refine ((_ : preserves cmds _) _ _ _ Hs); unfold swap_rebind; frame);
      clear Hs end.
    injection H as <- _ _ <-. split; [congruence|reflexivity]. }
  destruct Hp as [-> <-]. exact Hc.
Qed.

(** X20: a swap that cannot flip (the [canflip] verdict is FALSE, or the screen
    was resized) is complete when [OMAPDRI2ScheduleSwap] returns: the
    command allocated for it has been freed again, [pending_flips] and every
    pixmap's reference count are back at their values from before the call,
    and no pixmap has changed its BO since the mode switch.  The counters
    are C [int]s, so they are taken within the [int] range at the start. *)
Theorem blit_swap_is_synchronous (cl : Z) (pDraw pDstBuffer pSrcBuffer : positive)
    (fn dt r : Z) (s s1 s' : server) (c : positive) (ncf ok : Z) :
  swap_prepare K E drmmode_scanout_from_drawable cl pDraw pDstBuffer
    pSrcBuffer fn dt s = Ret (c, ncf, ok) s1 ->
  ok <> 0 -> ncf = 0 \/ has_resized s <> 0 ->
  (forall q pm, pixmaps s !! q = Some pm ->
     INT_MIN <= pix_refcnt pm <= INT_MAX) ->
  INT_MIN <= pending_flips s <= INT_MAX ->
  OMAPDRI2ScheduleSwap K E drmmode_scanout_from_drawable drmmode_scanout_set
    MAX_SCANOUTS OMAP_USE_PAGE_FLIP_EVENTS cl pDraw pDstBuffer pSrcBuffer
    fn dt s = Ret r s' ->
  cmds s' = cmds s /\ pending_flips s' = pending_flips s /\
  refcnts (pixmaps s') = refcnts (pixmaps s) /\ pixmaps s' = pixmaps s1.
Proof.
  intros Hprep Hok Hblit Hrange Hpf H.
  unfold OMAPDRI2ScheduleSwap in H. unfold bind at 1 in H.
  rewrite Hprep in H. apply Z.eqb_neq in Hok. rewrite Hok in H.
  destruct (swap_prepare_cmd _ _ _ _ _ _ _ _ _ _ _ Hprep)
    as (cmd & Hc & Hn & _).
  pose proof (swap_prepare_keeps_buffers _ _ _ _ _ _ _ _ _ Hprep) as Hfr.
  injection Hfr as _ Hhr.
  pose proof Hprep as Hprep'.
  apply Dri2Facts.swap_prepare_frame in Hprep'
    as (Hrc & Hpf1 & (cmd' & Hcm & Hfresh) & _).
  rewrite <- Hhr in Hblit.
  destruct (swap_issue_blit _ _ _ _ _ _ _ _ _ H Hc Hn Hblit)
    as (a & b & _ & _ & Hpix & Hpf' & Hcm').
  assert (Hrange1 : forall q pm, pixmaps s1 !! q = Some pm ->
            INT_MIN <= pix_refcnt pm <= INT_MAX).
  { intros q pm Hq.
    assert (Hl : refcnts (pixmaps s) !! q = Some (pix_refcnt pm)).
    { rewrite <- Hrc. unfold refcnts. rewrite lookup_fmap, Hq. reflexivity. }
    unfold refcnts in Hl. rewrite lookup_fmap in Hl.
    destruct (pixmaps s !! q) as [pm0|] eqn:Hq0; [|discriminate].
    injection Hl as <-. exact (Hrange q pm0 Hq0). }
  rewrite (pixmap_refs_round_trip _ a b Hrange1) in Hpix.
  split; [rewrite Hcm', Hcm, delete_insert_eq; apply delete_id; exact Hfresh|].
  split; [rewrite Hpf', Hpf1; apply int32_up_down; exact Hpf|].
  split; [rewrite Hpix; exact Hrc|exact Hpix].
Qed.

(** *** The completion of a blit *)

Lemma update_cmd_inv (c : positive) (f : OMAPDRISwapCmd -> OMAPDRISwapCmd)
    (s s' : server) :
  update_cmd c f s = Ret tt s' ->
  exists cm, cmds s !! c = Some cm /\
    s' = set_cmds s (<[c := f cm]> (cmds s)).
Proof.
  intros H. unfold update_cmd in H. step_u H. unfold load_cmd in Hstep.
  apply Dri2Facts.deref_inv in Hstep as (-> & ? & [= <-] & Hc).
  injection H as <-. eauto.
Qed.

Lemma swap_prepare_registry (cl : Z) (pDraw pDstBuffer pSrcBuffer : positive)
    (fn dt : Z) :
  preserves (fun s => (scanouts s, resources s))
    (swap_prepare K E drmmode_scanout_from_drawable cl pDraw pDstBuffer
       pSrcBuffer fn dt).
Proof. unfold swap_prepare, swap_new_cmd, canflip, swap_rebind. frame. Qed.

(** The command [OMAPDRI2ScheduleSwap] allocates carries the id of the
    drawable it was called for. *)
Lemma swap_prepare_draw_id (cl : Z) (pDraw pDstBuffer pSrcBuffer : positive)
    (fn dt : Z) (s s1 : server) (c : positive) (ncf ok : Z) :
  swap_prepare K E drmmode_scanout_from_drawable cl pDraw pDstBuffer
    pSrcBuffer fn dt s = Ret (c, ncf, ok) s1 ->
  exists d cmd, draws s !! pDraw = Some d /\ cmds s1 !! c = Some cmd /\
    draw_id cmd = id d.
Proof.
  intros H. unfold swap_prepare in H. step_u H. name_state H sa.
  assert (Hc : exists d cmd, draws s !! pDraw = Some d /\
             cmds sa !! a = Some cmd /\ draw_id cmd = id d).
  { unfold swap_new_cmd in Hstep.
    step_u Hstep.
    match goal with Hs : load_draw _ _ = Ret _ _ |- _ =>
      apply Dri2Facts.deref_inv in Hs as (-> & ? & [= <-] & Hd) end.
    step_u Hstep. destruct (_ =? 0); [discriminate|].
    step_u Hstep. step_u Hstep. step_u Hstep. step_u Hstep. step_u Hstep.
    step_u Hstep. injection Hstep as <- <-.
    match goal with Hs : store_cmd _ _ _ = Ret _ _ |- _ =>
      injection Hs as <- end.
    match goal with Hs : get _ _ = Ret _ _ |- _ =>
      injection Hs as Hfr Hst end.
    cbn [cmds set_cmds]. eexists _, _. rewrite lookup_insert_eq.
    split; [exact Hd|]. split; reflexivity. }
  clear Hstep. destruct Hc as (d & cmd & Hd & Hc & Hrest). exists d, cmd.
  split; [exact Hd|]. split; [|exact Hrest].
  assert (Hp : cmds s1 = cmds sa /\ a = c).
  { step_u H. match goal with Hs : _ = Ret _ _ |- _ =>
      let Hf := fresh in
      assert (Hf : cmds _ = cmds sa) by
        (refine ((_ : preserves cmds _) _ _ _ Hs); frame); clear Hs end.
    step_u H. match goal with Hs : load_buf _ _ = Ret _ _ |- _ =>
      let Hf := fresh in
      assert (Hf : cmds _ = cmds _) by
        (refine ((_ : preserves cmds _) _ _ _ Hs); frame); clear Hs end.
    step_u H. match goal with Hs : load_pix _ _ = Ret _ _ |- _ =>
      let Hf := fresh in
      assert (Hf : cmds _ = cmds _) by
        (refine ((_ : preserves cmds _) _ _ _ Hs); frame); clear Hs end.
    step_u H. match goal with Hs : canflip _ _ _ _ = Ret _ _ |- _ =>
      let Hf := fresh in
      assert (Hf : cmds _ = cmds _) by
        (refine ((_ : preserves cmds _) _ _ _ Hs); unfold canflip; frame);
      clear Hs end.
    step_u H. match goal with Hs : swap_rebind _ _ _ _ _ _ _ = Ret _ _ |- _ =>
      let Hf := fresh in
      assert (Hf : cmds _ = cmds _) by
        (refine ((_ : preserves cmds _) _ _ _ Hs); unfold swap_rebind; frame);
      clear Hs end.
    injection H as <- _ _ <-. split; [congruence|reflexivity]. }
  destruct Hp as [-> <-]. exact Hc.
Qed.

Lemma swap_cleanup_keeps_scanouts (c : positive) (cmd : OMAPDRISwapCmd) :
  preserves scanouts (swap_cleanup E c cmd).
Proof. unfold swap_cleanup. frame. Qed.

(** The scanout registry after the last completion signal of a blit that is
    notified. *)
Lemma swap_complete_blit_scanouts (c : positive) (cmd : OMAPDRISwapCmd)
    (s s' : server) (dr : positive) :
  OMAPDRI2SwapComplete E drmmode_scanout_set MAX_SCANOUTS c s = Ret tt s' ->
  cmds s !! c = Some cmd -> int32 (swapCount cmd - 1) <= 0 ->
  type cmd = DRI2_BLIT_COMPLETE ->
  Z.land (flags cmd) OMAP_SWAP_FAIL = 0 ->
  resources s !! draw_id cmd = Some dr ->
  scanouts s' = invalidate_scanouts 0 MAX_SCANOUTS (scanouts s).
Proof.
  intros H Hc Hn Ht Hf Hres.
  rewrite (Dri2Facts.swap_complete_final _ _ _ c cmd s Hc Hn) in H.
  unfold bind at 1 in H.
  pose proof (Dri2Facts.swap_notify_blit E drmmode_scanout_set MAX_SCANOUTS cmd
                (set_cmds s (<[c := set_swapCount cmd (int32 (swapCount cmd - 1))]>
                               (cmds s))) dr Ht Hf Hres) as Hnot.
  cbv zeta in Hnot. rewrite Hnot in H.
  apply swap_cleanup_keeps_scanouts in H. exact H.
Qed.

(** The blit branch of [swap_issue]: the copy, then the command is typed as
    a blit completion and completed at once. *)
Lemma swap_issue_blit_run (c pDraw pDstBuffer pSrcBuffer : positive) (ncf r : Z)
    (s s' : server) (cmd : OMAPDRISwapCmd) :
  swap_issue E drmmode_scanout_set MAX_SCANOUTS OMAP_USE_PAGE_FLIP_EVENTS
    c pDraw pDstBuffer pSrcBuffer ncf s = Ret r s' ->
  cmds s !! c = Some cmd ->
  can_page_flip pDstBuffer pSrcBuffer ncf s = Ret false s ->
  exists sb sc,
    cmds sb !! c = Some (set_type cmd DRI2_BLIT_COMPLETE) /\
    scanouts sb = scanouts s /\ resources sb = resources s /\
    OMAPDRI2SwapComplete E drmmode_scanout_set MAX_SCANOUTS c sb = Ret tt sc /\
    s' = set_has_resized sc FALSE /\ r = TRUE.
Proof.
  intros H Hc Hdec.
  destruct (swap_issue_split_full _ _ _ _ _ _ _ _ _ H Hc)
    as (a' & b' & fs & fd & sm & _ & _ & _ & _ & Hcm & Hsc & Hre & Hdec' & Hrest).
  clear H. rename Hrest into H.
  rewrite Hdec in Hdec'. injection Hdec' as Hcond. rewrite <- Hcond in H.
  step_u H. name_state H s14. counters_kept Hstep.
  step_u H. name_state H s15.
  apply update_cmd_inv in Hstep as (cm & Hc14 & Hs15).
  step_u H. name_state H s16.
  step_u H. injection Hstep0 as Hs17. injection H as <- <-.
  exists s15, s16.
  assert (Hcm' : cm = cmd) by congruence. subst cm.
  split; [subst s15; cbn [cmds set_cmds]; apply lookup_insert_eq|].
  split; [subst s15; cbn [scanouts set_cmds]; congruence|].
  split; [subst s15; cbn [resources set_cmds]; congruence|].
  split; [exact Hstep|]. split; [symmetry; exact Hs17|reflexivity].
Qed.

(** C4: a swap command classified as a blit completion has every slot of
    the scanout registry marked invalid when it is finalized.  First part:
    the last completion signal ([swapCount] reaches zero or below) of a
    command of type [DRI2_BLIT_COMPLETE] that is not marked failed and whose
    [draw_id] resolves returns, and the registry it leaves is the one it
    found with every [valid] set to FALSE.  Second part: every blit
    completion [OMAPDRI2ScheduleSwap] produces is of that kind.  The type is
    set in the branch taken when [can_page_flip] says no; there the command
    [sb] holds is the one allocated for the swap, typed
    [DRI2_BLIT_COMPLETE], with [flags] 0 and the id of the drawable, which
    the X server resolves; it is finalized by the call of
    [OMAPDRI2SwapComplete] that follows, and the registry that call leaves
    is the one the swap started with, every [valid] set to FALSE; the swap
    returns TRUE in that state with [has_resized] cleared. *)
Theorem blit_completion_invalidates :
  (forall (c : positive) (cmd : OMAPDRISwapCmd) (s : server)
          (a b dr : positive) (pa pb : PixmapRec),
     cmds s !! c = Some cmd -> int32 (swapCount cmd - 1) <= 0 ->
     type cmd = DRI2_BLIT_COMPLETE ->
     Z.land (flags cmd) OMAP_SWAP_FAIL = 0 ->
     resources s !! draw_id cmd = Some dr ->
     pSrcPixmap cmd = Some a -> pDstPixmap cmd = Some b ->
     pixmaps s !! a = Some pa -> pixmaps s !! b = Some pb ->
     (length (scanouts s) <= MAX_SCANOUTS)%nat ->
     exists s',
       OMAPDRI2SwapComplete E drmmode_scanout_set MAX_SCANOUTS c s = Ret tt s' /\
       scanouts s' = (fun sl => set_valid sl FALSE) <$> scanouts s /\
       Forall (fun sl => valid sl = FALSE) (scanouts s')) /\
  (forall (cl : Z) (pDraw pDstBuffer pSrcBuffer : positive) (fn dt r : Z)
          (s s1 s' : server) (c : positive) (ncf ok : Z) (d : DrawableRec)
          (dr : positive),
     draws s !! pDraw = Some d -> resources s !! id d = Some dr ->
     (length (scanouts s) <= MAX_SCANOUTS)%nat ->
     swap_prepare K E drmmode_scanout_from_drawable cl pDraw pDstBuffer
       pSrcBuffer fn dt s = Ret (c, ncf, ok) s1 ->
     ok <> 0 ->
     can_page_flip pDstBuffer pSrcBuffer ncf s1 = Ret false s1 ->
     OMAPDRI2ScheduleSwap K E drmmode_scanout_from_drawable drmmode_scanout_set
       MAX_SCANOUTS OMAP_USE_PAGE_FLIP_EVENTS cl pDraw pDstBuffer pSrcBuffer
       fn dt s = Ret r s' ->
     exists cmd sb sc,
       cmds sb !! c = Some cmd /\ type cmd = DRI2_BLIT_COMPLETE /\
       swapCount cmd = 0 /\ flags cmd = 0 /\ draw_id cmd = id d /\
       resources sb !! draw_id cmd = Some dr /\
       scanouts sb = scanouts s /\
       OMAPDRI2SwapComplete E drmmode_scanout_set MAX_SCANOUTS c sb = Ret tt sc /\
       scanouts sc = (fun sl => set_valid sl FALSE) <$> scanouts s /\
       s' = set_has_resized sc FALSE /\ r = TRUE /\
       scanouts s' = (fun sl => set_valid sl FALSE) <$> scanouts s /\
       Forall (fun sl => valid sl = FALSE) (scanouts s')).
Proof.
  split.
  - intros c cmd s a b dr pa pb.
    apply Dri2Facts.final_blit_invalidates.
  - intros cl pDraw pDstBuffer pSrcBuffer fn dt r s s1 s' c ncf ok d dr
           Hd Hres Hlen Hprep Hok Hdec H.
    unfold OMAPDRI2ScheduleSwap in H. unfold bind at 1 in H.
    rewrite Hprep in H. apply Z.eqb_neq in Hok. rewrite Hok in H.
    destruct (swap_prepare_cmd _ _ _ _ _ _ _ _ _ _ _ Hprep)
      as (cmd & Hc & Hn & Hfl & _).
    destruct (swap_prepare_draw_id _ _ _ _ _ _ _ _ _ _ _ Hprep)
      as (d' & cmd' & Hd' & Hc' & Hid).
    assert (d' = d) by congruence. assert (cmd' = cmd) by congruence.
    subst d' cmd'.
    pose proof (swap_prepare_registry _ _ _ _ _ _ _ _ _ Hprep) as Hreg.
    injection Hreg as Hsc1 Hre1.
    destruct (swap_issue_blit_run _ _ _ _ _ _ _ _ _ H Hc Hdec)
      as (sb & sc & Hcb & Hscb & Hreb & Hrun & Hs' & Hr).
    assert (Hresb : resources sb !! draw_id cmd = Some dr)
      by (rewrite Hreb, Hre1, Hid; exact Hres).
    assert (Hinv : scanouts sc = (fun sl => set_valid sl FALSE) <$> scanouts s).
    { rewrite (swap_complete_blit_scanouts c _ sb sc dr Hrun Hcb); cbn [swapCount type flags draw_id set_type];
        [|rewrite Hn; vm_compute; discriminate|reflexivity
         |rewrite Hfl; reflexivity|exact Hresb].
      rewrite Hscb, Hsc1.
      apply Dri2Facts.invalidate_scanouts_all. exact Hlen. }
    exists (set_type cmd DRI2_BLIT_COMPLETE), sb, sc.
    split; [exact Hcb|]. split; [reflexivity|].
    split; [exact Hn|]. split; [exact Hfl|]. split; [exact Hid|].
    split; [exact Hresb|]. split; [congruence|]. split; [exact Hrun|].
    split; [exact Hinv|]. split; [exact Hs'|]. split; [exact Hr|].
    assert (Hfin : scanouts s' = (fun sl => set_valid sl FALSE) <$> scanouts s)
      by (rewrite Hs'; exact Hinv).
    split; [exact Hfin|]. rewrite Hfin.
    apply Forall_fmap, Forall_forall. intros sl _. reflexivity.
Qed.

(** *** A page flip that fails *)


Lemma fail_flag_set (f : Z) : Z.land (Z.lor f OMAP_SWAP_FAIL) OMAP_SWAP_FAIL <> 0.
Proof.
  rewrite Z.land_lor_distr_l, Z.land_diag. intros H.
  apply Z.lor_eq_0_iff in H as [_ H]. discriminate H.
Qed.

Lemma swap_issue_flip_failed (c pDraw pDstBuffer pSrcBuffer : positive)
    (ncf : Z) (s s' : server) (cmd : OMAPDRISwapCmd) :
  swap_issue E drmmode_scanout_set MAX_SCANOUTS OMAP_USE_PAGE_FLIP_EVENTS
    c pDraw pDstBuffer pSrcBuffer ncf s = Ret FALSE s' ->
  cmds s !! c = Some cmd ->
  exists a b fb l,
    pSrcPixmap cmd = Some a /\ pDstPixmap cmd = Some b /\
    let rr := xsys E l (PageFlip pDraw fb c) in
    let cnt := if OMAP_USE_PAGE_FLIP_EVENTS then int32 (- (rr + 1)) else 0 in
    let P := alter (fun pm => set_pix_refcnt pm (int32 (pix_refcnt pm + 1))) b
               (alter (fun pm => set_pix_refcnt pm (int32 (pix_refcnt pm + 1)))
                  a (pixmaps s)) in
    rr < 0 /\ ncf <> 0 /\ has_resized s = 0 /\
    (cnt = 0 ->
       pixmaps s' = unref_pix b (unref_pix a P) /\
       pending_flips s' = int32 (int32 (pending_flips s + 1) - 1) /\
       cmds s' = delete c (cmds s)) /\
    (cnt <> 0 ->
       pixmaps s' = P /\ pending_flips s' = int32 (pending_flips s + 1) /\
       cmds s' =
         <[c := set_swapCount
                  (set_flags (set_type cmd DRI2_FLIP_COMPLETE)
                     (Z.lor (flags cmd) OMAP_SWAP_FAIL)) cnt]> (cmds s)).
Proof.
  intros H Hc.
  destruct (swap_issue_split _ _ _ _ _ _ _ _ _ H Hc)
    as (a' & b' & fs & fd & sm & Ha & Hb & Hpix & Hpf & Hcm & Hrest).
  clear H. rename Hrest into H.
  destruct (negb (fs =? 0) && negb (fd =? 0) && negb (ncf =? 0)
            && (has_resized s =? 0)) eqn:Hcond.
  2:{ exfalso.
      match type of H with ?m _ = _ =>
        assert (Hp : returns (fun r => r = TRUE) m) by (frame; reflexivity);
        specialize (Hp _ _ _ H); discriminate Hp end. }
  apply andb_prop in Hcond as [Hcond Hhr0]. apply andb_prop in Hcond as [_ Hncf].
  apply Z.eqb_eq in Hhr0. apply negb_true_iff, Z.eqb_neq in Hncf.
  step_u H. name_state H s14.
  apply update_cmd_inv in Hstep as (cm & Hcm14 & Hs14).
  rewrite Hcm, Hc in Hcm14. injection Hcm14 as <-.
  step_u H. name_state H s15. unfold xcall_ in Hstep.
  injection Hstep as Hrr Hs15.
  destruct (a <? 0) eqn:Hneg.
  2:{ exfalso.
      match type of H with ?m _ = _ =>
        assert (Hp : returns (fun r => r = TRUE) m) by (frame; reflexivity);
        specialize (Hp _ _ _ H); discriminate Hp end. }
  apply Z.ltb_lt in Hneg.
  exists a', b', fs, (xlog s14). split; [exact Ha|]. split; [exact Hb|].
  cbv zeta. rewrite Hrr.
  split; [exact Hneg|]. split; [exact Hncf|]. split; [exact Hhr0|].
  step_u H. name_state H s16.
  apply update_cmd_inv in Hstep as (cm & Hcm16 & Hs16).
  assert (cm = set_type cmd DRI2_FLIP_COMPLETE) as ->.
  { subst s15 s14. cbn [cmds set_cmds set_xlog] in Hcm16.
    rewrite lookup_insert_eq in Hcm16. congruence. }
  cbv zeta in H.
  step_u H. name_state H s17.
  apply update_cmd_inv in Hstep as (cm & Hcm17 & Hs17).
  assert (cm = set_flags (set_type cmd DRI2_FLIP_COMPLETE)
                 (Z.lor (flags cmd) OMAP_SWAP_FAIL)) as ->.
  { subst s16. cbn [cmds set_cmds] in Hcm17.
    rewrite lookup_insert_eq in Hcm17. injection Hcm17 as <-. reflexivity. }
  assert (Hp17 : pixmaps s17 = pixmaps sm /\
                 pending_flips s17 = pending_flips sm /\
                 cmds s17 =
                   <[c := set_swapCount
                            (set_flags (set_type cmd DRI2_FLIP_COMPLETE)
                               (Z.lor (flags cmd) OMAP_SWAP_FAIL))
                            (if OMAP_USE_PAGE_FLIP_EVENTS
                             then int32 (- (a + 1)) else 0)]> (cmds s)).
  { subst s17 s16 s15 s14. cbn [pixmaps pending_flips cmds set_cmds set_xlog].
    split; [reflexivity|]. split; [reflexivity|].
    rewrite !insert_insert_eq, Hcm. reflexivity. }
  destruct Hp17 as (Hp17 & Hf17 & Hc17). clear Hs14 Hs15 Hs16 Hs17 Hcm16 Hcm17.
  step_u H. name_state H s18. injection H as <-.
  destruct (_ =? 0) eqn:Hcnt.
  - apply Z.eqb_eq in Hcnt. split; [|intros Hne; contradiction]. intros _.
    assert (Hc17' : cmds s17 !! c =
              Some (set_swapCount
                      (set_flags (set_type cmd DRI2_FLIP_COMPLETE)
                         (Z.lor (flags cmd) OMAP_SWAP_FAIL))
                      (if OMAP_USE_PAGE_FLIP_EVENTS
                       then int32 (- (a + 1)) else 0)))
      by (rewrite Hc17; apply lookup_insert_eq).
    destruct (swap_complete_last_inv c _ _ _ Hstep Hc17'
                (swap_notify_fail_frame
                   (set_swapCount
                      (set_flags (set_type cmd DRI2_FLIP_COMPLETE)
                         (Z.lor (flags cmd) OMAP_SWAP_FAIL))
                      (if OMAP_USE_PAGE_FLIP_EVENTS
                       then int32 (- (a + 1)) else 0))
                   (fail_flag_set (flags cmd))) Hcnt)
      as (a'' & b'' & Ha' & Hb' & Hp18 & Hf18 & Hc18).
    cbn [pSrcPixmap pDstPixmap set_type set_flags set_swapCount] in Ha', Hb'.
    rewrite Ha in Ha'. rewrite Hb in Hb'.
    injection Ha' as <-. injection Hb' as <-.
    split; [congruence|]. split; [congruence|].
    rewrite Hc18, Hc17. apply delete_insert_eq.
  - apply Z.eqb_neq in Hcnt. split; [intros Hz; contradiction|]. intros _.
    injection Hstep as <-. split; [congruence|]. split; [congruence|].
    exact Hc17.
Qed.

(** X21: when [OMAPDRI2ScheduleSwap] answers FALSE although the mode switch
    succeeded, a page flip was attempted (the verdict was to flip and the
    screen had not been resized) and answered a negative number [rr].  With
    no completion signal to wait for (page flip events are off, or
    [rr = -1]) the command has been retired at once: it is freed, and
    [pending_flips] and the pixmaps are as the mode switch left them.
    Otherwise the command stays in flight, marked as failed, waiting for
    [-(rr + 1)] signals, with one more flip pending. *)
Theorem failed_page_flip (cl : Z) (pDraw pDstBuffer pSrcBuffer : positive)
    (fn dt : Z) (s s1 s' : server) (c : positive) (ncf ok : Z) :
  swap_prepare K E drmmode_scanout_from_drawable cl pDraw pDstBuffer
    pSrcBuffer fn dt s = Ret (c, ncf, ok) s1 ->
  ok <> 0 ->
  (forall q pm, pixmaps s !! q = Some pm ->
     INT_MIN <= pix_refcnt pm <= INT_MAX) ->
  INT_MIN <= pending_flips s < INT_MAX ->
  OMAPDRI2ScheduleSwap K E drmmode_scanout_from_drawable drmmode_scanout_set
    MAX_SCANOUTS OMAP_USE_PAGE_FLIP_EVENTS cl pDraw pDstBuffer pSrcBuffer
    fn dt s = Ret FALSE s' ->
  exists fb l,
    let rr := xsys E l (PageFlip pDraw fb c) in
    let cnt := if OMAP_USE_PAGE_FLIP_EVENTS then int32 (- (rr + 1)) else 0 in
    rr < 0 /\ ncf <> 0 /\ has_resized s = 0 /\
    (cnt = 0 ->
       cmds s' = cmds s /\ pending_flips s' = pending_flips s /\
       pixmaps s' = pixmaps s1) /\
    (cnt <> 0 ->
       pending_flips s' = pending_flips s + 1 /\
       exists cmd, cmds s' = <[c := cmd]> (cmds s) /\ cmds s !! c = None /\
         type cmd = DRI2_FLIP_COMPLETE /\ swapCount cmd = cnt /\
         flags cmd = OMAP_SWAP_FAIL /\
         client cmd = cl /\ func cmd = fn /\ data cmd = dt).
Proof.
  intros Hprep Hok Hrange Hpf H.
  unfold OMAPDRI2ScheduleSwap in H. unfold bind at 1 in H.
  rewrite Hprep in H. apply Z.eqb_neq in Hok. rewrite Hok in H.
  destruct (swap_prepare_cmd _ _ _ _ _ _ _ _ _ _ _ Hprep)
    as (cmd & Hc & Hn & Hfl & Hcl & Hfn & Hdt).
  pose proof (swap_prepare_keeps_buffers _ _ _ _ _ _ _ _ _ Hprep) as Hfr.
  injection Hfr as _ Hhr.
  pose proof Hprep as Hprep'.
  apply Dri2Facts.swap_prepare_frame in Hprep'
    as (Hrc & Hpf1 & (cmd' & Hcm & Hfresh) & _).
  destruct (swap_issue_flip_failed _ _ _ _ _ _ _ _ H Hc)
    as (a & b & fb & l & _ & _ & Hrr & Hncf & Hhr0 & Hzero & Hmore).
  exists fb, l. cbv zeta.
  split; [exact Hrr|]. split; [exact Hncf|]. split; [congruence|].
  assert (Hrange1 : forall q pm, pixmaps s1 !! q = Some pm ->
            INT_MIN <= pix_refcnt pm <= INT_MAX).
  { intros q pm Hq.
    assert (Hl : refcnts (pixmaps s) !! q = Some (pix_refcnt pm)).
    { rewrite <- Hrc. unfold refcnts. rewrite lookup_fmap, Hq. reflexivity. }
    unfold refcnts in Hl. rewrite lookup_fmap in Hl.
    destruct (pixmaps s !! q) as [pm0|] eqn:Hq0; [|discriminate].
    injection Hl as <-. exact (Hrange q pm0 Hq0). }
  split.
  - intros Hz. destruct (Hzero Hz) as (Hp & Hf & Hcmd).
    rewrite (pixmap_refs_round_trip _ a b Hrange1) in Hp.
    split; [rewrite Hcmd, Hcm, delete_insert_eq; apply delete_id; exact Hfresh|].
    split; [|exact Hp].
    rewrite Hf, Hpf1. apply int32_up_down. lia.
  - intros Hnz. destruct (Hmore Hnz) as (Hp & Hf & Hcmd).
    split; [rewrite Hf, Hpf1; apply int32_id;
            unfold INT_MIN, INT_MAX in *; lia|].
    eexists. split; [rewrite Hcmd, Hcm, insert_insert_eq; reflexivity|].
    split; [exact Hfresh|]. cbn. rewrite Hfl.
    repeat split; assumption || reflexivity.
Qed.

(** *** Rebinding the destination *)

Lemma reference_then_unreference (p : positive) (b : Dumb.omap_bo)
    (w : Dumb.world) :
  Dumb.bos w !! p = Some b -> 0 < Dumb.refcnt b < INT_MAX ->
  (Dumb.omap_bo_reference (Some p) ;;; Dumb.omap_bo_unreference K (Some p)) w
  = Ret tt w.
Proof.
  intros Hb [H0 Hmax]. unfold bind.
  rewrite (DumbMoreFacts.reference_run p b w Hb H0 Hmax).
  rewrite (DumbMoreFacts.unreference_run_keep K p
             (Dumb.set_refcnt b (Dumb.refcnt b + 1)));
    [|cbn [Dumb.bos]; apply lookup_insert_eq|cbn; lia|cbn; lia].
  cbn [Dumb.bos Dumb.gem Dumb.log]. rewrite insert_insert_eq.
  rewrite DumbMoreFacts.set_refcnt_twice.
  replace (Dumb.refcnt (Dumb.set_refcnt b (Dumb.refcnt b + 1)) - 1)
    with (Dumb.refcnt b) by (cbn; lia).
  rewrite DumbMoreFacts.set_refcnt_id, (insert_id _ _ _ Hb).
  destruct w. reflexivity.
Qed.

(** X22: when the destination pixmap already holds the BO it is to be rebound
    to (the scanout BO of the drawable for a flip, the fallback scanout BO
    otherwise), the rebinding changes nothing: the BO is referenced before
    it is released, so it survives even with a single reference, and its
    count ends as it began.  All that is left is the mode switch in the
    log, whose answer is the result. *)
Theorem rebind_to_same_bo (pDraw : positive) (dst : OMAPDRI2BufferRec)
    (ncf : Z) (s : server) (a p : positive) (pa : PixmapRec)
    (b : Dumb.omap_bo) (d : DrawableRec) :
  pPixmap dst = Some a -> pixmaps s !! a = Some pa -> priv_bo pa = Some p ->
  Dumb.bos (dumb s) !! p = Some b -> 0 < Dumb.refcnt b < INT_MAX ->
  draws s !! pDraw = Some d ->
  (if negb (ncf =? 0) && (has_resized s =? 0)
   then bo <$> drmmode_scanout_from_drawable (scanouts s) d = Some (Some p)
   else scanout s = Some p) ->
  let m := if negb (ncf =? 0) && (has_resized s =? 0)
           then SetFlipMode else SetBlitMode in
  swap_rebind K E drmmode_scanout_from_drawable pDraw dst ncf s =
  Ret (xsys E (xlog s) m) (set_xlog s ((m, xsys E (xlog s) m) :: xlog s)).
Proof.
  intros Hdst Ha Hbo Hb Hrc Hd Htarget. cbv zeta.
  pose proof (reference_then_unreference p b (dumb s) Hb Hrc) as Hru.
  unfold bind in Hru.
  destruct (Dumb.omap_bo_reference (Some p) (dumb s)) as [[] w1|] eqn:Href;
    [|discriminate Hru].
  unfold swap_rebind. unfold bind at 1. cbn [get].
  destruct (negb (ncf =? 0) && (has_resized s =? 0)).
  - destruct (drmmode_scanout_from_drawable (scanouts s) d) as [sl|] eqn:Hsl;
      [|discriminate Htarget].
    cbn in Htarget. injection Htarget as Hsl'.
    rewrite Hdst. unfold load_pix, load_draw.
    unfold bind at 1. rewrite (Dri2Facts.deref_some pixmaps _ _ _ Ha).
    unfold bind at 1. rewrite (Dri2Facts.deref_some draws _ _ _ Hd).
    unfold bind at 1. cbn [get]. rewrite Hsl, Hsl', Hbo.
    cbv [bind store_pix modify lift xcall_].
    cbn [dumb set_pixmaps set_dumb xlog pixmaps]. rewrite Href.
    cbn [dumb set_pixmaps set_dumb xlog pixmaps]. rewrite Hru.
    cbn [dumb set_pixmaps set_dumb set_xlog xlog pixmaps draws winpix
         resources bufs cmds scanouts scanout has_resized pending_flips
         globalSerialNumber].
    rewrite <- Hbo.
    replace (set_priv_bo pa (priv_bo pa)) with pa by (destruct pa; reflexivity).
    rewrite (insert_id _ _ _ Ha). destruct s. reflexivity.
  - rewrite Hdst. unfold bind at 1. cbn [get]. rewrite Htarget.
    cbv [bind lift load_pix deref store_pix modify xcall_].
    rewrite Href. cbv beta iota. cbn [pixmaps set_dumb dumb xlog set_pixmaps].
    rewrite Ha. cbv beta iota. rewrite Hbo.
    cbn [pixmaps set_dumb dumb xlog set_pixmaps]. rewrite Hru. cbv beta iota.
    cbn [dumb set_pixmaps set_dumb set_xlog xlog pixmaps draws winpix
         resources bufs cmds scanouts scanout has_resized pending_flips
         globalSerialNumber].
    rewrite Ha. cbv beta iota. rewrite <- Hbo.
    replace (set_priv_bo pa (priv_bo pa)) with pa by (destruct pa; reflexivity).
    rewrite (insert_id _ _ _ Ha). destruct s. reflexivity.
Qed.

(** ** Closing the screen *)

Lemma drain_inv (wait : X unit) (fuel : nat) (s s1 : server) :
  drain wait fuel s = Ret true s1 ->
  exists n, (n < fuel)%nat /\ iterM n wait s = Ret tt s1 /\
    pending_flips s1 <= 0.
Proof.
  revert s. induction fuel as [|fuel IH]; intros s H; [discriminate|].
  cbn [drain] in H. unfold bind at 1 in H. cbn [get] in H.
  destruct (0 <? pending_flips s) eqn:Epf.
  - step_inv H. apply IH in H as (n & Hn & Hit & Hpf).
    exists (S n). split; [lia|]. split; [|exact Hpf].
    cbn [iterM]. unfold bind at 1. rewrite Hstep. exact Hit.
  - injection H as <-. apply Z.ltb_ge in Epf.
    exists 0%nat. split; [lia|]. split; [reflexivity|exact Epf].
Qed.

(** X23: when [OMAPDRI2CloseScreen] comes to its end, [DRI2CloseScreen] has run
    exactly once, after some number of waits for an event, and in a state
    where no flip was pending any more. *)
Theorem close_screen_only_when_idle (wait close : X unit) (fuel : nat)
    (s s' : server) :
  OMAPDRI2CloseScreen wait close fuel s = Ret true s' ->
  exists n s1, (n < fuel)%nat /\ iterM n wait s = Ret tt s1 /\
    pending_flips s1 <= 0 /\ close s1 = Ret tt s'.
Proof.
  intros H. unfold OMAPDRI2CloseScreen in H. step_inv H.
  destruct a; [|discriminate H].
  apply drain_inv in Hstep as (n & Hn & Hit & Hpf).
  step_inv H. injection H as <-.
  repeat match goal with u : unit |- _ => destruct u end.
  eexists n, _. eauto.
Qed.

Lemma drain_run (wait : X unit) (I : server -> Prop) :
  (forall s, I s -> 0 < pending_flips s ->
     exists s1, wait s = Ret tt s1 /\ I s1 /\
       pending_flips s1 = pending_flips s - 1) ->
  forall (n fuel : nat) (s : server),
    I s -> Z.to_nat (pending_flips s) = n -> (n < fuel)%nat ->
    exists s1, iterM n wait s = Ret tt s1 /\ I s1 /\
      pending_flips s1 = Z.min (pending_flips s) 0 /\
      drain wait fuel s = Ret true s1.
Proof.
  intros Hw. induction n as [|n IH]; intros fuel s HI Hn Hf.
  - destruct fuel as [|fuel]; [lia|]. exists s.
    assert (Hle : pending_flips s <= 0) by lia.
    split; [reflexivity|]. split; [exact HI|]. split; [lia|].
    cbn [drain]. unfold bind, get.
    destruct (0 <? pending_flips s) eqn:Epf; [apply Z.ltb_lt in Epf; lia|].
    reflexivity.
  - destruct fuel as [|fuel]; [lia|].
    assert (Hpos : 0 < pending_flips s) by lia.
    destruct (Hw s HI Hpos) as (s1 & Hws & HI1 & Hpf1).
    destruct (IH fuel s1 HI1 ltac:(lia) ltac:(lia)) as (s2 & Hit & HI2 & Hpf2 & Hd).
    exists s2. split; [cbn [iterM]; unfold bind; rewrite Hws; exact Hit|].
    split; [exact HI2|]. split; [lia|].
    cbn [drain]. unfold bind at 1. cbn [get].
    destruct (0 <? pending_flips s) eqn:Epf; [|apply Z.ltb_ge in Epf; lia].
    unfold bind at 1. rewrite Hws. exact Hd.
Qed.

(** X24: if every event retires one pending flip (as long as an invariant [I]
    of the caller's choice holds, which the events keep), then closing the
    screen waits for exactly [pending_flips] events (none when the count is
    zero or negative) and then hands over to [DRI2CloseScreen], with no flip
    pending. *)
Theorem close_screen_drains (wait close : X unit) (I : server -> Prop)
    (fuel : nat) (s : server) :
  (forall s, I s -> 0 < pending_flips s ->
     exists s1, wait s = Ret tt s1 /\ I s1 /\
       pending_flips s1 = pending_flips s - 1) ->
  I s -> (Z.to_nat (pending_flips s) < fuel)%nat ->
  exists s1,
    iterM (Z.to_nat (pending_flips s)) wait s = Ret tt s1 /\ I s1 /\
    pending_flips s1 = Z.min (pending_flips s) 0 /\
    OMAPDRI2CloseScreen wait close fuel s = (close ;;; ret true) s1.
Proof.
  intros Hw HI Hf.
  destruct (drain_run wait I Hw _ fuel s HI eq_refl Hf)
    as (s1 & Hit & HI1 & Hpf & Hd).
  exists s1. split; [exact Hit|]. split; [exact HI1|]. split; [exact Hpf|].
  unfold OMAPDRI2CloseScreen. unfold bind at 1. rewrite Hd. reflexivity.
Qed.

End WithEnv.

(** ** The properties on concrete servers *)

Lemma get_msc_failures_bounded_witness :
  errors (get_msc_all
            (List.repeat (-1, mk_reply 0 0 0) 7 ++ [(0, mk_reply 9 1 2)])
            (mk_msc 5 0)) = 5%nat /\
  OMAPDRI2GetMSC (-1, mk_reply 9 1 2) (Some 77) (Some 88) (mk_msc 0 5)
    = (FALSE, Some 77, Some 88, mk_msc 0 5).
Proof.
  destruct (get_msc_failures_bounded
              (List.repeat (-1, mk_reply 0 0 0) 7 ++ [(0, mk_reply 9 1 2)]))
    as (Hf & _ & He).
  split; [rewrite He; reflexivity|].
  destruct (Hf (-1, mk_reply 9 1 2) (Some 77) (Some 88) (mk_msc 0 5)
              ltac:(discriminate)) as (_ & _ & _).
  reflexivity.
Defined.

Lemma get_msc_success_witness :
  OMAPDRI2GetMSC (0, mk_reply 9 1 2) (Some 77) None (mk_msc 5 0)
    = (TRUE, Some 1000002, None, mk_msc 5 0).
Proof.
  destruct (get_msc_success (mk_reply 9 1 2) (Some 77) None (mk_msc 5 0))
    as (ust' & msc' & Hrun & _).
  - cbn. lia.
  - cbn. lia.
  - cbn. lia.
  - cbn. lia.
  - reflexivity.
Defined.

Lemma s_init_refcounts_in_range (q : positive) (pm : PixmapRec) :
  pixmaps Dri2Ex.s_init !! q = Some pm -> INT_MIN <= pix_refcnt pm <= INT_MAX.
Proof.
  cbn [pixmaps Dri2Ex.s_init]. intros H.
  apply lookup_insert_Some in H as [[_ <-]|[_ H]]; [cbn; unfold INT_MIN, INT_MAX; lia|].
  apply lookup_insert_Some in H as [[_ <-]|[_ H]]; [cbn; unfold INT_MIN, INT_MAX; lia|].
  apply lookup_singleton_Some in H as [_ <-]. cbn. unfold INT_MIN, INT_MAX. lia.
Qed.

Lemma swap_complete_frame_witness :
  let s' := Dri2Ex.server_of
              (OMAPDRI2SwapComplete Dri2Ex.E_ok Dri2Ex.scanout_set 3 40%positive
                 (MoreEx.with_cmd_held Dri2Ex.cmd_flip1)) in
  dumb s' = dumb Dri2Ex.s_init /\ bufs s' = bufs Dri2Ex.s_init /\
  priv_bo <$> pixmaps s' !! 10%positive = Some (Some 2%positive) /\
  pix_refcnt <$> pixmaps s' !! 10%positive = Some 1 /\
  pix_refcnt <$> pixmaps s' !! 11%positive = Some 1.
Proof.
  intros s'.
  destruct (swap_complete_frame Dri2Ex.E_ok Dri2Ex.scanout_set 3 40%positive
              Dri2Ex.cmd_flip1 (MoreEx.with_cmd_held Dri2Ex.cmd_flip1) s')
    as (_ & Hd & _ & _ & _ & Hb & _).
  - vm_compute. reflexivity.
  - intros _ q pm Hq Hl.
    assert (Hpm : pm = mk_pixmap 2 (Some 2%positive) \/
                  pm = mk_pixmap 2 (Some 1%positive)).
    { destruct Hq as [Hq|Hq]; injection Hq as <-;
        vm_compute in Hl; injection Hl as <-; auto. }
    split.
    + destruct Hpm as [-> | ->]; vm_compute; (split; [reflexivity|discriminate]).
    + intros Hsame. discriminate Hsame.
  - vm_compute. reflexivity.
  - split; [exact Hd|]. split; [exact Hb|]. vm_compute. repeat split; reflexivity.
Defined.

Lemma copy_region_effect_witness :
  exists s' l,
    OMAPDRI2CopyRegion Dri2Ex.E_ok 20%positive 30%positive 31%positive
      Dri2Ex.s_init = Ret tt s' /\
    s' = set_xlog Dri2Ex.s_init l.
Proof.
  pose (s' := Dri2Ex.server_of
                (OMAPDRI2CopyRegion Dri2Ex.E_ok 20%positive 30%positive
                   31%positive Dri2Ex.s_init)).
  assert (Hrun : OMAPDRI2CopyRegion Dri2Ex.E_ok 20%positive 30%positive
                   31%positive Dri2Ex.s_init = Ret tt s')
    by (vm_compute; reflexivity).
  destruct (copy_region_effect Dri2Ex.E_ok 20%positive 30%positive 31%positive
              Dri2Ex.s_init s' Hrun)
    as (bs & bd & dd & _ & _ & _ & [[_ Hs] | [_ (d & _ & Hs)]]);
    exists s'; eexists; (split; [exact Hrun|exact Hs]).
Defined.

Lemma destroy_buffer_drops_one_reference_witness :
  exists s',
    OMAPDRI2DestroyBuffer Dri2Ex.E_ok (Some 20%positive) 31%positive
      MoreEx.s_held = Ret tt s' /\
    pix_refcnt <$> pixmaps s' !! 11%positive = Some 1 /\
    OMAPDRI2DestroyBuffer Dri2Ex.E_ok (Some 20%positive) 31%positive s'
      = Abort.
Proof.
  destruct (destroy_buffer_drops_one_reference Dri2Ex.E_ok (Some 20%positive)
              31%positive 11%positive (mk_buffer 1 (Some 11%positive) (-1))
              (mk_pixmap 2 (Some 2%positive))
              (mk_drawable DRAWABLE_PIXMAP 0 0 0 64 64 24 0) MoreEx.s_held)
    as (Hrun & Hrc & _ & Hagain).
  - vm_compute. reflexivity.
  - reflexivity.
  - vm_compute. reflexivity.
  - vm_compute. reflexivity.
  - vm_compute. split; [reflexivity|discriminate].
  - eexists. split; [exact Hrun|]. split; [exact Hrc|exact Hagain].
Defined.

Lemma unnotified_completion_is_silent_witness :
  exists s',
    OMAPDRI2SwapComplete Dri2Ex.E_ok Dri2Ex.scanout_set 3 40%positive
      (Dri2Ex.with_cmd Dri2Ex.cmd_blit_gone) = Ret tt s' /\
    cmds s' = ∅ /\ scanouts s' = scanouts Dri2Ex.s_init /\
    List.filter is_notify (xlog s') = [].
Proof.
  destruct (unnotified_completion_is_silent Dri2Ex.E_ok Dri2Ex.scanout_set 3
              40%positive Dri2Ex.cmd_blit_gone
              (Dri2Ex.with_cmd Dri2Ex.cmd_blit_gone) 11%positive 10%positive
              (mk_pixmap 1 (Some 2%positive)) (mk_pixmap 1 (Some 1%positive)))
    as (s' & Hrun & Hc & _ & _ & _ & Hsc & Hn).
  - vm_compute. reflexivity.
  - vm_compute. discriminate.
  - reflexivity.
  - reflexivity.
  - vm_compute. reflexivity.
  - vm_compute. reflexivity.
  - right. vm_compute. reflexivity.
  - exists s'. split; [exact Hrun|]. split; [rewrite Hc; vm_compute; reflexivity|].
    split; [exact Hsc|exact Hn].
Defined.

Lemma schedule_swap_outcome_witness :
  exists s',
    OMAPDRI2ScheduleSwap DumbEx.K_ok Dri2Ex.E_ok Dri2Ex.from_drawable
      Dri2Ex.scanout_set 3 true 9 20%positive 30%positive 31%positive 0 0
      Dri2Ex.s_init = Ret TRUE s' /\
    canflip Dri2Ex.from_drawable 20%positive (Some 2%positive) Dri2Ex.s_init
      = Ret TRUE Dri2Ex.s_init /\
    previous_canflip <$> bufs s' !! 31%positive = Some TRUE /\
    previous_canflip <$> bufs s' !! 30%positive = Some TRUE.
Proof.
  pose (s' := Dri2Ex.server_of
                (OMAPDRI2ScheduleSwap DumbEx.K_ok Dri2Ex.E_ok
                   Dri2Ex.from_drawable Dri2Ex.scanout_set 3 true 9
                   20%positive 30%positive 31%positive 0 0 Dri2Ex.s_init)).
  assert (Hrun : OMAPDRI2ScheduleSwap DumbEx.K_ok Dri2Ex.E_ok
                   Dri2Ex.from_drawable Dri2Ex.scanout_set 3 true 9
                   20%positive 30%positive 31%positive 0 0 Dri2Ex.s_init
                 = Ret TRUE s') by (vm_compute; reflexivity).
  destruct (schedule_swap_outcome DumbEx.K_ok Dri2Ex.E_ok Dri2Ex.from_drawable
              Dri2Ex.scanout_set 3 true 9 20%positive 30%positive 31%positive
              0 0 TRUE Dri2Ex.s_init s' Hrun)
    as (c & ncf & ok & s1 & src & sp & Hprep & Hbuf & Hpix & Hcan & _ & _ & Hok).
  vm_compute in Hbuf. injection Hbuf as <-.
  vm_compute in Hpix. injection Hpix as <-.
  assert (Hncf : ncf = TRUE).
  { vm_compute in Hcan. injection Hcan as <-. reflexivity. }
  subst ncf.
  assert (Hne : ok <> 0).
  { vm_compute in Hprep. injection Hprep as _ <- _. discriminate. }
  destruct (Hok Hne) as (Hsrc & Hdst & _).
  exists s'. split; [exact Hrun|]. split; [exact Hcan|].
  split; [exact Hsrc|exact Hdst].
Defined.

Lemma blit_swap_is_synchronous_witness :
  exists s',
    OMAPDRI2ScheduleSwap DumbEx.K_ok Dri2Ex.E_ok Dri2Ex.from_drawable
      Dri2Ex.scanout_set 3 true 9 12%positive 32%positive 31%positive 0 0
      Dri2Ex.s_init = Ret TRUE s' /\
    cmds s' = ∅ /\ pending_flips s' = 0 /\
    refcnts (pixmaps s') = refcnts (pixmaps Dri2Ex.s_init).
Proof.
  pose (s' := Dri2Ex.server_of
                (OMAPDRI2ScheduleSwap DumbEx.K_ok Dri2Ex.E_ok
                   Dri2Ex.from_drawable Dri2Ex.scanout_set 3 true 9
                   12%positive 32%positive 31%positive 0 0 Dri2Ex.s_init)).
  pose (s1 := Dri2Ex.server_of
                (swap_prepare DumbEx.K_ok Dri2Ex.E_ok Dri2Ex.from_drawable
                   9 12%positive 32%positive 31%positive 0 0 Dri2Ex.s_init)).
  destruct (blit_swap_is_synchronous DumbEx.K_ok Dri2Ex.E_ok
              Dri2Ex.from_drawable Dri2Ex.scanout_set 3 true 9 12%positive
              32%positive 31%positive 0 0 TRUE Dri2Ex.s_init s1 s'
              1%positive 0 1)
    as (Hc & Hpf & Hrc & _).
  - vm_compute. reflexivity.
  - discriminate.
  - left. reflexivity.
  - exact s_init_refcounts_in_range.
  - vm_compute. split; discriminate.
  - vm_compute. reflexivity.
  - exists s'. split; [vm_compute; reflexivity|].
    split; [exact Hc|]. split; [exact Hpf|exact Hrc].
Defined.

(** C4 at concrete inputs: the completion of a blit command in a registry
    with two valid slots, and a swap of the off-screen pixmap, which cannot
    flip and is blitted. *)
Lemma blit_completion_invalidates_witness :
  (exists s',
     OMAPDRI2SwapComplete Dri2Ex.E_ok Dri2Ex.scanout_set 3 40%positive
       (Dri2Ex.with_cmd Dri2Ex.cmd_blit) = Ret tt s' /\
     scanouts s' = [mk_scanout (Some 1%positive) 0 0 FALSE;
                    mk_scanout None 64 0 FALSE;
                    mk_scanout None 128 0 FALSE]) /\
  (exists s',
     OMAPDRI2ScheduleSwap DumbEx.K_ok Dri2Ex.E_ok Dri2Ex.from_drawable
       Dri2Ex.scanout_set 3 true 9 12%positive 32%positive 31%positive 0 0
       Dri2Ex.s_init = Ret TRUE s' /\
     scanouts s' = [mk_scanout (Some 1%positive) 0 0 FALSE;
                    mk_scanout None 64 0 FALSE;
                    mk_scanout None 128 0 FALSE]).
Proof.
  destruct (blit_completion_invalidates DumbEx.K_ok Dri2Ex.E_ok
              Dri2Ex.from_drawable Dri2Ex.scanout_set 3 true) as [HA HB].
  split.
  - destruct (HA 40%positive Dri2Ex.cmd_blit (Dri2Ex.with_cmd Dri2Ex.cmd_blit)
                11%positive 10%positive 20%positive
                (mk_pixmap 1 (Some 2%positive)) (mk_pixmap 1 (Some 1%positive)))
      as (s' & Hrun & Hsc & _).
    + reflexivity.
    + vm_compute. discriminate.
    + reflexivity.
    + reflexivity.
    + reflexivity.
    + reflexivity.
    + reflexivity.
    + reflexivity.
    + reflexivity.
    + cbn. lia.
    + exists s'. split; [exact Hrun|]. rewrite Hsc. reflexivity.
  - pose (s' := Dri2Ex.server_of
                  (OMAPDRI2ScheduleSwap DumbEx.K_ok Dri2Ex.E_ok
                     Dri2Ex.from_drawable Dri2Ex.scanout_set 3 true 9
                     12%positive 32%positive 31%positive 0 0 Dri2Ex.s_init)).
    pose (s1 := Dri2Ex.server_of
                  (swap_prepare DumbEx.K_ok Dri2Ex.E_ok Dri2Ex.from_drawable
                     9 12%positive 32%positive 31%positive 0 0 Dri2Ex.s_init)).
    destruct (HB 9 12%positive 32%positive 31%positive 0 0 TRUE
                Dri2Ex.s_init s1 s' 1%positive 0 1
                (mk_drawable DRAWABLE_PIXMAP 103 0 0 64 64 24 0) 12%positive)
      as (cmd & sb & sc & _ & _ & _ & _ & _ & _ & _ & _ & _ & _ & _ & Hsc & _).
    + reflexivity.
    + reflexivity.
    + cbn. lia.
    + vm_compute. reflexivity.
    + discriminate.
    + vm_compute. reflexivity.
    + vm_compute. reflexivity.
    + exists s'. split; [vm_compute; reflexivity|]. rewrite Hsc. reflexivity.
Defined.

Lemma failed_page_flip_witness :
  exists s',
    OMAPDRI2ScheduleSwap DumbEx.K_ok MoreEx.E_flipfail Dri2Ex.from_drawable
      Dri2Ex.scanout_set 3 true 9 20%positive 30%positive 31%positive 0 0
      Dri2Ex.s_init = Ret FALSE s' /\
    cmds s' = ∅ /\ pending_flips s' = 0.
Proof.
  pose (s' := Dri2Ex.server_of
                (OMAPDRI2ScheduleSwap DumbEx.K_ok MoreEx.E_flipfail
                   Dri2Ex.from_drawable Dri2Ex.scanout_set 3 true 9
                   20%positive 30%positive 31%positive 0 0 Dri2Ex.s_init)).
  pose (s1 := Dri2Ex.server_of
                (swap_prepare DumbEx.K_ok MoreEx.E_flipfail
                   Dri2Ex.from_drawable 9 20%positive 30%positive 31%positive
                   0 0 Dri2Ex.s_init)).
  destruct (failed_page_flip DumbEx.K_ok MoreEx.E_flipfail
              Dri2Ex.from_drawable Dri2Ex.scanout_set 3 true 9 20%positive
              30%positive 31%positive 0 0 Dri2Ex.s_init s1 s' 1%positive 1 1)
    as (fb & l & _ & _ & _ & Hzero & _).
  - vm_compute. reflexivity.
  - discriminate.
  - exact s_init_refcounts_in_range.
  - vm_compute. split; [discriminate|reflexivity].
  - vm_compute. reflexivity.
  - destruct (Hzero eq_refl) as (Hc & Hpf & _).
    exists s'. split; [vm_compute; reflexivity|].
    split; [exact Hc|exact Hpf].
Defined.

Lemma rebind_to_same_bo_witness :
  swap_rebind DumbEx.K_ok Dri2Ex.E_ok Dri2Ex.from_drawable 20%positive
    (mk_buffer DRI2BufferFrontLeft (Some 10%positive) (-1)) TRUE Dri2Ex.s_init
  = Ret 1 (set_xlog Dri2Ex.s_init [(SetFlipMode, 1)]).
Proof.
  apply (rebind_to_same_bo DumbEx.K_ok Dri2Ex.E_ok Dri2Ex.from_drawable
           20%positive (mk_buffer DRI2BufferFrontLeft (Some 10%positive) (-1))
           TRUE Dri2Ex.s_init 10%positive 1%positive
           (mk_pixmap 1 (Some 1%positive)) (Dri2Ex.bo64 1 5)
           (mk_drawable DRAWABLE_WINDOW 100 0 0 64 64 24 0)).
  - reflexivity.
  - vm_compute. reflexivity.
  - reflexivity.
  - vm_compute. reflexivity.
  - vm_compute. split; reflexivity.
  - vm_compute. reflexivity.
  - vm_compute. reflexivity.
Defined.

Lemma close_screen_only_when_idle_witness :
  exists n s1,
    (n < 5)%nat /\
    iterM n (OMAPDRI2SwapComplete Dri2Ex.E_ok Dri2Ex.scanout_set 3 40%positive)
      (set_pending_flips (Dri2Ex.with_cmd Dri2Ex.cmd_flip1) 1) = Ret tt s1 /\
    pending_flips s1 <= 0.
Proof.
  pose (s0 := set_pending_flips (Dri2Ex.with_cmd Dri2Ex.cmd_flip1) 1).
  pose (wait := OMAPDRI2SwapComplete Dri2Ex.E_ok Dri2Ex.scanout_set 3
                  40%positive).
  destruct (close_screen_only_when_idle wait (ret tt) 5 s0
              (Dri2Ex.server_of (OMAPDRI2CloseScreen wait (ret tt) 5 s0)))
    as (n & s1 & Hn & Hit & Hpf & _).
  - vm_compute. reflexivity.
  - exists n, s1. split; [exact Hn|]. split; [exact Hit|exact Hpf].
Defined.

Lemma close_screen_drains_witness :
  exists s1,
    OMAPDRI2SwapComplete Dri2Ex.E_ok Dri2Ex.scanout_set 3 40%positive
      (set_pending_flips (Dri2Ex.with_cmd Dri2Ex.cmd_flip1) 1) = Ret tt s1 /\
    pending_flips s1 = 0 /\
    OMAPDRI2CloseScreen
      (OMAPDRI2SwapComplete Dri2Ex.E_ok Dri2Ex.scanout_set 3 40%positive)
      (ret tt) 2 (set_pending_flips (Dri2Ex.with_cmd Dri2Ex.cmd_flip1) 1)
    = Ret true s1.
Proof.
  pose (s0 := set_pending_flips (Dri2Ex.with_cmd Dri2Ex.cmd_flip1) 1).
  pose (wait := OMAPDRI2SwapComplete Dri2Ex.E_ok Dri2Ex.scanout_set 3
                  40%positive).
  destruct (close_screen_drains wait (ret tt)
              (fun st => st = s0 \/ pending_flips st <= 0) 2 s0)
    as (s1 & Hit & _ & Hpf & Hclose).
  - intros st [-> | Hle] Hpos; [|lia].
    exists (Dri2Ex.server_of (wait s0)).
    split; [vm_compute; reflexivity|].
    split; [right; vm_compute; discriminate|vm_compute; reflexivity].
  - left. reflexivity.
  - vm_compute. lia.
  - exists s1. split; [|split; [exact Hpf|exact Hclose]].
    change (Z.to_nat (pending_flips s0)) with 1%nat in Hit.
    cbn [iterM] in Hit. unfold bind in Hit.
    destruct (wait s0) as [[] s2|] eqn:Hw; [|discriminate Hit].
    injection Hit as <-. exact Hw.
Defined.

End Dri2MoreFacts.
